(** * pyroSAR: scene identification, metadata normalisation and the scene archive

    A shallow embedding of [pyroSAR/pyroSAR.py] (Python 2.7): the scene
    identifier [identify] / [identify_many], the handler front ends
    ([ID.examine], [ID.findfiles] and the file-name patterns of the five
    handler classes), [ID.outname_base], [ID.parse_date],
    [CEOS_PSR.scanMetadata] with its loop over the trailer of the leader
    file, and [Archive.insert] / [Archive.select] with the statements they
    send to the data base.

    Python exceptions are values of [exn]; a call that may raise returns a
    [result].  Collaborators that live outside the module (GDAL, OSR, the XML
    parser, [ancillary.finder], the reading of files and archive members) are
    fields of a record [externals] that the handlers receive; what the data
    base engine decides (the geometry of a scene, the comparison that a
    quoted token stands for, the order of the fetched rows) are fields of a
    record [Archive.engine]. *)

From Stdlib Require Import String Ascii List ZArith Lia Bool Arith DecimalString Permutation.
Import ListNotations.

Local Open Scope string_scope.
Local Open Scope list_scope.

(* ------------------------------------------------------------------ *)
(** ** Python values that cross function boundaries: exceptions and results *)

Module Py.

(** The exception classes that the module raises or lets through. *)
Inductive exn : Type :=
| IOError (msg : string)
| KeyError (key : string)
| ValueError (msg : string)
| IndexError (msg : string)
| AttributeError (msg : string)
| TypeError (msg : string)
| RuntimeError (msg : string)
| StructError (msg : string)
| IntegrityError (msg : string)
| OperationalError (msg : string)
| ProgrammingError (msg : string)
| UnicodeEncodeError (msg : string)
| Hang.   (* no exception: the call does not return; nothing catches it *)

Inductive result (A : Type) : Type :=
| Ok (a : A)
| Raise (e : exn).

Arguments Ok {A} a.
Arguments Raise {A} e.

Definition bind {A B : Type} (m : result A) (k : A -> result B) : result B :=
  match m with
  | Ok a => k a
  | Raise e => Raise e
  end.

Definition is_ok {A : Type} (m : result A) : bool :=
  match m with Ok _ => true | Raise _ => false end.

Definition is_IOError (e : exn) : bool :=
  match e with IOError _ => true | _ => false end.

Definition is_KeyError (e : exn) : bool :=
  match e with KeyError _ => true | _ => false end.

(** [UnicodeEncodeError] is a subclass of [ValueError]. *)
Definition is_ValueError (e : exn) : bool :=
  match e with ValueError _ | UnicodeEncodeError _ => true | _ => false end.

Definition is_TypeError (e : exn) : bool :=
  match e with TypeError _ => true | _ => false end.

Definition is_IndexError (e : exn) : bool :=
  match e with IndexError _ => true | _ => false end.

(** A list comprehension [[f(x) for x in l]] whose body may raise: the
    items are evaluated in their order and the first exception leaves the
    comprehension. *)
Fixpoint mapM {A B : Type} (f : A -> result B) (l : list A) : result (list B) :=
  match l with
  | [] => Ok []
  | x :: rest =>
      match f x with
      | Ok y =>
          match mapM f rest with
          | Ok ys => Ok (y :: ys)
          | Raise e => Raise e
          end
      | Raise e => Raise e
      end
  end.

End Py.

Import Py.

Notation "'let*' x ':=' m 'in' k" := (Py.bind m (fun x => k))
  (at level 10, x name, m at level 100, k at level 200).

(* ------------------------------------------------------------------ *)
(** ** Characters and strings the way the Python code uses them *)

Module Str.

Definition chars (s : string) : list ascii := list_ascii_of_string s.
Definition of_chars (l : list ascii) : string := string_of_list_ascii l.

Definition code (c : ascii) : nat := nat_of_ascii c.

Definition in_range (lo hi : nat) (c : ascii) : bool :=
  (lo <=? code c)%nat && (code c <=? hi)%nat.

Definition is_digit (c : ascii) : bool := in_range 48 57 c.
Definition is_upper (c : ascii) : bool := in_range 65 90 c.
Definition is_lower (c : ascii) : bool := in_range 97 122 c.

Definition lower (c : ascii) : ascii :=
  if is_upper c then ascii_of_nat (code c + 32) else c.

Definition upper (c : ascii) : ascii :=
  if is_lower c then ascii_of_nat (code c - 32) else c.

(** [\s] of the [re] module for byte strings: space, TAB, LF, VT, FF, CR. *)
Definition is_space (c : ascii) : bool :=
  Nat.eqb (code c) 32 || in_range 9 13 c.

Definition slash : ascii := "/"%char.
Definition newline : ascii := ascii_of_nat 10.

Definition is_slash (c : ascii) : bool := Ascii.eqb c slash.

Fixpoint lstrip_chars (p : ascii -> bool) (l : list ascii) : list ascii :=
  match l with
  | c :: t => if p c then lstrip_chars p t else l
  | [] => []
  end.

Definition rstrip_chars (p : ascii -> bool) (l : list ascii) : list ascii :=
  rev (lstrip_chars p (rev l)).

(** [s.strip('/')] *)
Definition strip_slash (s : string) : string :=
  of_chars (rstrip_chars is_slash (lstrip_chars is_slash (chars s))).

(** [s.endswith('/')] *)
Definition endswith_slash (s : string) : bool :=
  match rev (chars s) with
  | c :: _ => is_slash c
  | [] => false
  end.

(** The part of [l] after its last slash, accumulated in [acc]. *)
Fixpoint after_last_slash (l acc : list ascii) : list ascii :=
  match l with
  | [] => acc
  | c :: t => if is_slash c then after_last_slash t [] else after_last_slash t (acc ++ [c])
  end.

(** [os.path.basename] (posixpath): everything after the last slash. *)
Definition basename (s : string) : string :=
  of_chars (after_last_slash (chars s) []).

(** [os.path.join(a, b)] (posixpath), for two components. *)
Definition join (a b : string) : string :=
  match chars b with
  | c :: _ =>
      if is_slash c then b
      else if (String.eqb a "" || endswith_slash a)%bool then a ++ b
           else a ++ "/" ++ b
  | [] => if (String.eqb a "" || endswith_slash a)%bool then a else a ++ "/"
  end.

(** ['sep'.join(parts)] *)
Fixpoint join_with (sep : string) (parts : list string) : string :=
  match parts with
  | [] => ""
  | [p] => p
  | p :: rest => p ++ sep ++ join_with sep rest
  end.

(** [x.lower()] and [x.upper()] on a whole string. *)
Definition lower_str (s : string) : string := of_chars (map lower (chars s)).
Definition upper_str (s : string) : string := of_chars (map upper (chars s)).

(** The string made of [n] copies of [c]. *)
Fixpoint replicate (n : nat) (c : ascii) : string :=
  match n with
  | O => ""
  | S k => String c (replicate k c)
  end.

Definition mem (s : string) (l : list string) : bool :=
  existsb (String.eqb s) l.

(** Every character of [s] is below 128. *)
Definition is_ascii (s : string) : bool :=
  forallb (fun c => (code c <? 128)%nat) (chars s).

End Str.

(* ------------------------------------------------------------------ *)
(** ** Regular expressions: the fragment of [re] that the patterns use

    Matching is by Brzozowski derivatives.  [re.search] and [re.match] of
    Python backtrack exhaustively, so whether they find a match is a question
    of language membership, which derivatives decide.  *)

Module Re.

Inductive re : Type :=
| Void
| Eps
| Cls (p : ascii -> bool)
| Cat (a b : re)
| Alt (a b : re)
| Star (a : re).

Fixpoint nullable (r : re) : bool :=
  match r with
  | Void => false
  | Eps => true
  | Cls _ => false
  | Cat a b => nullable a && nullable b
  | Alt a b => nullable a || nullable b
  | Star _ => true
  end.

Definition cat (a b : re) : re :=
  match a, b with
  | Void, _ => Void
  | _, Void => Void
  | Eps, _ => b
  | _, Eps => a
  | _, _ => Cat a b
  end.

Definition alt (a b : re) : re :=
  match a, b with
  | Void, _ => b
  | _, Void => a
  | _, _ => Alt a b
  end.

Fixpoint deriv (c : ascii) (r : re) : re :=
  match r with
  | Void => Void
  | Eps => Void
  | Cls p => if p c then Eps else Void
  | Cat a b => alt (cat (deriv c a) b) (if nullable a then deriv c b else Void)
  | Alt a b => alt (deriv c a) (deriv c b)
  | Star a => cat (deriv c a) (Star a)
  end.

(** The whole of [s] is a word of [r]. *)
Fixpoint fullmatch (r : re) (s : list ascii) : bool :=
  match s with
  | [] => nullable r
  | c :: t => fullmatch (deriv c r) t
  end.

(** *** Building blocks *)

Definition chr (c : ascii) : re := Cls (Ascii.eqb c).
Definition any : re := Cls (fun _ => true).
Definition digit : re := Cls Str.is_digit.
Definition upper : re := Cls Str.is_upper.
Definition oneof (s : string) : re :=
  Cls (fun c => existsb (Ascii.eqb c) (Str.chars s)).
Definition range (lo hi : ascii) : re :=
  Cls (Str.in_range (Str.code lo) (Str.code hi)).
Definition union (p q : re) : re := Alt p q.

Fixpoint lit_chars (l : list ascii) : re :=
  match l with
  | [] => Eps
  | [c] => chr c
  | c :: t => Cat (chr c) (lit_chars t)
  end.

Definition lit (s : string) : re := lit_chars (Str.chars s).

Fixpoint seq (rs : list re) : re :=
  match rs with
  | [] => Eps
  | [r] => r
  | r :: t => Cat r (seq t)
  end.

Fixpoint alts (rs : list re) : re :=
  match rs with
  | [] => Void
  | [r] => r
  | r :: t => Alt r (alts t)
  end.

(** [r{n}] *)
Fixpoint rep (n : nat) (r : re) : re :=
  match n with
  | O => Eps
  | S O => r
  | S k => Cat r (rep k r)
  end.

(** [r{n,}] *)
Definition at_least (n : nat) (r : re) : re := cat (rep n r) (Star r).

(** [r?] *)
Definition opt (r : re) : re := Alt r Eps.

(** A pattern as the code writes it: an optional [^], a body, an optional
    [$].  Without [re.MULTILINE], [^] holds at position 0 only and [$]
    holds at the end of the string or just before a final newline. *)
Record pattern : Type := Pattern {
  bol : bool;
  body : re;
  eol : bool
}.

Definition tail (p : pattern) : re :=
  if eol p then opt (chr Str.newline) else Star any.

(** A match of [p] that starts exactly at the head of [s]. *)
Definition match_here (p : pattern) (s : list ascii) : bool :=
  fullmatch (cat (body p) (tail p)) s.

Fixpoint match_somewhere (p : pattern) (s : list ascii) : bool :=
  match_here p s ||
  match s with
  | [] => false
  | _ :: t => match_somewhere p t
  end.

(** [re.search(p, s)] is not [None]. *)
Definition search (p : pattern) (s : string) : bool :=
  if bol p then match_here p (Str.chars s) else match_somewhere p (Str.chars s).

(** [re.match(p, s)] is not [None]. *)
Definition matches (p : pattern) (s : string) : bool :=
  match_here p (Str.chars s).

End Re.

(* ------------------------------------------------------------------ *)
(** ** The file-name patterns of the handler classes *)

Module Patterns.
Import Re.

Definition us : re := chr "_"%char.
Definition dash : re := chr "-"%char.
Definition dot : re := chr "."%char.
Definition digits (n : nat) : re := rep n digit.
Definition hex_upper : re := union digit (range "A"%char "F"%char).
Definition hex_lower : re := union digit (range "a"%char "f"%char).

(** [(?:IM(?:S|P|G|M|_)|AP(?:S|P|G|M|_)|WV(?:I|S|W|_)|WS(?:M|S|_))] *)
Definition image_mode : re :=
  alts [ Cat (lit "IM") (oneof "SPGM_");
         Cat (lit "AP") (oneof "SPGM_");
         Cat (lit "WV") (oneof "ISW_");
         Cat (lit "WS") (oneof "MS_") ].

(** Group [product_id]: ten characters. *)
Definition product_id : re :=
  seq [ alts [lit "SAR"; lit "ASA"]; us; image_mode; us; oneof "012B"; oneof "CP" ].

(** What follows [product_id] up to the satellite id, shared by [CEOS_ERS]
    and [ESA]. *)
Definition esa_name_rest : re :=
  seq [ upper;                                   (* processing_stage_flag *)
        rep 3 (union upper dash);                (* originator_ID *)
        digits 8; us;                            (* start_day *)
        digits 6; us;                            (* start_time *)
        digits 8;                                (* duration *)
        union digit upper;                       (* phase *)
        digits 3; us;                            (* cycle *)
        digits 5; us;                            (* relative_orbit *)
        digits 5; us;                            (* absolute_orbit *)
        at_least 4 digit; dot;                   (* counter *)
        oneof "EN"; oneof "12" ].                (* satellite_ID *)

(** [CEOS_ERS.pattern] *)
Definition ceos_ers : pattern :=
  Pattern false
    (seq [ product_id; esa_name_rest;
           alts [lit ".zip"; lit ".tar.gz"; lit ".PS"; Eps] ])
    true.

(** [ESA.pattern]: as [CEOS_ERS.pattern] without the [.PS] extension. *)
Definition esa : pattern :=
  Pattern false
    (seq [ product_id; esa_name_rest;
           alts [lit ".zip"; lit ".tar.gz"; Eps] ])
    true.

(** [pattern_pid] of [CEOS_ERS] and [ESA]. *)
Definition pattern_pid : pattern := Pattern false product_id false.

(** The literal ['IM__0'] searched in the product id. *)
Definition level0 : pattern := Pattern false (lit "IM__0") false.

(** [CEOS_PSR]: the PALSAR-1 and the PALSAR-2 leader file names. *)
Definition ceos_psr1 : pattern :=
  Pattern true
    (seq [ lit "LED-ALPSR"; oneof "PS"; digits 5; digits 4; dash;
           oneof "HWDPC";
           seq [chr "1"%char; dot; oneof "015"];
           oneof "G_"; oneof "UPML_"; oneof "AD" ])
    true.

Definition psr2_modes : list string :=
  ["SBS"; "UBS"; "UBD"; "HBS"; "HBD"; "HBQ"; "FBS"; "FBD"; "FBQ";
   "WBS"; "WBD"; "WWS"; "WWD"; "VBS"; "VBD"].

Definition ceos_psr2 : pattern :=
  Pattern true
    (seq [ lit "LED-ALOS2"; digits 5; digits 4; dash; digits 6; dash;
           alts (map lit psr2_modes);
           oneof "LR";
           alts (map lit ["1.0"; "1.1"; "1.5"; "2.1"; "3.1"]);
           oneof "GR_"; oneof "UPML_"; oneof "AD" ])
    true.

Definition ceos_psr : list pattern := [ceos_psr1; ceos_psr2].

(** [SAFE.pattern] *)
Definition safe : pattern :=
  Pattern true
    (seq [ lit "S1"; oneof "AB"; us;
           alts (map lit ["S1"; "S2"; "S3"; "S4"; "S5"; "S6"; "IW"; "EW"; "WV";
                          "EN"; "N1"; "N2"; "N3"; "N4"; "N5"; "N6"; "IM"]); us;
           alts (map lit ["SLC"; "GRD"; "OCN"]); oneof "FHM_"; us;
           oneof "12"; oneof "SA";
           alts (map lit ["SH"; "SV"; "DH"; "DV"; "VV"; "HH"; "HV"; "VH"]); us;
           digits 8; chr "T"%char; digits 6; us;
           digits 8; chr "T"%char; digits 6; us;
           digits 6; us;
           rep 6 hex_upper; us;
           rep 4 hex_upper;
           lit ".SAFE" ])
    true.

(** [SAFE.pattern_ds] *)
Definition safe_ds : pattern :=
  Pattern true
    (seq [ lit "s1"; oneof "ab"; dash;
           alts [ Cat (chr "s"%char) (oneof "123456");
                  Cat (lit "iw") (opt (oneof "123"));
                  Cat (lit "ew") (opt (oneof "12345"));
                  Cat (lit "wv") (oneof "12");
                  Cat (chr "n"%char) (oneof "123456") ]; dash;
           alts (map lit ["slc"; "grd"; "ocn"]); dash;
           alts (map lit ["hh"; "hv"; "vv"; "vh"]); dash;
           digits 8; chr "t"%char; digits 6; dash;
           digits 8; chr "t"%char; digits 6; dash;
           digits 6; dash; rep 6 hex_lower; dash;
           digits 3;
           lit ".xml" ])
    true.

(** [TSX.pattern] *)
Definition tsx : pattern :=
  Pattern true
    (seq [ chr "T"%char; oneof "DS"; lit "X1"; lit "_SAR__";
           alts (map lit ["SSC"; "MGD"; "GEC"; "EEC"]); us;
           alts (map lit ["____"; "SE__"; "RE__"; "MON1"; "MON2"; "BTX1"; "BRX2"]); us;
           alts (map lit ["SM"; "SL"; "HS"; "HS300"; "ST"; "SC"]); us;
           oneof "SDTQ"; us;
           alts (map lit ["SRA"; "DRA"]); us;
           digits 8; chr "T"%char; digits 6; us;
           digits 8; chr "T"%char; digits 6;
           alts [lit ".xml"; Eps] ])
    true.

(** ['summary|workreport'] and ['^IMG-'], which [CEOS_PSR] searches. *)
Definition summary : pattern :=
  Pattern false (alts [lit "summary"; lit "workreport"]) false.

Definition img : pattern := Pattern true (lit "IMG-") false.

End Patterns.

(* ------------------------------------------------------------------ *)
(** ** Scenes, metadata and the handler base class [ID] *)

(** A Python float, kept as the decimal number [mantissa * 10 ^ exponent]
    that it was read from, or one of the special values; the development
    never rounds it and computes with it only where the source compares it
    with zero. *)
Inductive pyfloat : Type :=
| Float (mantissa exponent : Z)
| Inf (negative : bool)
| NaN.

(** What [os.path.isdir], [zipfile.is_zipfile] and [tarfile.is_tarfile] say
    about a path. *)
Inductive container : Type := Directory | ZipArchive | TarArchive | PlainFile.

(** A member of a zip or tar container: its name as [namelist()] /
    [getnames()] gives it, and whether [getmember(name).isdir()] holds. *)
Record member : Type := Member {
  member_name : string;
  member_isdir : bool
}.

(** A scene as the handlers see it: the path (already [os.path.realpath]ed),
    what kind of file system object it is, and the members of the container
    when it is one. *)
Record scene : Type := Scene {
  scene_path : string;
  scene_kind : container;
  scene_members : list member
}.

(** The metadata dictionary [self.meta], restricted to the keys of
    [__LOCAL__]; [None] is an absent key. *)
Record metadict : Type := Meta {
  meta_sensor : option string;
  meta_projection : option string;
  meta_orbit : option string;
  meta_polarizations : option (list string);
  meta_acquisition_mode : option string;
  meta_start : option string;
  meta_stop : option string;
  meta_product : option string;
  meta_spacing : option (pyfloat * pyfloat);
  meta_samples : option Z;
  meta_lines : option Z
}.

Definition empty_meta : metadict :=
  Meta None None None None None None None None None None None.

Definition orelse {A : Type} (a b : option A) : option A :=
  match a with Some _ => a | None => b end.

(** [m.update(u)]: the keys of [u] win. *)
Definition meta_update (m u : metadict) : metadict :=
  Meta (orelse (meta_sensor u) (meta_sensor m))
       (orelse (meta_projection u) (meta_projection m))
       (orelse (meta_orbit u) (meta_orbit m))
       (orelse (meta_polarizations u) (meta_polarizations m))
       (orelse (meta_acquisition_mode u) (meta_acquisition_mode m))
       (orelse (meta_start u) (meta_start m))
       (orelse (meta_stop u) (meta_stop m))
       (orelse (meta_product u) (meta_product m))
       (orelse (meta_spacing u) (meta_spacing m))
       (orelse (meta_samples u) (meta_samples m))
       (orelse (meta_lines u) (meta_lines m)).

Definition set_acquisition_mode (v : string) (m : metadict) : metadict :=
  meta_update m (Meta None None None None (Some v) None None None None None None).
Definition set_polarizations (v : list string) (m : metadict) : metadict :=
  meta_update m (Meta None None None (Some v) None None None None None None None).
Definition set_product (v : string) (m : metadict) : metadict :=
  meta_update m (Meta None None None None None None None (Some v) None None None).
Definition set_projection (v : string) (m : metadict) : metadict :=
  meta_update m (Meta None (Some v) None None None None None None None None None).

(** An instance of a subclass of [ID] after [ID.__init__]: the attributes
    [scene] and [file] and the eleven attributes named in [__LOCAL__]. *)
Record ID : Type := MkID {
  scene_of : string;
  file : string;
  sensor : string;
  projection : string;
  orbit : string;
  polarizations : list string;
  acquisition_mode : string;
  start : string;
  stop : string;
  product : string;
  spacing : pyfloat * pyfloat;
  samples : Z;
  lines : Z
}.

(** [metadict[item]] *)
Definition getitem {A : Type} (key : string) (v : option A) : result A :=
  match v with
  | Some a => Ok a
  | None => Raise (KeyError key)
  end.

(** [ID.__init__]: [setattr(self, item, metadict[item])] for the items of
    [__LOCAL__] in their order; the first absent key raises [KeyError]. *)
Definition ID_init (sc : string) (f : string) (m : metadict) : result ID :=
  let* a_sensor := getitem "sensor" (meta_sensor m) in
  let* a_projection := getitem "projection" (meta_projection m) in
  let* a_orbit := getitem "orbit" (meta_orbit m) in
  let* a_polarizations := getitem "polarizations" (meta_polarizations m) in
  let* a_mode := getitem "acquisition_mode" (meta_acquisition_mode m) in
  let* a_start := getitem "start" (meta_start m) in
  let* a_stop := getitem "stop" (meta_stop m) in
  let* a_product := getitem "product" (meta_product m) in
  let* a_spacing := getitem "spacing" (meta_spacing m) in
  let* a_samples := getitem "samples" (meta_samples m) in
  let* a_lines := getitem "lines" (meta_lines m) in
  Ok (MkID sc f a_sensor a_projection a_orbit a_polarizations a_mode
           a_start a_stop a_product a_spacing a_samples a_lines).

(** ['{:_<4}'.format(s)]: left-aligned in a field of width 4 filled with
    underscores; a longer string is left as it is. *)
Definition pad4 (s : string) : string :=
  s ++ Str.replicate (4 - String.length s) "_"%char.

(** [ID.outname_base] *)
Definition outname_base (i : ID) : string :=
  Str.join_with "_" [pad4 (sensor i); pad4 (acquisition_mode i); orbit i; start i].

(** *** Collaborators outside the module

    [finder] is [ancillary.finder(scene, [pattern], regex=True, foldermode=fm)]
    on a directory.  The other fields stand for the parts of a handler's
    constructor that read file contents through GDAL, [struct] or the XML
    parser; each returns the metadata keys it contributes or the exception it
    raises.

    - [gdalinfo]: [ID.gdalinfo(self.scene)], the keys it sets.
    - [ers_tags]: the lookups of [CEOS_ERS.__init__] in the GDAL tags
      (spacing, sensor, incidence angle, calibration constants).
    - [ers_scanMetadata], [safe_scanMetadata], [tsx_scanMetadata]: the
      [scanMetadata] method of the class.
    - [read_file]: [self.getFileObj(filename).read()], the bytes of a file
      of the scene.
    - [eval_summary]: what [CEOS_PSR.parseSummary] does with the text of
      the summary file ([ast.literal_eval], [parse_literal]), as far as it
      can raise.
    - [osr_wkt]: [src_srs.ExportToWkt()] of an [osr.SpatialReference] with
      the geographic system WGS84, after [ImportFromEPSG(epsg)] when a
      code is given.
    - [asar_polarizations]: the list built from the [TX_RX_POLAR] tags.
    - [esa_tags]: the lookups of [ESA.__init__] in the [SPH_] and [MPH_] tags
      (orbit, start, stop, spacing).
    - [safe_annotation]: spacing, samples and lines read from the annotation
      file of a Sentinel-1 scene. *)
Record externals : Type := Externals {
  finder : string -> Re.pattern -> nat -> list string;
  gdalinfo : scene -> result metadict;
  ers_tags : scene -> result metadict;
  ers_scanMetadata : scene -> result metadict;
  read_file : scene -> string -> result (list Byte.byte);
  eval_summary : list Byte.byte -> result unit;
  osr_wkt : option Z -> result string;
  asar_polarizations : scene -> list string;
  esa_tags : scene -> result metadict;
  safe_scanMetadata : scene -> result metadict;
  safe_annotation : scene -> string -> result metadict;
  tsx_scanMetadata : scene -> string -> result metadict
}.

Definition dquote : string := String (ascii_of_nat 34) "".
Definition quoted (s : string) : string := dquote ++ s ++ dquote.

Definition authority (code : string) : string :=
  "AUTHORITY[" ++ quoted "EPSG" ++ "," ++ quoted code ++ "]".

(** The WKT of geographic WGS84 that the handlers assign to
    [meta['projection']]. *)
Definition wgs84_wkt : string :=
  "GEOGCS[" ++ quoted "WGS 84" ++ ","
  ++ "DATUM[" ++ quoted "WGS_1984" ++ ",SPHEROID[" ++ quoted "WGS 84"
  ++ ",6378137,298.257223563," ++ authority "7030" ++ "]," ++ authority "6326" ++ "],"
  ++ "PRIMEM[" ++ quoted "Greenwich" ++ ",0," ++ authority "8901" ++ "],"
  ++ "UNIT[" ++ quoted "degree" ++ ",0.01745329251994328," ++ authority "9122" ++ "],"
  ++ authority "4326" ++ "]".

(* ------------------------------------------------------------------ *)
(** ** [ID.parse_date]: [time.strptime] and [time.strftime] of Python 2.7

    [time.strptime(x, format)] compiles the format to a regular expression
    ([_strptime.TimeRE.pattern], compiled with [re.IGNORECASE]), matches it
    at the start of [x], requires that the match covers all of [x], converts
    the groups to numbers and validates the date with [datetime.date].
    The alternatives of each directive are tried in the order in which
    [_strptime] writes them, as the backtracking matcher does. *)

Module Time.

Local Open Scope Z_scope.

Inductive directive : Type := D_d | D_b | D_Y | D_m | D_H | D_M | D_S | D_f.

Inductive item : Type :=
| Lit (c : ascii)          (* a literal character, compared ignoring case *)
| Ws                       (* [\s+], from a run of white space in the format *)
| Dir (d : directive).

Definition directive_of (c : ascii) : option directive :=
  if Ascii.eqb c "d" then Some D_d
  else if Ascii.eqb c "b" then Some D_b
  else if Ascii.eqb c "Y" then Some D_Y
  else if Ascii.eqb c "m" then Some D_m
  else if Ascii.eqb c "H" then Some D_H
  else if Ascii.eqb c "M" then Some D_M
  else if Ascii.eqb c "S" then Some D_S
  else if Ascii.eqb c "f" then Some D_f
  else None.

Definition cons_ws (items : list item) : list item :=
  match items with
  | Ws :: _ => items
  | _ => Ws :: items
  end.

(** [TimeRE.pattern]: a run of white space becomes [\s+], [%x] becomes the
    expression of directive [x], every other character stands for itself.
    [None] is the [ValueError] for a stray [%] or an unknown directive. *)
Fixpoint compile (fmt : list ascii) : option (list item) :=
  match fmt with
  | [] => Some []
  | c :: rest =>
      if Ascii.eqb c "%" then
        match rest with
        | [] => None
        | d :: rest' =>
            match directive_of d, compile rest' with
            | Some dir, Some items => Some (Dir dir :: items)
            | _, _ => None
            end
        end
      else
        match compile rest with
        | Some items => Some (if Str.is_space c then cons_ws items else Lit c :: items)
        | None => None
        end
  end.

(** The numbers that [_strptime] collects from the groups. *)
Record fields : Type := Fields {
  f_year : option Z;
  f_month : Z;
  f_day : Z;
  f_hour : Z;
  f_minute : Z;
  f_second : Z;
  f_fraction : Z
}.

Definition initial : fields := Fields None 1 1 0 0 0 0.

Definition set_field (d : directive) (v : Z) (f : fields) : fields :=
  match d with
  | D_Y => Fields (Some v) (f_month f) (f_day f) (f_hour f) (f_minute f) (f_second f) (f_fraction f)
  | D_m | D_b => Fields (f_year f) v (f_day f) (f_hour f) (f_minute f) (f_second f) (f_fraction f)
  | D_d => Fields (f_year f) (f_month f) v (f_hour f) (f_minute f) (f_second f) (f_fraction f)
  | D_H => Fields (f_year f) (f_month f) (f_day f) v (f_minute f) (f_second f) (f_fraction f)
  | D_M => Fields (f_year f) (f_month f) (f_day f) (f_hour f) v (f_second f) (f_fraction f)
  | D_S => Fields (f_year f) (f_month f) (f_day f) (f_hour f) (f_minute f) v (f_fraction f)
  | D_f => Fields (f_year f) (f_month f) (f_day f) (f_hour f) (f_minute f) (f_second f) v
  end.

(** The value of a decimal digit character. *)
Definition dval (c : ascii) : Z := Z.of_nat (Str.code c) - 48.

Definition exactly (c : ascii) : ascii -> bool := Ascii.eqb c.
Definition between (lo hi : ascii) : ascii -> bool :=
  Str.in_range (Str.code lo) (Str.code hi).

(** One alternative made of two character classes, read as a two-digit
    number, and one made of a single class. *)
Definition alt2 (p1 p2 : ascii -> bool) (s : list ascii) : list (Z * list ascii) :=
  match s with
  | c1 :: c2 :: t => if p1 c1 && p2 c2 then [(10 * dval c1 + dval c2, t)] else []
  | _ => []
  end.

Definition alt1 (p : ascii -> bool) (s : list ascii) : list (Z * list ascii) :=
  match s with
  | c :: t => if p c then [(dval c, t)] else []
  | [] => []
  end.

(** A blank followed by one character of the class ([int] skips the blank). *)
Definition alt_blank1 (p : ascii -> bool) (s : list ascii) : list (Z * list ascii) :=
  match s with
  | b :: c :: t => if exactly " " b && p c then [(dval c, t)] else []
  | _ => []
  end.

(** [[0-9]{1,6}], greedy: the longest run first.  The value is the run
    padded with zeros on the right to six digits. *)
Fixpoint digit_runs (n : nat) (acc : Z) (s : list ascii) : list (Z * list ascii) :=
  match n with
  | O => []
  | S k =>
      match s with
      | c :: t =>
          if Str.is_digit c
          then digit_runs k (10 * acc + dval c) t
               ++ [((10 * acc + dval c) * 10 ^ Z.of_nat k, t)]
          else []
      | [] => []
      end
  end.

(** [locale_time.a_month[1:]] in the C locale. *)
Definition a_month : list string :=
  ["jan"; "feb"; "mar"; "apr"; "may"; "jun"; "jul"; "aug"; "sep"; "oct"; "nov"; "dec"]%string.

Fixpoint month_index (name : string) (names : list string) (i : Z) : list Z :=
  match names with
  | [] => []
  | n :: rest => if String.eqb name n then [i] else month_index name rest (i + 1)
  end.

Definition alt_month (s : list ascii) : list (Z * list ascii) :=
  match s with
  | c1 :: c2 :: c3 :: t =>
      map (fun i => (i, t))
          (month_index (Str.of_chars (map Str.lower [c1; c2; c3])) a_month 1)
  | _ => []
  end.

(** The matches of a directive at the head of [s], best first, each with
    the number it stands for and the rest of the input. *)
Definition candidates (d : directive) (s : list ascii) : list (Z * list ascii) :=
  match d with
  | D_d =>   (* 3[0-1]|[1-2]\d|0[1-9]|[1-9]| [1-9] *)
      alt2 (exactly "3") (between "0" "1") s ++ alt2 (between "1" "2") Str.is_digit s
      ++ alt2 (exactly "0") (between "1" "9") s ++ alt1 (between "1" "9") s
      ++ alt_blank1 (between "1" "9") s
  | D_m =>   (* 1[0-2]|0[1-9]|[1-9] *)
      alt2 (exactly "1") (between "0" "2") s ++ alt2 (exactly "0") (between "1" "9") s
      ++ alt1 (between "1" "9") s
  | D_H =>   (* 2[0-3]|[0-1]\d|\d *)
      alt2 (exactly "2") (between "0" "3") s ++ alt2 (between "0" "1") Str.is_digit s
      ++ alt1 Str.is_digit s
  | D_M =>   (* [0-5]\d|\d *)
      alt2 (between "0" "5") Str.is_digit s ++ alt1 Str.is_digit s
  | D_S =>   (* 6[0-1]|[0-5]\d|\d *)
      alt2 (exactly "6") (between "0" "1") s ++ alt2 (between "0" "5") Str.is_digit s
      ++ alt1 Str.is_digit s
  | D_Y =>   (* \d\d\d\d *)
      match s with
      | c1 :: c2 :: c3 :: c4 :: t =>
          if Str.is_digit c1 && Str.is_digit c2 && Str.is_digit c3 && Str.is_digit c4
          then [(1000 * dval c1 + 100 * dval c2 + 10 * dval c3 + dval c4, t)]
          else []
      | _ => []
      end
  | D_f => digit_runs 6 0 s
  | D_b => alt_month s
  end.

(** [\s+], greedy: the rests of [s] after each non-empty run of white
    space at its head, the longest run first. *)
Fixpoint after_spaces (s : list ascii) : list (list ascii) :=
  match s with
  | c :: t => if Str.is_space c then after_spaces t ++ [t] else []
  | [] => []
  end.

Fixpoint first_some {A B : Type} (f : A -> option B) (l : list A) : option B :=
  match l with
  | [] => None
  | a :: rest =>
      match f a with
      | Some b => Some b
      | None => first_some f rest
      end
  end.

(** [format_regex.match(data_string)]: the first match in the order of the
    backtracking search, as the collected fields and the unmatched rest. *)
Fixpoint regex_match (items : list item) (s : list ascii) (acc : fields)
  : option (fields * list ascii) :=
  match items with
  | [] => Some (acc, s)
  | Lit c :: rest =>
      match s with
      | c' :: t =>
          if Ascii.eqb (Str.lower c) (Str.lower c') then regex_match rest t acc else None
      | [] => None
      end
  | Ws :: rest => first_some (fun t => regex_match rest t acc) (after_spaces s)
  | Dir d :: rest =>
      first_some (fun vt => regex_match rest (snd vt) (set_field d (fst vt) acc))
                 (candidates d s)
  end.

Definition is_leap (y : Z) : bool :=
  (Z.eqb (y mod 4) 0 && negb (Z.eqb (y mod 100) 0)) || Z.eqb (y mod 400) 0.

Definition days_in_month (y m : Z) : Z :=
  if Z.eqb m 2 then (if is_leap y then 29 else 28)
  else if Z.eqb m 4 || Z.eqb m 6 || Z.eqb m 9 || Z.eqb m 11 then 30
  else 31.

(** [datetime.date(y, m, d)] does not raise. *)
Definition valid_date (y m d : Z) : bool :=
  (1 <=? y) && (y <=? 9999) && (1 <=? m) && (m <=? 12)
  && (1 <=? d) && (d <=? days_in_month y m).

(** The part of [time.struct_time] that [%Y%m%dT%H%M%S] prints. *)
Record struct_time : Type := StructTime {
  tm_year : Z;
  tm_mon : Z;
  tm_mday : Z;
  tm_hour : Z;
  tm_min : Z;
  tm_sec : Z
}.

(** [time.strptime(x, format)] *)
Definition strptime (x : string) (format : string) : result struct_time :=
  match compile (Str.chars format) with
  | None => Raise (ValueError "bad directive in format")
  | Some items =>
      match regex_match items (Str.chars x) initial with
      | None => Raise (ValueError "time data does not match format")
      | Some (f, rest) =>
          match rest with
          | _ :: _ => Raise (ValueError "unconverted data remains")
          | [] =>
              let year :=
                match f_year f with
                | Some y => y
                | None => if Z.eqb (f_month f) 2 && Z.eqb (f_day f) 29 then 1904 else 1900
                end in
              if valid_date year (f_month f) (f_day f)
              then Ok (StructTime year (f_month f) (f_day f)
                                  (f_hour f) (f_minute f) (f_second f))
              else Raise (ValueError "day is out of range for month")
          end
      end
  end.

(** The year as [time.strftime] of Python 2.7 takes it with
    [time.accept2dyear] at its default: years below 1900 are accepted only
    as two-digit years, 69-99 meaning 1969-1999 and 0-68 meaning
    2000-2068. *)
Definition strftime_year (y : Z) : result Z :=
  if 1900 <=? y then Ok y
  else if (69 <=? y) && (y <=? 99) then Ok (y + 1900)
  else if (0 <=? y) && (y <=? 68) then Ok (y + 2000)
  else Raise (ValueError "year out of range").

(** [%d] of a number that is not negative. *)
Definition decimal (v : Z) : string := NilZero.string_of_uint (N.to_uint (Z.to_N v)).

(** [%02d]: at least two digits, with a zero in front of a single one. *)
Definition two_digits (v : Z) : string :=
  let s := decimal v in
  if (String.length s <? 2)%nat then ("0" ++ s)%string else s.

Definition in_bounds (lo hi v : Z) : bool := (lo <=? v) && (v <=? hi).

(** [time.strftime('%Y%m%dT%H%M%S', t)]: the range checks of the C
    implementation, then the fields printed by [%Y], [%m], [%d], [%H],
    [%M] and [%S]. *)
Definition strftime (t : struct_time) : result string :=
  match strftime_year (tm_year t) with
  | Raise e => Raise e
  | Ok y =>
      if negb (in_bounds 1 12 (tm_mon t)) then Raise (ValueError "month out of range")
      else if negb (in_bounds 1 31 (tm_mday t)) then Raise (ValueError "day of month out of range")
      else if negb (in_bounds 0 23 (tm_hour t)) then Raise (ValueError "hour out of range")
      else if negb (in_bounds 0 59 (tm_min t)) then Raise (ValueError "minute out of range")
      else if negb (in_bounds 0 61 (tm_sec t)) then Raise (ValueError "seconds out of range")
      else Ok (decimal y ++ two_digits (tm_mon t) ++ two_digits (tm_mday t)
               ++ "T" ++ two_digits (tm_hour t) ++ two_digits (tm_min t)
               ++ two_digits (tm_sec t))%string
  end.

(** Fifteen characters of the form [YYYYMMDDTHHMMSS]. *)
Definition canonical (s : string) : bool :=
  match Str.chars s with
  | [y1; y2; y3; y4; m1; m2; d1; d2; t; h1; h2; n1; n2; s1; s2] =>
      forallb Str.is_digit [y1; y2; y3; y4; m1; m2; d1; d2; h1; h2; n1; n2; s1; s2]
      && Ascii.eqb t "T"
  | _ => false
  end.

Definition two_digit_shape (s : string) : bool :=
  match Str.chars s with
  | [a; b] => Str.is_digit a && Str.is_digit b
  | _ => false
  end.

Definition four_digit_shape (s : string) : bool :=
  match Str.chars s with
  | [a; b; c; d] => Str.is_digit a && Str.is_digit b && Str.is_digit c && Str.is_digit d
  | _ => false
  end.

(** The bounds of a field that only the pattern of its directive
    guarantees. *)
Definition field_ok (d : directive) (v : Z) : Prop :=
  match d with
  | D_H => 0 <= v <= 23
  | D_M => 0 <= v <= 59
  | D_S => 0 <= v <= 61
  | _ => True
  end.

Definition hms_ok (f : fields) : Prop :=
  0 <= f_hour f <= 23 /\ 0 <= f_minute f <= 59 /\ 0 <= f_second f <= 61.

(** What [strftime] demands of a [struct_time], the year apart. *)
Definition in_ranges (t : struct_time) : Prop :=
  1 <= tm_year t <= 9999 /\ 1 <= tm_mon t <= 12 /\ 1 <= tm_mday t <= 31
  /\ 0 <= tm_hour t <= 23 /\ 0 <= tm_min t <= 59 /\ 0 <= tm_sec t <= 61.

End Time.

(** The time formats that [ID.parse_date] tries, in its order. *)
Definition timeformats : list string :=
  [ "%d-%b-%Y %H:%M:%S.%f";
    "%Y%m%d%H%M%S%f";
    "%Y-%m-%dT%H:%M:%S.%f";
    "%Y-%m-%dT%H:%M:%S.%fZ";
    "%Y%m%d %H:%M:%S.%f" ].

Definition unknown_time_format : exn :=
  ValueError "unknown time format; check function ID.parse_date".

(** One turn of the loop of [ID.parse_date]:
    [strftime('%Y%m%dT%H%M%S', strptime(x, timeformat))]. *)
Definition convert (x timeformat : string) : result string :=
  let* t := Time.strptime x timeformat in
  Time.strftime t.

(** The loop of [ID.parse_date]: a [TypeError] or [ValueError] moves on to
    the next format, any other exception leaves the function. *)
Fixpoint parse_date_with (formats : list string) (x : string) : result string :=
  match formats with
  | [] => Raise unknown_time_format
  | timeformat :: rest =>
      match convert x timeformat with
      | Ok s => Ok s
      | Raise e =>
          if is_TypeError e || is_ValueError e then parse_date_with rest x
          else Raise e
      end
  end.

(** [ID.parse_date] *)
Definition parse_date (x : string) : result string := parse_date_with timeformats x.

(* ------------------------------------------------------------------ *)
(** ** The trailer loop of [CEOS_PSR.scanMetadata]

    The leader file is a byte string.  After the records whose lengths the
    file descriptor declares, the facility related records are collected by
    the loop
    [[
        while p1 < len(led):
            p0 = p1
            length = struct.unpack('>i', led[(p0 + 8):(p0 + 12)])[0]
            p1 += length
            facilityRelatedData.append(led[p0:p1])
    ]]
*)

Module Leader.

Local Open Scope Z_scope.

Definition bytes : Type := list Byte.byte.

Definition len (b : bytes) : Z := Z.of_nat (length b).

(** A slice bound as Python normalises it: a negative bound counts from
    the end, and every bound is clamped to [0, len]. *)
Definition clamp (n i : Z) : Z :=
  if i <? 0 then Z.max (i + n) 0 else Z.min i n.

(** [b[i:j]] *)
Definition slice (b : bytes) (i j : Z) : bytes :=
  let lo := clamp (len b) i in
  let hi := clamp (len b) j in
  firstn (Z.to_nat (hi - lo)) (skipn (Z.to_nat lo) b).

Definition byte_val (x : Byte.byte) : Z := Z.of_N (Byte.to_N x).

(** [struct.unpack('>i', b)[0]]: a signed big-endian integer of exactly
    four bytes; any other length raises [struct.error]. *)
Definition unpack_be_i32 (b : bytes) : result Z :=
  match b with
  | [b0; b1; b2; b3] =>
      let u := Z.lor (Z.shiftl (byte_val b0) 24)
                 (Z.lor (Z.shiftl (byte_val b1) 16)
                    (Z.lor (Z.shiftl (byte_val b2) 8) (byte_val b3))) in
      Ok (if u <? 2 ^ 31 then u else u - 2 ^ 32)
  | _ => Raise (StructError "unpack requires a string argument of length 4")
  end.

(** The loop, started with [p1] at the end of the data quality summary and
    with the records collected so far.  [None]: the loop has not ended
    after [fuel] turns. *)
Fixpoint facilityRelatedData (fuel : nat) (led : bytes) (p1 : Z) (records : list bytes)
  : option (result (list bytes)) :=
  match fuel with
  | O => None
  | S fuel' =>
      if p1 <? len led then
        let p0 := p1 in
        match unpack_be_i32 (slice led (p0 + 8) (p0 + 12)) with
        | Raise e => Some (Raise e)
        | Ok length =>
            let p1 := p1 + length in
            facilityRelatedData fuel' led p1 (records ++ [slice led p0 p1])
        end
      else Some (Ok records)
  end.


(** The bytes as text. *)
Definition text (b : bytes) : list ascii := map ascii_of_byte b.

(** One turn of the loop that neither ends it nor raises: the position
    after the turn. *)
Definition next (led : bytes) (p1 : Z) : option Z :=
  if p1 <? len led then
    match unpack_be_i32 (slice led (p1 + 8) (p1 + 12)) with
    | Ok length => Some (p1 + length)
    | Raise _ => None
    end
  else None.

(** The position after [turns] such turns. *)
Fixpoint after (turns : nat) (led : bytes) (p1 : Z) : option Z :=
  match turns with
  | O => Some p1
  | S k =>
      match next led p1 with
      | Some q => after k led q
      | None => None
      end
  end.

(** The turns after which the loop has either ended or will never end: a
    turn that does not end the loop starts at a position from [-len - 12]
    to [len - 1], and the loop goes on in the same way from a position at
    which it has been before. *)
Definition loop_fuel (led : bytes) : nat := Z.to_nat (2 * len led + 14).

(** The loop as [scanMetadata] runs it. *)
Definition trailer (led : bytes) (p1 : Z) : result (list bytes) :=
  match facilityRelatedData (loop_fuel led) led p1 [] with
  | Some outcome => outcome
  | None => Raise Hang
  end.

(** A record of the trailer as it should be: at least twelve bytes, with
    its own length as a big-endian number in bytes 8 to 11. *)
Definition well_formed_record (r : bytes) : Prop :=
  12 <= len r /\ unpack_be_i32 (slice r 8 12) = Ok (len r).

End Leader.

(* ------------------------------------------------------------------ *)
(** ** [int(s)], [float(s)] and [s.strip()] of a byte string

    [int] and [float] of Python 2.7 skip white space at both ends, take an
    optional sign and raise [ValueError] on anything that is not a decimal
    number; a NUL byte is refused.  [int] skips white space once more after
    the sign ([PyOS_strtol] hands the rest to [PyOS_strtoul], which begins
    by skipping white space); [float] does not. *)

Module Conv.

Local Open Scope Z_scope.

(** [s.strip()] *)
Definition strip (l : list ascii) : list ascii :=
  Str.rstrip_chars Str.is_space (Str.lstrip_chars Str.is_space l).

(** The longest prefix of [l] whose characters satisfy [p], and the rest. *)
Fixpoint span (p : ascii -> bool) (l : list ascii) : list ascii * list ascii :=
  match l with
  | c :: t => if p c then let rest := span p t in (c :: fst rest, snd rest) else ([], l)
  | [] => ([], [])
  end.

Definition digits_value (l : list ascii) : Z :=
  fold_left (fun acc c => 10 * acc + Time.dval c) l 0.

Definition has_nul (l : list ascii) : bool := existsb (Ascii.eqb zero) l.

(** An optional sign at the head of [l]. *)
Definition sign_of (l : list ascii) : Z * list ascii :=
  match l with
  | c :: t =>
      if Ascii.eqb c "-" then (-1, t)
      else if Ascii.eqb c "+" then (1, t)
      else (1, l)
  | [] => (1, [])
  end.

Definition invalid_int : exn := ValueError "invalid literal for int() with base 10".
Definition invalid_float : exn := ValueError "could not convert string to float".

(** [int(s)] *)
Definition int_of (l : list ascii) : result Z :=
  if has_nul l then Raise invalid_int
  else
    let signed := sign_of (Str.lstrip_chars Str.is_space l) in
    let number := span Str.is_digit (Str.lstrip_chars Str.is_space (snd signed)) in
    match fst number, Str.lstrip_chars Str.is_space (snd number) with
    | _ :: _, [] => Ok (fst signed * digits_value (fst number))
    | _, _ => Raise invalid_int
    end.

Definition is_e (c : ascii) : bool := Ascii.eqb c "e" || Ascii.eqb c "E".

(** The exponent of a decimal literal: [e] or [E], an optional sign and at
    least one digit; when there is no such part nothing is taken. *)
Definition exponent_of (l : list ascii) : Z * list ascii :=
  match l with
  | c :: t =>
      if is_e c then
        let signed := sign_of t in
        let number := span Str.is_digit (snd signed) in
        match fst number with
        | _ :: _ => (fst signed * digits_value (fst number), snd number)
        | [] => (0, l)
        end
      else (0, l)
  | [] => (0, [])
  end.

(** [float(s)].  The value of a decimal literal is kept as it is written,
    with the digits after the point moved into the mantissa; the sign of a
    zero is not kept. *)
Definition float_of (l : list ascii) : result pyfloat :=
  if has_nul l then Raise invalid_float
  else
    let signed := sign_of (strip l) in
    let body := snd signed in
    let name := Str.of_chars (map Str.lower body) in
    if String.eqb name "inf" || String.eqb name "infinity"
    then Ok (Inf (fst signed <? 0))
    else if String.eqb name "nan" then Ok NaN
    else
      let whole := span Str.is_digit body in
      let fraction :=
        match snd whole with
        | c :: t => if Ascii.eqb c "." then span Str.is_digit t else ([], snd whole)
        | [] => ([], [])
        end in
      match fst whole ++ fst fraction with
      | [] => Raise invalid_float
      | mantissa =>
          let exponent := exponent_of (snd fraction) in
          match snd exponent with
          | [] => Ok (Float (fst signed * digits_value mantissa)
                            (fst exponent - Z.of_nat (length (fst fraction))))
          | _ :: _ => Raise invalid_float
          end
      end.

(** [x > 0.0].  A decimal number above zero is read as a float above zero
    unless it is rounded to zero: the numbers up to [2 ^ -1075], half of the
    least positive float, are. *)
Definition positive (x : pyfloat) : bool :=
  match x with
  | Float m e =>
      (0 <? m) && (if 0 <=? e then true else 10 ^ (- e) <? m * 2 ^ 1075)
  | Inf negative => negb negative
  | NaN => false
  end.

(** *** The matches that [CEOS_PSR.scanMetadata] takes out of a text *)

Fixpoint starts_with (lit l : list ascii) : bool :=
  match lit, l with
  | [], _ => true
  | a :: lit', b :: l' => Ascii.eqb a b && starts_with lit' l'
  | _ :: _, [] => false
  end.

(** [re.search(lit + '[cls]*', s).group()]: the first place at which [lit]
    stands in [s], with the longest run of characters of the class behind
    it. *)
Fixpoint find_run (lit : list ascii) (cls : ascii -> bool) (s : list ascii)
  : option (list ascii) :=
  if starts_with lit s
  then Some (lit ++ fst (span cls (skipn (length lit) s)))
  else match s with
       | [] => None
       | _ :: t => find_run lit cls t
       end.

(** The class of the two searches for a time stamp: a blank, the equals
    sign, the double quote, a digit, the colon and the full stop. *)
Definition stamp_char (c : ascii) : bool :=
  Ascii.eqb c " " || Ascii.eqb c "=" || Ascii.eqb c (ascii_of_nat 34)
  || Str.is_digit c || Ascii.eqb c ":" || Ascii.eqb c ".".

(** [[\d:.]] *)
Definition time_char (c : ascii) : bool :=
  Str.is_digit c || Ascii.eqb c ":" || Ascii.eqb c ".".

(** A match of ['\d+\s[\d:.]+'] that starts at the head of [s]: the digits
    are taken greedily, and giving one back would leave a digit where the
    white space has to stand. *)
Definition date_time_here (s : list ascii) : option (list ascii) :=
  let date := span Str.is_digit s in
  match fst date, snd date with
  | _ :: _, blank :: rest =>
      if Str.is_space blank then
        match fst (span time_char rest) with
        | [] => None
        | time => Some (fst date ++ blank :: time)
        end
      else None
  | _, _ => None
  end.

(** [re.search('\d+\s[\d:.]+', s).group()] *)
Fixpoint date_time (s : list ascii) : option (list ascii) :=
  match date_time_here s with
  | Some m => Some m
  | None => match s with
            | [] => None
            | _ :: t => date_time t
            end
  end.

Definition is_hv (c : ascii) : bool := Ascii.eqb c "H" || Ascii.eqb c "V".

(** [re.search('[HV]{2}', s).group(0)] *)
Fixpoint hv_pair (s : list ascii) : option string :=
  match s with
  | a :: t =>
      match t with
      | b :: _ => if is_hv a && is_hv b then Some (String a (String b ""))
                  else hv_pair t
      | [] => None
      end
  | [] => None
  end.

End Conv.

(* ------------------------------------------------------------------ *)
(** ** The handler classes *)

(** The [IndexError] of [l[0]] on an empty list. *)
Definition list_index_out_of_range : exn := IndexError "list index out of range".

Section Handlers.

Variable ext : externals.

(** [ID.findfiles] *)
Definition findfiles (sc : scene) (pattern : Re.pattern) (include_folders : bool)
  : list string :=
  match scene_kind sc with
  | Directory =>
      let files := finder ext (scene_path sc) pattern (if include_folders then 1 else 0)%nat in
      if Re.search pattern (Str.basename (scene_path sc)) && include_folders
      then files ++ [scene_path sc]
      else files
  | ZipArchive =>
      let files :=
        map (fun x => Str.join (scene_path sc) x)
            (filter (fun x => Re.search pattern (Str.basename (Str.strip_slash x)))
                    (map member_name (scene_members sc))) in
      if include_folders
      then map Str.strip_slash files
      else filter (fun x => negb (Str.endswith_slash x)) files
  | TarArchive =>
      let files :=
        filter (fun m => Re.search pattern (Str.basename (Str.strip_slash (member_name m))))
               (scene_members sc) in
      let files :=
        if include_folders then files
        else filter (fun m => negb (member_isdir m)) files in
      map (fun m => Str.join (scene_path sc) (member_name m)) files
  | PlainFile =>
      if Re.search pattern (scene_path sc) then [scene_path sc] else []
  end.

(** The two ways in which [ID.examine] fails. *)
Definition not_found (cls : string) : exn :=
  IOError ("scene does not match " ++ cls ++ " naming convention").

Definition ambiguous (files : list string) : exn :=
  IOError ("file ambiguity detected:" ++ String Str.newline ""
           ++ Str.join_with (String Str.newline "") files).

(** The branch of [ID.examine] on the list that [findfiles] returned:
    [len(files) == 1], [len(files) == 0], otherwise.  The result is the
    value assigned to [self.file]; [cls] is [type(self).__name__]. *)
Definition examine_files (cls : string) (files : list string) : result string :=
  match files with
  | [f] => Ok f
  | [] => Raise (not_found cls)
  | _ :: _ :: _ => Raise (ambiguous files)
  end.

(** [ID.examine] *)
Definition examine (cls : string) (sc : scene) (pattern : Re.pattern)
           (include_folders : bool) : result string :=
  examine_files cls (findfiles sc pattern include_folders).

(** [match.group('product_id')] after [re.match(self.pattern, name)]
    succeeded: the group is the first ten characters of the name. *)
Definition group_product_id (name : string) : string := String.substring 0 10 name.

(** [match2.group('image_mode')]: characters 4 to 6 of the product id. *)
Definition group_image_mode (pid : string) : string := String.substring 4 3 pid.

Definition none_has_no_group : exn :=
  AttributeError "'NoneType' object has no attribute 'group'".

Definition level0_unsupported : exn :=
  IOError "product level 0 not supported (yet)".

(** The start of [CEOS_ERS.__init__] and of [ESA.__init__]: [examine], the
    two [re.match] calls and the level-0 test.  Returns [self.file] and the
    image mode.  [re.match] returns [None] when the name does not match
    from its first character on, and [None.group] raises
    [AttributeError]. *)
Definition esa_family_front (cls : string) (pattern : Re.pattern) (sc : scene)
  : result (string * string) :=
  let* f := examine cls sc pattern false in
  if negb (Re.matches pattern (Str.basename f)) then Raise none_has_no_group
  else
    let pid := group_product_id (Str.basename f) in
    if negb (Re.matches Patterns.pattern_pid pid) then Raise none_has_no_group
    else if Re.search Patterns.level0 pid then Raise level0_unsupported
    else Ok (f, group_image_mode pid).

Definition product_of_mode (mode : string) : string :=
  if Str.mem mode ["IMS"; "APS"; "WSS"] then "SLC" else "PRI".

(** [CEOS_ERS.__init__] *)
Definition CEOS_ERS (sc : scene) : result ID :=
  let* fm := esa_family_front "CEOS_ERS" Patterns.ceos_ers sc in
  let (f, mode) := fm in
  let* meta := gdalinfo ext sc in
  let meta := set_acquisition_mode mode meta in
  let meta := set_polarizations ["VV"] meta in
  let meta := set_product (product_of_mode mode) meta in
  let* tags := ers_tags ext sc in
  let meta := meta_update meta tags in
  let* lea := ers_scanMetadata ext sc in
  let meta := meta_update meta lea in
  ID_init (scene_path sc) f meta.

(** The loop of [CEOS_PSR.__init__] over its patterns: the first pattern
    whose [examine] succeeds is kept; the [IOError] of the last pattern is
    raised again, any other exception is not caught. *)
Fixpoint psr_examine (sc : scene) (patterns : list Re.pattern)
  : result (string * Re.pattern) :=
  match patterns with
  | [] => Raise (AttributeError "'CEOS_PSR' object has no attribute 'pattern'")
  | p :: rest =>
      match examine "CEOS_PSR" sc p false with
      | Ok f => Ok (f, p)
      | Raise e =>
          if is_IOError e then
            match rest with
            | [] => Raise e
            | _ :: _ => psr_examine sc rest
            end
          else Raise e
      end
  end.

(** *** [CEOS_PSR.scanMetadata] *)

(** Which of the two patterns of [CEOS_PSR] is [self.pattern]. *)
Inductive psr_kind : Type := PALSAR1 | PALSAR2.

(** The pattern that the loop of [CEOS_PSR.__init__] keeps: the first when
    [examine] succeeds with it, the second otherwise. *)
Definition kept_pattern (sc : scene) : psr_kind :=
  if is_ok (examine "CEOS_PSR" sc Patterns.ceos_psr1 false) then PALSAR1 else PALSAR2.

(** [CEOS_PSR.parseSummary], as far as it can raise: without a summary file
    the result is the empty dictionary; otherwise the file is read and
    evaluated.  Every key of [__LOCAL__] is assigned by [scanMetadata]
    itself, so the entries of the summary do not show in them. *)
Definition parseSummary (sc : scene) : result unit :=
  match findfiles sc Patterns.summary false with
  | [] => Ok tt
  | name :: _ =>
      match read_file ext sc name with
      | Ok text => eval_summary ext text
      | Raise e => if is_IndexError e then Ok tt else Raise e
      end
  end.

(** The slice [b[i:j]] as text. *)
Definition field (b : Leader.bytes) (i j : Z) : list ascii :=
  Leader.text (Leader.slice b i j).

(** [{'AL1': 'PSR1', 'AL2': 'PSR2'}[key]] *)
Definition sensor_of (key : string) : result string :=
  if String.eqb key "AL1" then Ok "PSR1"
  else if String.eqb key "AL2" then Ok "PSR2"
  else Raise (KeyError key).

Definition tuple_index : exn := TypeError "string indices must be integers, not tuple".
Definition no_such_group : exn := IndexError "no such group".
Definition string_index_out_of_range : exn := IndexError "string index out of range".

Definition cannot_extract (led_filename : string) : exn :=
  IndexError ("start and stop time stamps cannot be extracted; see file "
              ++ led_filename)%string.

(** The branch [if mpd_n > 0]: the corner coordinates are read, then the
    projection is taken from [osr].  The branches for the UPS, Mercator and
    Lambert projections index the string with a tuple. *)
Definition psr_projection (mapProjectionData : Leader.bytes) : result string :=
  let* lat :=
    mapM Conv.float_of [ field mapProjectionData 1072 1088;
                         field mapProjectionData 1104 1120;
                         field mapProjectionData 1136 1152;
                         field mapProjectionData 1168 1184 ] in
  let* lon :=
    mapM Conv.float_of [ field mapProjectionData 1088 1104;
                         field mapProjectionData 1120 1136;
                         field mapProjectionData 1152 1168;
                         field mapProjectionData 1184 1200 ] in
  let projdesc := Str.of_chars (Conv.strip (field mapProjectionData 412 444)) in
  if String.eqb projdesc "UTM-PROJECTION" then
    let* nZone := Conv.int_of (field mapProjectionData 476 480) in
    let* dfFalseNorthing := Conv.float_of (field mapProjectionData 496 512) in
    let epsg := (if Conv.positive dfFalseNorthing then 32700 + nZone else 32600 + nZone)%Z in
    osr_wkt ext (Some epsg)
  else if Str.mem projdesc ["UPS-PROJECTION"; "MER-PROJECTION"; "LCC-PROJECTION"]
       then Raise tuple_index
       else osr_wkt ext None.

(** The groups of the match of [self.pattern] on the name of the leader
    file; all of them stand at fixed places. *)
Definition group_sub (kind : psr_kind) (name : string) : result string :=
  match kind with
  | PALSAR1 => Ok (String.substring 9 1 name)
  | PALSAR2 => Raise no_such_group
  end.

Definition group_mode (kind : psr_kind) (name : string) : string :=
  match kind with
  | PALSAR1 => String.substring 20 1 name
  | PALSAR2 => String.substring 26 3 name
  end.

Definition group_level (kind : psr_kind) (name : string) : string :=
  match kind with
  | PALSAR1 => String.substring 21 3 name
  | PALSAR2 => String.substring 30 3 name
  end.

(** [meta['acquisition_mode']] and [meta['product']] from the match, which
    is [None] when the name does not match from its first character on. *)
Definition mode_and_product (sensor : string) (kind : psr_kind) (matched : bool)
           (name : string) : result (string * string) :=
  if negb matched then Raise none_has_no_group
  else
    let* mode :=
      if String.eqb sensor "PSR1"
      then let* sub := group_sub kind name in Ok (sub ++ group_mode kind name)%string
      else Ok (group_mode kind name) in
    Ok (mode, group_level kind name).

(** The time stamps.  [self.meta] does not exist while the constructor
    runs, so the first attempt ends in [AttributeError] and the stamps are
    searched in the text of the leader file.  A search without a match ends
    in [IndexError]; a stamp that [parse_date] does not accept raises its
    [ValueError]. *)
Definition start_and_stop (led_filename : string) (led : list ascii)
  : result (string * string) :=
  match Conv.find_run (Str.chars "Img_SceneStartDateTime") Conv.stamp_char led,
        Conv.find_run (Str.chars "Img_SceneEndDateTime") Conv.stamp_char led with
  | Some start_string, Some stop_string =>
      match Conv.date_time start_string with
      | None => Raise (cannot_extract led_filename)
      | Some x =>
          let* start := parse_date (Str.of_chars x) in
          match Conv.date_time stop_string with
          | None => Raise (cannot_extract led_filename)
          | Some y =>
              let* stop := parse_date (Str.of_chars y) in
              Ok (start, stop)
          end
      end
  | _, _ => Raise (cannot_extract led_filename)
  end.

(** [meta['polarizations']] *)
Definition image_polarizations (sc : scene) : result (list string) :=
  mapM (fun x => match Conv.hv_pair (Str.chars (Str.basename x)) with
                 | Some p => Ok p
                 | None => Raise none_has_no_group
                 end)
       (findfiles sc Patterns.img false).

(** What [scanMetadata] has read when it comes to the facility related
    records: the sensor, the projection, the data set summary, the
    radiometric data and the position [p1] behind the data quality
    summary. *)
Record psr_layout : Type := Layout {
  lay_sensor : string;
  lay_projection : string;
  lay_summary : Leader.bytes;
  lay_radiometric : Leader.bytes;
  lay_trailer : Z
}.

(** [CEOS_PSR.scanMetadata] from the file descriptor to the data quality
    summary. *)
Definition psr_layout_of (led : Leader.bytes) : result psr_layout :=
  let* p1 := Leader.unpack_be_i32 (Leader.slice led 8 12) in
  let fileDescriptor := Leader.slice led 0 p1 in
  let* dss_n := Conv.int_of (field fileDescriptor 180 186) in
  let* dss_l := Conv.int_of (field fileDescriptor 186 192) in
  let* mpd_n := Conv.int_of (field fileDescriptor 192 198) in
  let* mpd_l := Conv.int_of (field fileDescriptor 198 204) in
  let* ppd_n := Conv.int_of (field fileDescriptor 204 210) in
  let* ppd_l := Conv.int_of (field fileDescriptor 210 216) in
  let* adr_n := Conv.int_of (field fileDescriptor 216 222) in
  let* adr_l := Conv.int_of (field fileDescriptor 222 228) in
  let* rdr_n := Conv.int_of (field fileDescriptor 228 234) in
  let* rdr_l := Conv.int_of (field fileDescriptor 234 240) in
  let* dqs_n := Conv.int_of (field fileDescriptor 252 258) in
  let* dqs_l := Conv.int_of (field fileDescriptor 258 264) in
  let* sensor := sensor_of (Str.of_chars (field fileDescriptor 48 51)) in
  let p0 := p1 in
  let p1 := (p1 + dss_l * dss_n)%Z in
  let dataSetSummary := Leader.slice led p0 p1 in
  let* projected :=
    if (0 <? mpd_n)%Z then
      let p0 := p1 in
      let p1 := (p1 + mpd_l * mpd_n)%Z in
      let* wkt := psr_projection (Leader.slice led p0 p1) in
      Ok (wkt, p1)
    else Ok (wgs84_wkt, p1) in
  let projection := fst projected in
  let p1 := snd projected in
  let p1 := (p1 + ppd_l * ppd_n)%Z in
  let p1 := (p1 + adr_l * adr_n)%Z in
  let p0 := p1 in
  let p1 := (p1 + rdr_l * rdr_n)%Z in
  let radiometricData := Leader.slice led p0 p1 in
  let p1 := (p1 + dqs_l * dqs_n)%Z in
  Ok (Layout sensor projection dataSetSummary radiometricData p1).

(** [CEOS_PSR.scanMetadata], called from the constructor with
    [self.pattern] set.  The result is the dictionary restricted to the
    keys of [__LOCAL__]. *)
Definition PSR_scanMetadata (sc : scene) (pattern : Re.pattern) (kind : psr_kind)
  : result metadict :=
  match findfiles sc pattern false with
  | [] => Raise list_index_out_of_range
  | led_filename :: _ =>
      let* led := read_file ext sc led_filename in
      let* _ := parseSummary sc in
      let* lay := psr_layout_of led in
      let dataSetSummary := lay_summary lay in
      let* facilityRelatedData := Leader.trailer led (lay_trailer lay) in
      let* lines := Conv.int_of (field dataSetSummary 324 332) in
      let* samples := Conv.int_of (field dataSetSummary 332 340) in
      let* incidence := Conv.float_of (field dataSetSummary 484 492) in
      let* wavelength := Conv.float_of (field dataSetSummary 500 516) in
      let* azlks := Conv.float_of (field dataSetSummary 1174 1190) in
      let* rlks := Conv.float_of (field dataSetSummary 1190 1206) in
      let* orbit :=
        match Conv.strip (field dataSetSummary 1534 1542) with
        | c :: _ => Ok (String c "")
        | [] => Raise string_index_out_of_range
        end in
      let* spacing_azimuth := Conv.float_of (field dataSetSummary 1686 1702) in
      let* spacing_range := Conv.float_of (field dataSetSummary 1702 1718) in
      let name := Str.basename led_filename in
      let* mp := mode_and_product (lay_sensor lay) kind (Re.matches pattern name) name in
      let* dates := start_and_stop led_filename (Leader.text led) in
      let* pols := image_polarizations sc in
      let* k_dB := Conv.float_of (field (lay_radiometric lay) 20 36) in
      Ok (Meta (Some (lay_sensor lay)) (Some (lay_projection lay)) (Some orbit) (Some pols)
               (Some (fst mp)) (Some (fst dates)) (Some (snd dates)) (Some (snd mp))
               (Some (spacing_range, spacing_azimuth))
               (Some (samples * 2)%Z) (Some (lines * 2)%Z))
  end.

(** [CEOS_PSR.__init__] *)
Definition CEOS_PSR (sc : scene) : result ID :=
  let* fp := psr_examine sc Patterns.ceos_psr in
  let (f, p) := fp in
  let* meta := PSR_scanMetadata sc p (kept_pattern sc) in
  ID_init (scene_path sc) f meta.

(** [ESA.__init__] *)
Definition ESA (sc : scene) : result ID :=
  let* fm := esa_family_front "ESA" Patterns.esa sc in
  let (f, mode) := fm in
  let* meta := gdalinfo ext sc in
  let meta := set_acquisition_mode mode meta in
  let meta := set_product (product_of_mode mode) meta in
  let* s := getitem "sensor" (meta_sensor meta) in
  let meta :=
    if String.eqb s "ASAR" then set_polarizations (asar_polarizations ext sc) meta
    else if Str.mem s ["ERS1"; "ERS2"] then set_polarizations ["VV"] meta
    else meta in
  let* tags := esa_tags ext sc in
  let meta := meta_update meta tags in
  ID_init (scene_path sc) f meta.

(** [SAFE.__init__] *)
Definition SAFE (sc : scene) : result ID :=
  let* f := examine "SAFE" sc Patterns.safe true in
  if negb (Re.matches Patterns.safe (Str.basename f))
  then Raise (IOError "folder does not match S1 scene naming convention")
  else
    let* meta := safe_scanMetadata ext sc in
    let meta := set_projection wgs84_wkt meta in
    match findfiles sc Patterns.safe_ds false with
    | [] => Raise (IndexError "list index out of range")
    | ann :: _ =>
        let* dims := safe_annotation ext sc ann in
        let meta := meta_update meta dims in
        ID_init (scene_path sc) f meta
    end.

(** [TSX.__init__] *)
Definition TSX (sc : scene) : result ID :=
  let* f := examine "TSX" sc Patterns.tsx false in
  if negb (Re.matches Patterns.tsx (Str.basename f))
  then Raise (IOError "folder does not match TSX scene naming convention")
  else
    let* meta := tsx_scanMetadata ext sc f in
    let meta := set_projection wgs84_wkt meta in
    ID_init (scene_path sc) f meta.

(** [ID.__subclasses__()]: the handler classes in the order of their
    definition. *)
Definition subclasses : list (scene -> result ID) :=
  [CEOS_ERS; CEOS_PSR; ESA; SAFE; TSX].

End Handlers.

(** The exceptions that [identify] catches: [except (IOError, KeyError)]. *)
Definition caught_by_identify (e : exn) : bool := is_IOError e || is_KeyError e.

Definition format_not_supported : exn := IOError "data format not supported".

(** The loop of [identify] over a list of handler classes. *)
Fixpoint identify_with (handlers : list (scene -> result ID)) (sc : scene) : result ID :=
  match handlers with
  | [] => Raise format_not_supported
  | handler :: rest =>
      match handler sc with
      | Ok i => Ok i
      | Raise e => if caught_by_identify e then identify_with rest sc else Raise e
      end
  end.

(** The handlers tried so far have all failed with an exception that
    [identify] catches. *)
Definition all_passed_over (handlers : list (scene -> result ID)) (sc : scene) : Prop :=
  forall h, In h handlers -> exists e, h sc = Raise e /\ caught_by_identify e = true.

(** [identify] *)
Definition identify (ext : externals) (sc : scene) : result ID :=
  identify_with (subclasses ext) sc.

(** An element of the list given to [identify_many]: an [ID] object or a
    scene to identify. *)
Inductive scene_or_id : Type :=
| IsID (i : ID)
| IsScene (sc : scene).

(** The loop of [identify_many], with [idlist] as accumulator and the
    identifier as parameter. *)
Fixpoint identify_many_with (ident : scene -> result ID)
         (scenes : list scene_or_id) (idlist : list ID) : result (list ID) :=
  match scenes with
  | [] => Ok idlist
  | IsID i :: rest => identify_many_with ident rest (idlist ++ [i])
  | IsScene sc :: rest =>
      match ident sc with
      | Ok i => identify_many_with ident rest (idlist ++ [i])
      | Raise e =>
          if is_IOError e then identify_many_with ident rest idlist
          else Raise e
      end
  end.

(** The records that [identify_many] is to return: the [ID] objects of the
    list and the records of the scenes that [ident] identifies, in the order
    of the list. *)
Definition identified_with (ident : scene -> result ID) (scenes : list scene_or_id)
  : list ID :=
  flat_map (fun s =>
              match s with
              | IsID i => [i]
              | IsScene sc => match ident sc with Ok i => [i] | Raise _ => [] end
              end) scenes.

(** [identify_many] *)
Definition identify_many (ext : externals) (scenes : list scene_or_id) : result (list ID) :=
  identify_many_with (identify ext) scenes [].


(* ------------------------------------------------------------------ *)
(** ** [Archive]: the table [data] of the spatialite database

    The table is the list of its rows in the order of insertion.  The
    column [outname_base] is the primary key.  What the database engine or
    the spatial utilities decide is taken from a record [engine]. *)

Module Archive.

Local Open Scope Z_scope.

(** A row of the table [data]: the fourteen columns of [self.lookup] and
    the geometry column [bbox] (as the WKT it was made from).  A text of the
    database is kept as the bytes of its UTF-8 form: it is ASCII exactly when
    every byte is below 128. *)
Record row : Type := Row {
  r_sensor : string;
  r_orbit : string;
  r_acquisition_mode : string;
  r_start : string;
  r_stop : string;
  r_product : string;
  r_samples : Z;
  r_lines : Z;
  r_outname_base : string;
  r_scene : string;
  r_hh : Z;
  r_vv : Z;
  r_hv : Z;
  r_vh : Z;
  r_bbox : string
}.

Definition table : Type := list row.

(** [Archive.get_colnames] *)
Definition colnames : list string :=
  ["sensor"; "orbit"; "acquisition_mode"; "start"; "stop"; "product"; "samples";
   "lines"; "outname_base"; "scene"; "hh"; "vv"; "hv"; "vh"; "bbox"]%string.

(** The values of a row that the INSERT statement binds as text. *)
Definition row_texts (r : row) : list string :=
  [r_sensor r; r_orbit r; r_acquisition_mode r; r_start r; r_stop r; r_product r;
   r_outname_base r; r_scene r; r_bbox r].

(** What the database engine, the sqlite3 adapter and the spatial utilities
    decide.

    - [bbox_wkt]: [id.bbox().convert2wkt(set3D=False)[0]]; [id.bbox()] calls
      the [getCorners] of the handler class and may raise.
    - [st_intersects site bbox]: the SQL test
      [st_intersects(GeomFromText(site, 4326), bbox) = 1].
    - [dq_test col v]: the SQL test [col="v"] for a value [v] without a
      double quote.  The engine reads the token ["v"] as the column of that
      name when the table has one and as a string literal otherwise, or it
      rejects the statement; the result is the exception, or the test that
      the comparison makes on a row.
    - [find_processed dir name recursive]:
      [finder(dir, [name], regex=True, recursive=recursive)].
    - [binds_8bit v]: what the adapter does with a text parameter [v] that
      has a byte above 127.  It stores a [unicode] object ([true]) and
      refuses a [str] with [ProgrammingError] ([false]); the embedding does
      not tell the two Python types apart.
    - [fetch_order query rows]: the order in which the cursor of [query]
      yields the rows that satisfy it.  A query without ORDER BY fixes
      none; it is some arrangement of these rows ([fetch_order_perm]).
    - [run_sql query vals db]: the execution of a statement into whose text
      a value with a double quote was pasted, so that its WHERE clause is
      not the list of conditions that [select] built. *)
Record engine : Type := Engine {
  bbox_wkt : ID -> result string;
  st_intersects : string -> string -> bool;
  dq_test : string -> string -> result (row -> bool);
  find_processed : string -> string -> bool -> list string;
  binds_8bit : string -> bool;
  fetch_order : string -> table -> table;
  fetch_order_perm : forall query rows, Permutation (fetch_order query rows) rows;
  run_sql : string -> list string -> table -> result (list (string * string))
}.

(** [x.encode('ascii')] of a text that was read from the database. *)
Definition encode_ascii (s : string) : result string :=
  if Str.is_ascii s then Ok s
  else Raise (UnicodeEncodeError "'ascii' codec can't encode character").

Definition eight_bit : exn :=
  ProgrammingError ("You must not use 8-bit bytestrings unless you use a text_factory "
                    ++ "that can interpret 8-bit bytestrings (like text_factory = str). "
                    ++ "It is highly recommended that you instead just switch your "
                    ++ "application to Unicode strings.").

Section WithEngine.

Variable eng : engine.

(** The adapter takes the text [v] as a parameter of a statement. *)
Definition bindable (v : string) : bool := Str.is_ascii v || binds_8bit eng v.

(** [int(attribute in pols)] with [pols] the lower-cased polarizations. *)
Definition pol_flag (attribute : string) (i : ID) : Z :=
  if Str.mem attribute (map Str.lower_str (polarizations i)) then 1 else 0.

(** The values of the row of a record, given the WKT of its bounding box;
    [outname_base] is the result of the method call. *)
Definition row_of (i : ID) (geom : string) : row :=
  Row (sensor i) (orbit i) (acquisition_mode i) (start i) (stop i) (product i)
      (samples i) (lines i) (outname_base i) (scene_of i)
      (pol_flag "hh" i) (pol_flag "vv" i) (pol_flag "hv" i) (pol_flag "vh" i)
      geom.

(** [Archive.__prepare_insertion] for an [ID] object. *)
Definition prepare_insertion (i : ID) : result row :=
  let* geom := bbox_wkt eng i in
  Ok (row_of i geom).

Definition unique_failed : string := "UNIQUE constraint failed: data.outname_base".

Definition has_key (key : string) (db : table) : bool :=
  existsb (fun r => String.eqb (r_outname_base r) key) db.

(** [conn.execute('INSERT INTO data(...) VALUES(...)', insertion)] followed
    by [conn.commit()]: the parameters are bound first, then the statement
    runs and the primary key must be new. *)
Definition execute_insert (db : table) (r : row) : result table :=
  if negb (forallb bindable (row_texts r)) then Raise eight_bit
  else if has_key (r_outname_base r) db
       then Raise (IntegrityError unique_failed)
       else Ok (db ++ [r]).

(** [SELECT scene FROM data WHERE outname_base=?] and
    [fetchone()[0].encode('ascii')]. *)
Definition scene_of_key (db : table) (key : string) : result string :=
  match find (fun r => String.eqb (r_outname_base r) key) db with
  | Some r => encode_ascii (r_scene r)
  | None => Raise (TypeError "'NoneType' object has no attribute '__getitem__'")
  end.

Definition already_registered (scene : string) : string :=
  ("scene is already registered in the database at this location: " ++ scene)%string.

(** One turn of the loop of [Archive.insert].  The state is the table and
    the lines printed so far.  The registered path is looked up and encoded
    whether or not it is printed. *)
Definition insert_one (verbose : bool) (st : table * list string) (i : ID)
  : result (table * list string) :=
  let (db, out) := st in
  let* r := prepare_insertion i in
  match execute_insert db r with
  | Ok db' => Ok (db', out)
  | Raise (IntegrityError msg) =>
      if String.eqb msg unique_failed then
        let* scene := scene_of_key db (outname_base i) in
        Ok (db, if verbose then out ++ [already_registered scene] else out)
      else Raise (IntegrityError msg)
  | Raise e => Raise e
  end.

(** The loop of [Archive.insert].  An exception leaves the loop; the rows
    committed in the turns before it stay in the database, which the result
    [Raise] does not show. *)
Fixpoint insert_loop (verbose : bool) (scenes : list ID) (st : table * list string)
  : result (table * list string) :=
  match scenes with
  | [] => Ok st
  | i :: rest =>
      let* st' := insert_one verbose st i in
      insert_loop verbose rest st'
  end.

(** The [AttributeError] of [os.path.basename(x)] for an [ID] object [x]. *)
Definition no_rfind : exn := AttributeError "object has no attribute 'rfind'".

(** The test [os.path.basename(x) not in registered] of
    [Archive.filter_scenelist] on one item of the list. *)
Definition unregistered (registered : list string) (x : scene_or_id) : result bool :=
  match x with
  | IsScene sc => Ok (negb (Str.mem (Str.basename (scene_path sc)) registered))
  | IsID _ => Raise no_rfind
  end.

(** [[x for x in l if test(x)]] with a test that may raise. *)
Fixpoint filterM {A : Type} (test : A -> result bool) (l : list A) : result (list A) :=
  match l with
  | [] => Ok []
  | x :: rest =>
      let* keep := test x in
      let* kept := filterM test rest in
      Ok (if keep then x :: kept else kept)
  end.

(** [Archive.filter_scenelist]: the base names of all registered scenes
    are collected first, each scene encoded to ASCII; then the items whose
    base name is not among them are kept. *)
Definition filter_scenelist (db : table) (scenelist : list scene_or_id)
  : result (list scene_or_id) :=
  let* registered :=
    mapM (fun r => let* s := encode_ascii (r_scene r) in Ok (Str.basename s)) db in
  filterM (unregistered registered) scenelist.

(** The argument [scene_in] of [Archive.insert]: an [ID] object, a path
    ([str]), a list of paths and [ID] objects, or a value of another
    type. *)
Inductive scene_in : Type :=
| InID (i : ID)
| InPath (sc : scene)
| InList (l : list scene_or_id)
| InOther.

Definition bad_scene_in : exn :=
  RuntimeError "scene_in must either be a string pointing to a file, a pyroSAR.ID object or a list containing several of either".

(** [Archive.insert] *)
Definition insert (ext : externals) (db : table) (arg : scene_in) (verbose : bool)
  : result (table * list string) :=
  let* scenes_out :=
    match arg with
    | InID i => Ok ([i], [])
    | InPath sc => let* i := identify ext sc in Ok ([i], [])
    | InList l =>
        let* scenes := filter_scenelist db l in
        let* ids := identify_many ext scenes in
        Ok (ids, ["filtering scenes by name..."; "extracting scene metadata..."]%string)
    | InOther => Raise bad_scene_in
    end in
  let (scenes, out) := scenes_out in
  insert_loop verbose scenes (db, out ++ ["inserting scenes into the database..."%string]).

(** [Archive.size] *)
Definition size (db : table) : Z := Z.of_nat (length db).

(** *** [Archive.select] *)

(** The value of a keyword argument: an [int], a [float] (as [format]
    prints it), a [bool], a [str], a tuple or list (its items as [str]
    prints them), or anything else ([None], a [long], a [unicode]). *)
Inductive argval : Type :=
| AInt (z : Z)
| AFloat (text : string)
| ABool (b : bool)
| AStr (s : string)
| ASeq (items : list string)
| AOther.

Inductive vector_arg : Type :=
| Vector (wkt : string)       (* a [spatial.vector.Vector]; its WKT after reprojection *)
| NotAVector.

(** The entries of [arg_format], each with the value pasted into it or
    bound to its question mark. *)
Inductive condition : Type :=
| CEqual (col : string) (v : string)         (* col="v" *)
| CIn (col : string) (items : list string)   (* col IN ("v1", "v2") *)
| CStartGe (mindate : string)                (* start>=? *)
| CStopLe (maxdate : string)                 (* stop<=? *)
| CFlag (col : string)                       (* col=1 *)
| CIntersects (site : string).

(** ['[0-9]{8}T[0-9]{6}'] *)
Definition date_pattern : Re.pattern :=
  Re.Pattern false (Re.seq [Re.rep 8 Re.digit; Re.chr "T"; Re.rep 6 Re.digit]) false.

Definition str_of_int (z : Z) : string := NilZero.string_of_int (Z.to_int z).

(** A Python [int] is a machine integer; a number outside its range is a
    [long], which is no instance of [int]. *)
Definition is_int (z : Z) : bool := (- 2 ^ 63 <=? z) && (z <? 2 ^ 63).

(** The loop over [arg_valid]: the keywords that name a column, each with
    its value formatted into the condition. *)
Definition arg_conditions (args : list (string * argval)) : list condition :=
  flat_map (fun kv =>
              match snd kv with
              | AInt z => if is_int z then [CEqual (fst kv) (str_of_int z)] else []
              | AFloat text => [CEqual (fst kv) text]
              | ABool b => [CEqual (fst kv) (if b then "True" else "False")%string]
              | AStr v => [CEqual (fst kv) v]
              | ASeq items => [CIn (fst kv) items]
              | AOther => []
              end)
           (filter (fun kv => Str.mem (fst kv) colnames) args).

Definition truthy (s : option string) : option string :=
  match s with
  | Some "" => None
  | _ => s
  end%string.

Definition date_condition (mk : string -> condition) (d : option string) : list condition :=
  match truthy d with
  | Some d => if Re.search date_pattern d then [mk d] else []
  | None => []
  end.

Definition pol_conditions (pols : option (list string)) : list condition :=
  match pols with
  | Some l =>
      flat_map (fun pol => if Str.mem pol ["HH"; "VV"; "HV"; "VH"]%string
                           then [CFlag (Str.lower_str pol)] else []) l
  | None => []
  end.

Definition vector_conditions (v : option vector_arg) : list condition :=
  match v with
  | Some (Vector wkt) => [CIntersects wkt]
  | _ => []
  end.

(** [arg_format] as [Archive.select] builds it. *)
Definition arg_format (vectorobject : option vector_arg) (mindate maxdate : option string)
           (pols : option (list string)) (args : list (string * argval))
  : list condition :=
  arg_conditions args ++ date_condition CStartGe mindate
  ++ date_condition CStopLe maxdate ++ pol_conditions pols
  ++ vector_conditions vectorobject.

(** The text of an entry of [arg_format]. *)
Definition condition_text (c : condition) : string :=
  match c with
  | CEqual col v => col ++ "=" ++ quoted v
  | CIn col items =>
      col ++ " IN (" ++ quoted (Str.join_with (dquote ++ ", " ++ dquote) items) ++ ")"
  | CStartGe _ => "start>=?"
  | CStopLe _ => "stop<=?"
  | CFlag col => col ++ "=1"
  | CIntersects _ => "st_intersects(GeomFromText(?, 4326), bbox) = 1"
  end%string.

(** [query]: the statement with the entries joined by [' AND ']. *)
Definition query_text (conds : list condition) : string :=
  ("SELECT scene, outname_base FROM data WHERE "
   ++ Str.join_with " AND " (map condition_text conds))%string.

(** [vals]: the values bound to the question marks, in their order. *)
Definition vals (conds : list condition) : list string :=
  flat_map (fun c =>
              match c with
              | CStartGe d => [d]
              | CStopLe d => [d]
              | CIntersects site => [site]
              | _ => []
              end) conds.

(** The values that were pasted into the text of the statement. *)
Definition pasted (c : condition) : list string :=
  match c with
  | CEqual _ v => [v]
  | CIn _ items => items
  | _ => []
  end.

(** A pasted value stays inside its quotes: it holds no double quote (and
    no NUL, which would end the text of the statement). *)
Definition plain (v : string) : bool :=
  forallb (fun c => negb (Ascii.eqb c (ascii_of_nat 34)) && negb (Ascii.eqb c zero))
          (Str.chars v).

Definition well_quoted (conds : list condition) : bool :=
  forallb plain (flat_map pasted conds).

(** The tokens between the parentheses of [IN ("...")]: an empty sequence
    leaves one empty token. *)
Definition in_tokens (items : list string) : list string :=
  match items with
  | [] => [""%string]
  | _ => items
  end.

Definition flag_of (col : string) (r : row) : Z :=
  if String.eqb col "hh" then r_hh r
  else if String.eqb col "vv" then r_vv r
  else if String.eqb col "hv" then r_hv r
  else r_vh r.

(** The test that a well quoted entry of [arg_format] makes on a row, or
    the exception with which the engine rejects it.  The columns [start]
    and [stop] hold text and are compared with the bound text byte by
    byte. *)
Definition row_test (c : condition) : result (row -> bool) :=
  match c with
  | CEqual col v => dq_test eng col v
  | CIn col items =>
      let* tests := mapM (dq_test eng col) (in_tokens items) in
      Ok (fun r => existsb (fun t => t r) tests)
  | CStartGe d => Ok (fun r => String.leb d (r_start r))
  | CStopLe d => Ok (fun r => String.leb (r_stop r) d)
  | CFlag col => Ok (fun r => Z.eqb (flag_of col r) 1)
  | CIntersects site => Ok (fun r => st_intersects eng site (r_bbox r))
  end.

(** The rows of [db] that pass all [tests]. *)
Definition passing (tests : list (row -> bool)) (db : table) : table :=
  filter (fun r => forallb (fun t => t r) tests) db.

(** [conn.execute(query, tuple(vals))] and [fetchall()].  With no
    condition the statement ends after [WHERE] and the engine rejects it.
    The statement is prepared, which can fail on a token in double quotes,
    before the values are bound, which fails on a [str] with a byte above
    127. *)
Definition execute_select (db : table) (conds : list condition)
  : result (list (string * string)) :=
  match conds with
  | [] => Raise (OperationalError "incomplete input")
  | _ :: _ =>
      if negb (well_quoted conds) then run_sql eng (query_text conds) (vals conds) db
      else
        let* tests := mapM row_test conds in
        if negb (forallb bindable (vals conds)) then Raise eight_bit
        else Ok (map (fun r => (r_scene r, r_outname_base r))
                     (fetch_order eng (query_text conds) (passing tests db)))
  end.

(** A Python value in the result of [select]. *)
Inductive pyvalue : Type :=
| PStr (s : string)
| PPair (a b : pyvalue).

(** [Archive.select] *)
Definition select (db : table) (vectorobject : option vector_arg)
           (mindate maxdate : option string) (processdir : option string)
           (recursive : bool) (pols : option (list string))
           (args : list (string * argval)) : result (list pyvalue) :=
  let* fetched := execute_select db (arg_format vectorobject mindate maxdate pols args) in
  let scenes :=
    match truthy processdir with
    | Some dir =>
        filter (fun x => Nat.eqb (length (find_processed eng dir (snd x) recursive)) 0)
               fetched
    | None => fetched
    end in
  let* paths := mapM (fun x => encode_ascii (fst x)) scenes in
  Ok (map PStr paths).





Definition inserting : string := "inserting scenes into the database...".


End WithEngine.

End Archive.

(* ------------------------------------------------------------------ *)
(** ** Further definitions: the keys of [__LOCAL__] *)

(** [__LOCAL__] *)
Definition LOCAL : list string :=
  ["sensor"; "projection"; "orbit"; "polarizations"; "acquisition_mode"; "start"; "stop";
   "product"; "spacing"; "samples"; "lines"].

Definition present {A : Type} (v : option A) : bool :=
  match v with Some _ => true | None => false end.

(** [key in metadict], for the keys of [__LOCAL__]. *)
Definition has_local (m : metadict) (key : string) : bool :=
  if String.eqb key "sensor" then present (meta_sensor m)
  else if String.eqb key "projection" then present (meta_projection m)
  else if String.eqb key "orbit" then present (meta_orbit m)
  else if String.eqb key "polarizations" then present (meta_polarizations m)
  else if String.eqb key "acquisition_mode" then present (meta_acquisition_mode m)
  else if String.eqb key "start" then present (meta_start m)
  else if String.eqb key "stop" then present (meta_stop m)
  else if String.eqb key "product" then present (meta_product m)
  else if String.eqb key "spacing" then present (meta_spacing m)
  else if String.eqb key "samples" then present (meta_samples m)
  else if String.eqb key "lines" then present (meta_lines m)
  else false.

(** A path that starts at the root, as [os.path.realpath] returns it. *)
Definition absolute (path : string) : Prop := exists rest, path = String "/" rest.

(* ------------------------------------------------------------------ *)
(** ** [ID.getHGT]: the names of the SRTM tiles under a scene

    The function floors the four corner coordinates, which are floats, and
    works with integers from there on.  The embedding starts at the floors
    [int(float(corners[k]) // 1)]. *)

Module HGT.

Local Open Scope Z_scope.

(** [range(a, b + 1)] *)
Definition range_incl (a b : Z) : list Z :=
  map (fun k => a + Z.of_nat k) (seq 0 (Z.to_nat (b + 1 - a))).

(** [str(x)] of an integer. *)
Definition str (x : Z) : string := NilZero.string_of_int (Z.to_int x).

Definition is_dash (c : ascii) : bool := Ascii.eqb c "-".

(** [s.strip('-')] *)
Definition strip_dash (s : string) : string :=
  Str.of_chars (Str.rstrip_chars is_dash (Str.lstrip_chars is_dash (Str.chars s))).

(** [s.zfill(width)]: zeros on the left up to [width] characters, after the
    sign when there is one. *)
Definition zfill (width : nat) (s : string) : string :=
  let n := String.length s in
  if (width <=? n)%nat then s
  else match s with
       | String c rest =>
           if Ascii.eqb c "-" || Ascii.eqb c "+"
           then String c (Str.replicate (width - n) "0" ++ rest)
           else (Str.replicate (width - n) "0" ++ s)%string
       | EmptyString => Str.replicate width "0"
       end.

(** ['-' in s] *)
Definition has_dash (s : string) : bool := existsb is_dash (Str.chars s).

(** [s.replace('-', by)] for a replacement of one character. *)
Definition replace_dash (by_ : ascii) (s : string) : string :=
  Str.of_chars (map (fun c => if is_dash c then by_ else c) (Str.chars s)).

(** [str(x).zfill(digits + len(str(x)) - len(str(x).strip('-')))], then the
    letter of the hemisphere: [south] in place of the sign, or [north] in
    front. *)
Definition coordinate (digits : nat) (north south : ascii) (x : Z) : string :=
  let s := str x in
  let filled := zfill (digits + String.length s - String.length (strip_dash s)) s in
  if has_dash filled then replace_dash south filled else String north filled.

(** [ID.getHGT], from the floors of [ymin], [ymax], [xmin] and [xmax]. *)
Definition getHGT (ymin ymax xmin xmax : Z) : list string :=
  let lat := map (coordinate 2 "N" "S") (range_incl ymin ymax) in
  let lon := map (coordinate 3 "E" "W") (range_incl xmin xmax) in
  flat_map (fun x => map (fun y => (x ++ y ++ ".hgt")%string) lon) lat.

Definition digit (v : Z) : ascii := ascii_of_nat (48 + Z.to_nat (v mod 10)).

(** The name of the tile whose south-west corner is at latitude [la] and
    longitude [lo]: [N] or [S] and two digits, [E] or [W] and three
    digits. *)
Definition tile (la lo : Z) : string :=
  String (if (la <? 0)%Z then "S"%char else "N"%char)
    (String (digit (Z.abs la / 10)) (String (digit (Z.abs la))
      (String (if (lo <? 0)%Z then "W"%char else "E"%char)
        (String (digit (Z.abs lo / 100)) (String (digit (Z.abs lo / 10))
          (String (digit (Z.abs lo)) ".hgt")))))).

End HGT.

(* ------------------------------------------------------------------ *)
(** ** Which strings a time format can match at all

    A string is looked at with every decimal digit blurred: [None] stands
    for some digit, [Some c] for the character [c], which is not a digit.
    [may_match] follows [Time.regex_match] on such a string and says whether
    the items can match the whole of it for some choice of the digits. *)

Module Blur.

Definition blurred : Type := list (option ascii).

Definition blur_char (c : ascii) : option ascii :=
  if Str.is_digit c then None else Some c.

Definition blur (s : list ascii) : blurred := map blur_char s.

Definition is_some_digit (a : option ascii) : bool :=
  match a with None => true | Some _ => false end.

(** The first [k] symbols are there and are digits. *)
Definition digit_run (s : blurred) (k : nat) : bool :=
  (k <=? length s)%nat && forallb is_some_digit (firstn k s).

Definition runs (ks : list nat) (s : blurred) : list nat := filter (digit_run s) ks.

(** The numbers of symbols that a directive may take from the head of [s]. *)
Definition may_lengths (d : Time.directive) (s : blurred) : list nat :=
  match d with
  | Time.D_Y => runs [4%nat] s
  | Time.D_d =>
      runs [2%nat; 1%nat] s
      ++ match s with
         | Some b :: None :: _ => if Ascii.eqb b " " then [2%nat] else []
         | _ => []
         end
  | Time.D_m | Time.D_H | Time.D_M | Time.D_S => runs [2%nat; 1%nat] s
  | Time.D_f => runs [6%nat; 5%nat; 4%nat; 3%nat; 2%nat; 1%nat] s
  | Time.D_b => match s with _ :: _ :: _ :: _ => [3%nat] | _ => [] end
  end.

Fixpoint after_spaces (s : blurred) : list blurred :=
  match s with
  | Some c :: t => if Str.is_space c then after_spaces t ++ [t] else []
  | _ => []
  end.

Fixpoint may_match (items : list Time.item) (s : blurred) : bool :=
  match items with
  | [] => match s with [] => true | _ :: _ => false end
  | Time.Lit c :: rest =>
      match s with
      | a :: t =>
          match a with
          | Some c' => Ascii.eqb (Str.lower c) (Str.lower c')
          | None => Str.is_digit (Str.lower c)
          end && may_match rest t
      | [] => false
      end
  | Time.Ws :: rest => existsb (may_match rest) (after_spaces s)
  | Time.Dir d :: rest => existsb (fun k => may_match rest (skipn k s)) (may_lengths d s)
  end.

(** The blurred form of every string [YYYYMMDDTHHMMSS]. *)
Definition canonical : blurred :=
  [None; None; None; None; None; None; None; None; Some "T"%char;
   None; None; None; None; None; None].

End Blur.

(* ------------------------------------------------------------------ *)
(** ** [ID.is_processed] and [filter_processed] *)

(** What the file system says about an output directory: [os.path.isdir]
    and [finder(outdir, [name], regex=True, recursive=recursive)]. *)
Record outdir_view : Type := OutdirView {
  isdir : string -> bool;
  find_products : string -> string -> bool -> list string
}.

(** [ID.is_processed] *)
Definition is_processed (fs : outdir_view) (i : ID) (outdir : string) (recursive : bool)
  : bool :=
  if isdir fs outdir
  then negb (Nat.eqb (length (find_products fs outdir (outname_base i) recursive)) 0)
  else false.

(** [filter_processed] *)
Definition filter_processed (fs : outdir_view) (scenelist : list ID) (outdir : string)
           (recursive : bool) : list ID :=
  filter (fun x => negb (is_processed fs x outdir recursive)) scenelist.

(* ------------------------------------------------------------------ *)
(** ** The candidate files of a scene in a container

    What the specification calls the candidate files that a pattern
    matches, for a scene in a zip or tar archive: the members whose base
    name the pattern finds, the folders among them only when folders are
    asked for.  [ID.findfiles] is compared with it below. *)

(** The member is a folder: its name ends with a slash (zip), or the
    archive marks it as a directory (tar). *)
Definition is_folder (sc : scene) (m : member) : bool :=
  match scene_kind sc with
  | ZipArchive => Str.endswith_slash (Str.join (scene_path sc) (member_name m))
  | TarArchive => member_isdir m
  | _ => false
  end.

Definition candidate (sc : scene) (pattern : Re.pattern) (include_folders : bool)
           (m : member) : bool :=
  Re.search pattern (Str.basename (Str.strip_slash (member_name m)))
  && (include_folders || negb (is_folder sc m)).

(** The path under which a candidate is reported. *)
Definition member_path (sc : scene) (include_folders : bool) (m : member) : string :=
  match scene_kind sc with
  | ZipArchive =>
      if include_folders then Str.strip_slash (Str.join (scene_path sc) (member_name m))
      else Str.join (scene_path sc) (member_name m)
  | _ => Str.join (scene_path sc) (member_name m)
  end.

Definition in_container (sc : scene) : Prop :=
  scene_kind sc = ZipArchive \/ scene_kind sc = TarArchive.

(** [s] is a word of [a] followed by a word of [b]. *)
Definition splits (a b : Re.re) (s : list ascii) : Prop :=
  exists s1 s2, s = s1 ++ s2 /\ Re.fullmatch a s1 = true /\ Re.fullmatch b s2 = true.

(* ------------------------------------------------------------------ *)
(** ** Concrete scenes and collaborators for the examples *)

Module Fixtures.

Definition unreadable {A : Type} : result A := Raise (IOError "file type not supported").

(** Collaborators that find nothing and read nothing. *)
Definition ext0 : externals :=
  Externals (fun _ _ _ => [])
            (fun _ => unreadable) (fun _ => unreadable) (fun _ => unreadable)
            (fun _ _ => unreadable) (fun _ => Ok tt) (fun _ => unreadable) (fun _ => [])
            (fun _ => unreadable) (fun _ => unreadable)
            (fun _ _ => unreadable) (fun _ _ => unreadable).

Definition tsx_meta : metadict :=
  Meta (Some "TSX1") None (Some "A") (Some ["HH"]) (Some "SL")
       (Some "20110902T015248") (Some "20110902T015249") (Some "MGD")
       (Some (Float 1 0, Float 1 0)) (Some 8000%Z) (Some 6000%Z).

(** Collaborators that can read the header of a TerraSAR-X scene. *)
Definition ext_tsx : externals :=
  Externals (fun _ _ _ => [])
            (fun _ => unreadable) (fun _ => unreadable) (fun _ => unreadable)
            (fun _ _ => unreadable) (fun _ => Ok tt) (fun _ => unreadable) (fun _ => [])
            (fun _ => unreadable) (fun _ => unreadable)
            (fun _ _ => unreadable) (fun _ _ => Ok tsx_meta).

(** An ERS level-0 product, a file on its own. *)
Definition level0_scene : scene :=
  Scene "/data/SAR_IM__0PWDSI19920904_101949_00000018C087_00294_05971_0000.E1"
        PlainFile [].

(** A file whose name ends like an ERS product after one more character:
    [re.search] finds the pattern, [re.match] does not. *)
Definition prefixed_scene : scene :=
  Scene "/data/XSAR_IMP_1PWDSI19920904_101949_00000018C087_00294_05971_0000.E1"
        PlainFile [].

(** A TerraSAR-X scene in a tar archive: the product folder and the
    header file in it. *)
Definition tsx_tar : scene :=
  Scene "/data/TSX1_20110902.tar.gz" TarArchive
        [ Member "TSX1_SAR__MGD_SE___SL_S_SRA_20110902T015248_20110902T015249" true;
          Member ("TSX1_SAR__MGD_SE___SL_S_SRA_20110902T015248_20110902T015249/"
                  ++ "TSX1_SAR__MGD_SE___SL_S_SRA_20110902T015248_20110902T015249.xml")
                 false ].

Definition tsx_id : ID :=
  MkID "/data/TSX1_20110902.tar.gz"
       ("/data/TSX1_20110902.tar.gz/"
        ++ "TSX1_SAR__MGD_SE___SL_S_SRA_20110902T015248_20110902T015249/"
        ++ "TSX1_SAR__MGD_SE___SL_S_SRA_20110902T015248_20110902T015249.xml")
       "TSX1" wgs84_wkt "A" ["HH"] "SL" "20110902T015248" "20110902T015249" "MGD"
       (Float 1 0, Float 1 0) 8000 6000.

(** A directory in which nothing is found. *)
Definition empty_dir : scene := Scene "/data/empty" Directory [].

(** Two records with the same orbit and start whose sensor and
    acquisition mode split the same text at different underscores. *)
Definition long_sensor_id : ID :=
  MkID "/a" "/a/f" "AAAA_BBBB" wgs84_wkt "A" ["HH"] "CCCC" "20200101T000000"
       "20200101T000010" "SLC" (Float 1 0, Float 1 0) 10 10.

Definition long_mode_id : ID :=
  MkID "/b" "/b/f" "AAAA" wgs84_wkt "A" ["HH"] "BBBB_CCCC" "20200101T000000"
       "20200101T000010" "SLC" (Float 1 0, Float 1 0) 10 10.

(** A Sentinel-1 record. *)
Definition s1_id : ID :=
  MkID "/data/S1A_IW_GRDH_1SDV_20200110T000000_20200110T000025_030000_037000_ABCD.SAFE"
       "/data/S1A_IW_GRDH_1SDV_20200110T000000_20200110T000025_030000_037000_ABCD.SAFE"
       "S1A" wgs84_wkt "A" ["VV"; "VH"] "IW" "20200110T000000" "20200110T000025" "GRD"
       (Float 10 0, Float 10 0) 25000 16000.

(** A leader trailer of sixteen bytes whose length field (bytes 8 to 11,
    big-endian) declares a record of 720 bytes. *)
Definition short_trailer : Leader.bytes :=
  [ Byte.x00; Byte.x00; Byte.x00; Byte.x01; Byte.x0a; Byte.x14; Byte.x12; Byte.x3d;
    Byte.x00; Byte.x00; Byte.x02; Byte.xd0; Byte.x41; Byte.x42; Byte.x43; Byte.x44 ].

(** The text of a column of a row, for the engine of the examples. *)
Definition column_text (r : Archive.row) (col : string) : string :=
  if String.eqb col "sensor" then Archive.r_sensor r
  else if String.eqb col "orbit" then Archive.r_orbit r
  else if String.eqb col "acquisition_mode" then Archive.r_acquisition_mode r
  else if String.eqb col "start" then Archive.r_start r
  else if String.eqb col "stop" then Archive.r_stop r
  else if String.eqb col "product" then Archive.r_product r
  else if String.eqb col "outname_base" then Archive.r_outname_base r
  else if String.eqb col "scene" then Archive.r_scene r
  else "".

Definition unit_square : string := "POLYGON ((0 0, 0 1, 1 1, 1 0, 0 0))".

(** The comparison [col="v"] of the examples: the token is a column when
    it is the name of one and a string literal otherwise; texts are compared
    byte by byte. *)
Definition dq_text (col v : string) : result (Archive.row -> bool) :=
  Ok (fun r => String.eqb (column_text r col)
                          (if Str.mem v Archive.colnames then column_text r v else v)).

Definition syntax_error {A : Type} : result A := Raise (OperationalError "syntax error").

(** An engine for the examples: every scene has the same bounding box,
    nothing has been processed yet, a [str] with a byte above 127 is
    refused and a query yields its rows in the order of the table. *)
Definition eng0 : Archive.engine :=
  Archive.Engine (fun _ => Ok unit_square)
                 (fun _ _ => true)
                 dq_text
                 (fun _ _ _ => [])
                 (fun _ => false)
                 (fun _ rows => rows)
                 (fun _ rows => Permutation_refl rows)
                 (fun _ _ _ => syntax_error).

(** The same engine with an output directory that holds a product of the
    scene of 5 January 2020. *)
Definition eng_processed : Archive.engine :=
  Archive.Engine (fun _ => Ok unit_square)
                 (fun _ _ => true)
                 dq_text
                 (fun _ name _ =>
                    if String.eqb name "S1A__IW___A_20200105T000000"
                    then ["/out/S1A__IW___A_20200105T000000_VV_grd"] else [])
                 (fun _ => false)
                 (fun _ rows => rows)
                 (fun _ rows => Permutation_refl rows)
                 (fun _ _ _ => syntax_error).

(** Three registered scenes: two in January 2020 and one in March 2020,
    all with a VV channel. *)
Definition january_a : Archive.row :=
  Archive.Row "S1A" "A" "IW" "20200105T000000" "20200105T000025" "GRD" 25000 16000
              "S1A__IW___A_20200105T000000" "/data/S1A_20200105.zip" 0 1 0 1
              "POLYGON ((0 0, 0 1, 1 1, 1 0, 0 0))".

Definition january_b : Archive.row :=
  Archive.Row "S1B" "D" "IW" "20200120T000000" "20200120T000025" "GRD" 25000 16000
              "S1B__IW___D_20200120T000000" "/data/S1B_20200120.zip" 0 1 0 0
              "POLYGON ((0 0, 0 1, 1 1, 1 0, 0 0))".

Definition march_c : Archive.row :=
  Archive.Row "S1A" "A" "IW" "20200301T000000" "20200301T000025" "GRD" 25000 16000
              "S1A__IW___A_20200301T000000" "/data/S1A_20200301.zip" 0 1 0 1
              "POLYGON ((0 0, 0 1, 1 1, 1 0, 0 0))".

Definition three_scenes : Archive.table := [january_a; january_b; march_c].

(** The row of the Sentinel-1 record [s1_id]. *)
Definition s1_row : Archive.row := Archive.row_of s1_id unit_square.

(** A Sentinel-1 scene in a zip archive that holds the folder and the
    manifest, but no annotation file. *)
Definition safe_zip_without_annotation : scene :=
  Scene "/data/S1A_IW_GRDH_1SDV_20200110T000000_20200110T000025_030000_037000_ABCD.zip"
        ZipArchive
        [ Member "S1A_IW_GRDH_1SDV_20200110T000000_20200110T000025_030000_037000_ABCD.SAFE/"
                 true;
          Member ("S1A_IW_GRDH_1SDV_20200110T000000_20200110T000025_030000_037000_ABCD.SAFE/"
                  ++ "manifest.safe") false ].

Definition safe_meta : metadict :=
  Meta (Some "S1A") None (Some "A") (Some ["VV"; "VH"]) (Some "IW")
       (Some "20200110T000000") (Some "20200110T000025") (Some "GRD") None None None.

(** Collaborators that can read the manifest of a Sentinel-1 scene. *)
Definition ext_safe : externals :=
  Externals (fun _ _ _ => [])
            (fun _ => unreadable) (fun _ => unreadable) (fun _ => unreadable)
            (fun _ _ => unreadable) (fun _ => Ok tt) (fun _ => unreadable) (fun _ => [])
            (fun _ => unreadable) (fun _ => Ok safe_meta)
            (fun _ _ => unreadable) (fun _ _ => unreadable).

(** A Sentinel-1 scene in a zip archive: the folder, the manifest and two
    annotation files. *)
Definition s1_zip : scene :=
  Scene "/data/S1A_IW_GRDH_1SDV_20200110T000000_20200110T000025_030000_037000_ABCD.zip"
        ZipArchive
        [ Member "S1A_IW_GRDH_1SDV_20200110T000000_20200110T000025_030000_037000_ABCD.SAFE/"
                 true;
          Member ("S1A_IW_GRDH_1SDV_20200110T000000_20200110T000025_030000_037000_ABCD.SAFE/"
                  ++ "manifest.safe") false;
          Member ("S1A_IW_GRDH_1SDV_20200110T000000_20200110T000025_030000_037000_ABCD.SAFE/"
                  ++ "annotation/"
                  ++ "s1a-iw-grd-vv-20200110t000000-20200110t000025-030000-037000-001.xml")
                 false;
          Member ("S1A_IW_GRDH_1SDV_20200110T000000_20200110T000025_030000_037000_ABCD.SAFE/"
                  ++ "annotation/"
                  ++ "s1a-iw-grd-vh-20200110t000000-20200110t000025-030000-037000-002.xml")
                 false ].

(** What the annotation file of that scene holds. *)
Definition s1_dims : metadict :=
  Meta None None None None None None None None
       (Some (Float 10 0, Float 10 0)) (Some 25000%Z) (Some 16000%Z).

(** Collaborators that can read the manifest and the annotation of a
    Sentinel-1 scene. *)
Definition ext_s1 : externals :=
  Externals (fun _ _ _ => [])
            (fun _ => unreadable) (fun _ => unreadable) (fun _ => unreadable)
            (fun _ _ => unreadable) (fun _ => Ok tt) (fun _ => unreadable) (fun _ => [])
            (fun _ => unreadable) (fun _ => Ok safe_meta)
            (fun _ _ => Ok s1_dims) (fun _ _ => unreadable).

(** The record of that scene.  The folder is found as a member of the zip
    archive; [x.strip('/')] takes the leading slash of the joined path
    away with the trailing one. *)
Definition s1_zip_id : ID :=
  MkID "/data/S1A_IW_GRDH_1SDV_20200110T000000_20200110T000025_030000_037000_ABCD.zip"
       ("data/S1A_IW_GRDH_1SDV_20200110T000000_20200110T000025_030000_037000_ABCD.zip/"
        ++ "S1A_IW_GRDH_1SDV_20200110T000000_20200110T000025_030000_037000_ABCD.SAFE")
       "S1A" wgs84_wkt "A" ["VV"; "VH"] "IW" "20200110T000000" "20200110T000025" "GRD"
       (Float 10 0, Float 10 0) 25000 16000.

(** *** A PALSAR-1 scene with a leader file whose trailer is cut short *)

Definition bytes_of (s : string) : Leader.bytes := map byte_of_ascii (Str.chars s).

Definition byte_of (v : Z) : Byte.byte :=
  match Byte.of_N (Z.to_N (v mod 256)) with
  | Some b => b
  | None => Byte.x00
  end.

(** Four bytes, big-endian. *)
Definition be32 (n : Z) : Leader.bytes :=
  [byte_of (n / 2 ^ 24); byte_of (n / 2 ^ 16); byte_of (n / 2 ^ 8); byte_of n].

(** [l] with [s] written over it from position [at_] on. *)
Definition put (at_ : nat) (s : Leader.bytes) (l : Leader.bytes) : Leader.bytes :=
  firstn at_ l ++ s ++ skipn (at_ + length s) l.

(** A record of [size] blanks that declares [declared] bytes in bytes 8 to
    11. *)
Definition record (size declared : Z) : Leader.bytes :=
  put 8 (be32 declared) (repeat Byte.x20 (Z.to_nat size)).

(** The file descriptor: 720 bytes; one data set summary of 4096 bytes, one
    record of radiometric data of 9860 bytes and none of the other kinds. *)
Definition file_descriptor : Leader.bytes :=
  put 48 (bytes_of "AL1")
  (put 180 (bytes_of "     1") (put 186 (bytes_of "  4096")
  (put 192 (bytes_of "     0") (put 198 (bytes_of "     0")
  (put 204 (bytes_of "     0") (put 210 (bytes_of "     0")
  (put 216 (bytes_of "     0") (put 222 (bytes_of "     0")
  (put 228 (bytes_of "     1") (put 234 (bytes_of "  9860")
  (put 252 (bytes_of "     0") (put 258 (bytes_of "     0")
  (record 720 720))))))))))))).

Definition data_set_summary : Leader.bytes :=
  put 324 (bytes_of "    9344") (put 332 (bytes_of "    2336")
  (put 484 (bytes_of "  38.800") (put 500 (bytes_of "       0.2360571")
  (put 1174 (bytes_of "       1.0000000") (put 1190 (bytes_of "       1.0000000")
  (put 1534 (bytes_of "ASCEND  ")
  (put 1686 (bytes_of "       3.1449986") (put 1702 (bytes_of "       9.3685143")
  (record 4096 4096))))))))).

Definition radiometric_data : Leader.bytes :=
  put 20 (bytes_of "     -83.0000000") (record 9860 9860).

(** The one facility related record: it declares 5000 bytes, and 112 are
    there. *)
Definition cut_record : Leader.bytes :=
  record 12 5000
  ++ bytes_of ("Img_SceneStartDateTime=" ++ dquote ++ "20070712 10:31:15.123" ++ dquote
               ++ "    "
               ++ "Img_SceneEndDateTime=" ++ dquote ++ "20070712 10:31:23.456" ++ dquote
               ++ "    ").

Definition palsar_leader : Leader.bytes :=
  file_descriptor ++ data_set_summary ++ radiometric_data ++ cut_record.





(** The map projection data of a product in polar stereographic
    projection: 1620 bytes with the eight corner coordinates and the name of
    the projection. *)
Definition ups_projection_data : Leader.bytes :=
  put 412 (bytes_of "UPS-PROJECTION")
  (put 1072 (bytes_of "     -71.2000000") (put 1088 (bytes_of "      10.1000000")
  (put 1104 (bytes_of "     -71.3000000") (put 1120 (bytes_of "      12.2000000")
  (put 1136 (bytes_of "     -71.9000000") (put 1152 (bytes_of "      10.0000000")
  (put 1168 (bytes_of "     -72.0000000") (put 1184 (bytes_of "      12.3000000")
  (record 1620 1620))))))))).

(** The leader file of such a product: the file descriptor announces one
    record of map projection data. *)
Definition ups_leader : Leader.bytes :=
  put 192 (bytes_of "     1") (put 198 (bytes_of "  1620") file_descriptor)
  ++ data_set_summary ++ ups_projection_data ++ radiometric_data ++ cut_record.

Definition ups_tar : scene :=
  Scene "/data/ALPSRP077365000-L1.5.tar.gz" TarArchive
        [ Member "VOL-ALPSRP077365000-H1.5GPA" false;
          Member "LED-ALPSRP077365000-H1.5GPA" false;
          Member "IMG-HH-ALPSRP077365000-H1.5GPA" false;
          Member "TRL-ALPSRP077365000-H1.5GPA" false ].

Definition ext_ups : externals :=
  Externals (fun _ _ _ => [])
            (fun _ => unreadable) (fun _ => unreadable) (fun _ => unreadable)
            (fun _ name =>
               if String.eqb (Str.basename name) "LED-ALPSRP077365000-H1.5GPA"
               then Ok ups_leader else unreadable)
            (fun _ => Ok tt) (fun _ => Ok wgs84_wkt) (fun _ => [])
            (fun _ => unreadable) (fun _ => unreadable)
            (fun _ _ => unreadable) (fun _ _ => unreadable).

(** A tar archive with two PALSAR-1 leader files. *)
Definition two_leaders : scene :=
  Scene "/data/palsar.tar.gz" TarArchive
        [ Member "LED-ALPSRP224031000-H1.1__A" false;
          Member "LED-ALPSRP224031010-H1.1__A" false ].

(** A tar archive with one PALSAR-2 leader file. *)
Definition palsar2_tar : scene :=
  Scene "/data/palsar2.tar.gz" TarArchive
        [ Member "IMG-HH-ALOS2048992750-150420-FBDR1.5RUD" false;
          Member "LED-ALOS2048992750-150420-FBDR1.5RUD" false ].

(** A TerraSAR-X header given as a file of its own, by its absolute path. *)
Definition tsx_file : scene :=
  Scene "/data/TSX1_SAR__MGD_SE___SL_S_SRA_20110902T015248_20110902T015249.xml"
        PlainFile [].

(** A trailer of sixteen bytes whose length field is zero. *)
Definition zero_trailer : Leader.bytes :=
  [ Byte.x01; Byte.x01; Byte.x01; Byte.x01; Byte.x01; Byte.x01; Byte.x01; Byte.x01;
    Byte.x00; Byte.x00; Byte.x00; Byte.x00; Byte.x01; Byte.x01; Byte.x01; Byte.x01 ].

(** A trailer of two records, of twelve and of sixteen bytes, each with its
    length in bytes 8 to 11. *)
Definition two_records : Leader.bytes :=
  [ Byte.x01; Byte.x01; Byte.x01; Byte.x01; Byte.x01; Byte.x01; Byte.x01; Byte.x01;
    Byte.x00; Byte.x00; Byte.x00; Byte.x0c;
    Byte.x01; Byte.x01; Byte.x01; Byte.x01; Byte.x01; Byte.x01; Byte.x01; Byte.x01;
    Byte.x00; Byte.x00; Byte.x00; Byte.x10; Byte.x01; Byte.x01; Byte.x01; Byte.x01 ].

(** An output directory [/out] that holds a product of the Sentinel-1
    scene of 10 January 2020 and of no other. *)
Definition out_view : outdir_view :=
  OutdirView (fun d => String.eqb d "/out")
             (fun _ name _ =>
                if String.eqb name "S1A__IW___A_20200110T000000"
                then ["/out/S1A__IW___A_20200110T000000_VV_grd"] else []).

End Fixtures.

(* ------------------------------------------------------------------ *)
(** * Properties *)

(** ** The scene identifier *)

Lemma caught_not_found (cls : string) : caught_by_identify (not_found cls) = true.
Proof. reflexivity. Qed.

Lemma caught_ambiguous (files : list string) : caught_by_identify (ambiguous files) = true.
Proof. reflexivity. Qed.

Lemma not_found_is_not_ambiguous (cls : string) (files : list string) :
  not_found cls <> ambiguous files.
Proof. unfold not_found, ambiguous. simpl. discriminate. Qed.

Lemma filter_of_map {A B : Type} (p : B -> bool) (g : A -> B) (l : list A) :
  filter p (map g l) = map g (filter (fun x => p (g x)) l).
Proof.
  induction l as [|x l IH]; [reflexivity|]. cbn [map filter].
  destruct (p (g x)); cbn [map]; now rewrite IH.
Qed.

Lemma filter_of_filter {A : Type} (p q : A -> bool) (l : list A) :
  filter p (filter q l) = filter (fun x => q x && p x) l.
Proof.
  induction l as [|x l IH]; [reflexivity|]. cbn [filter].
  destruct (q x); cbn [filter andb]; [destruct (p x)|]; now rewrite IH.
Qed.

Lemma filter_agree {A : Type} (p q : A -> bool) (l : list A) :
  (forall x, p x = q x) -> filter p l = filter q l.
Proof.
  intros H. induction l as [|x l IH]; [reflexivity|]. cbn [filter].
  now rewrite H, IH.
Qed.

(** [findfiles] on a zip or tar archive reports the candidates among the
    members, in their order. *)
Lemma findfiles_candidates (ext : externals) (sc : scene) (pattern : Re.pattern)
      (include_folders : bool) :
  in_container sc ->
  findfiles ext sc pattern include_folders
  = map (member_path sc include_folders)
        (filter (candidate sc pattern include_folders) (scene_members sc)).
Proof.
  intros [K|K]; unfold findfiles, candidate, member_path, is_folder; rewrite K.
  - rewrite (filter_of_map _ member_name).
    destruct include_folders.
    + rewrite !map_map. f_equal. apply filter_agree. intros m. now rewrite andb_true_r.
    + rewrite map_map, (filter_of_map _ (fun x => Str.join (scene_path sc) (member_name x))).
      rewrite filter_of_filter. reflexivity.
  - destruct include_folders.
    + f_equal. apply filter_agree. intros m. now rewrite andb_true_r.
    + rewrite filter_of_filter. reflexivity.
Qed.

Lemma examine_files_cases (cls : string) (files : list string) :
  (forall f, examine_files cls files = Ok f <-> files = [f])
  /\ (examine_files cls files = Raise (not_found cls) <-> files = [])
  /\ (examine_files cls files = Raise (ambiguous files) <-> (1 < length files)%nat).
Proof.
  destruct files as [|f0 [|f1 rest]]; cbn [examine_files length].
  - split; [|split].
    + intros f. split; discriminate.
    + split; reflexivity.
    + split; intros H; [|lia].
      exfalso. apply (not_found_is_not_ambiguous cls []). now inversion H.
  - split; [|split].
    + intros f. split; intros H; inversion H; reflexivity.
    + split; discriminate.
    + split; [discriminate|lia].
  - split; [|split].
    + intros f. split; discriminate.
    + split; intros H; [|discriminate].
      exfalso. apply (not_found_is_not_ambiguous cls (f0 :: f1 :: rest)). now inversion H.
    + split; intros _; [simpl; lia|reflexivity].
Qed.

Lemma map_singleton {A B : Type} (g : A -> B) (l : list A) (y : B) :
  map g l = [y] <-> exists x, l = [x] /\ y = g x.
Proof.
  split.
  - destruct l as [|x [|x' l]]; try discriminate.
    intros H. inversion H. now exists x.
  - intros [x [-> ->]]. reflexivity.
Qed.

Lemma filter_nil_iff {A : Type} (p : A -> bool) (l : list A) :
  filter p l = [] <-> forall x, In x l -> p x = false.
Proof.
  induction l as [|x l IH]; cbn [filter].
  - split; [intros _ x [] | reflexivity].
  - destruct (p x) eqn:E.
    + split; [discriminate|]. intros H. specialize (H x (or_introl eq_refl)). congruence.
    + rewrite IH. split.
      * intros H y [<-|Hy]; [exact E | now apply H].
      * intros H y Hy. apply H. now right.
Qed.

(** C8.  [examine] succeeds exactly when [findfiles] yields exactly one
    file, which becomes [self.file]; it fails as "not found" exactly when
    there is none and as "ambiguous" exactly when there are several, and
    both failures are [IOError]s, which [identify] catches.  For a scene in a
    zip or tar archive the files that [findfiles] yields are the candidates
    that the pattern matches: [examine] succeeds exactly when one member is a
    candidate, with the path of that member; it fails as "not found" exactly
    when no member is one and as "ambiguous" exactly when several are.  A
    file of its own is the one candidate when the pattern is found in its
    path, and is never ambiguous; in a directory the candidates are those
    that [finder] reports, and the directory itself when folders are asked
    for and the pattern is found in its name. *)
Theorem examine_one_candidate (ext : externals) (cls : string) (sc : scene)
        (pattern : Re.pattern) (include_folders : bool) :
  let files := findfiles ext sc pattern include_folders in
  let found := filter (candidate sc pattern include_folders) (scene_members sc) in
  (forall f, examine ext cls sc pattern include_folders = Ok f <-> files = [f])
  /\ (examine ext cls sc pattern include_folders = Raise (not_found cls) <-> files = [])
  /\ (examine ext cls sc pattern include_folders = Raise (ambiguous files)
      <-> (1 < length files)%nat)
  /\ caught_by_identify (not_found cls) = true
  /\ caught_by_identify (ambiguous files) = true
  /\ (in_container sc ->
      files = map (member_path sc include_folders) found
      /\ (forall f, examine ext cls sc pattern include_folders = Ok f
                    <-> exists m, found = [m] /\ f = member_path sc include_folders m)
      /\ (examine ext cls sc pattern include_folders = Raise (not_found cls)
          <-> forall m, In m (scene_members sc) ->
                        candidate sc pattern include_folders m = false)
      /\ (examine ext cls sc pattern include_folders = Raise (ambiguous files)
          <-> (1 < length found)%nat))
  /\ (scene_kind sc = PlainFile ->
      (forall f, examine ext cls sc pattern include_folders = Ok f
                 <-> Re.search pattern (scene_path sc) = true /\ f = scene_path sc)
      /\ (examine ext cls sc pattern include_folders = Raise (not_found cls)
          <-> Re.search pattern (scene_path sc) = false)
      /\ examine ext cls sc pattern include_folders <> Raise (ambiguous files))
  /\ (scene_kind sc = Directory ->
      files = finder ext (scene_path sc) pattern (if include_folders then 1 else 0)%nat
              ++ (if Re.search pattern (Str.basename (scene_path sc)) && include_folders
                  then [scene_path sc] else [])).
Proof.
  intros files found.
  destruct (examine_files_cases cls files) as [One [None_ Many]].
  unfold examine. fold files.
  split; [exact One|]. split; [exact None_|]. split; [exact Many|].
  split; [reflexivity|]. split; [reflexivity|]. split; [|split].
  - intros C. pose proof (findfiles_candidates ext sc pattern include_folders C) as F.
    fold files in F. fold found in F.
    split; [exact F|]. split; [|split].
    + intros f. rewrite One, F. apply map_singleton.
    + rewrite None_, F. unfold found. rewrite <- filter_nil_iff.
      split; [|intros ->; reflexivity].
      intros H. apply map_eq_nil in H. exact H.
    + rewrite Many, F. now rewrite length_map.
  - intros K.
    assert (F : files = if Re.search pattern (scene_path sc) then [scene_path sc] else []).
    { unfold files, findfiles. now rewrite K. }
    split; [|split].
    + intros f. rewrite One, F. destruct (Re.search pattern (scene_path sc)).
      * split; [intros H; inversion H; now split | intros [_ ->]; reflexivity].
      * split; [discriminate | intros [H _]; discriminate].
    + rewrite None_, F. destruct (Re.search pattern (scene_path sc)).
      * split; discriminate.
      * split; reflexivity.
    + intros H. apply Many in H. rewrite F in H.
      destruct (Re.search pattern (scene_path sc)); simpl in H; lia.
  - intros K. unfold files, findfiles. rewrite K.
    destruct (Re.search pattern (Str.basename (scene_path sc)) && include_folders);
      [reflexivity | now rewrite app_nil_r].
Qed.

Lemma examine_one_candidate_witness :
  examine Fixtures.ext0 "CEOS_PSR" Fixtures.palsar2_tar Patterns.ceos_psr2 false
  = Ok "/data/palsar2.tar.gz/LED-ALOS2048992750-150420-FBDR1.5RUD"
  /\ examine Fixtures.ext0 "CEOS_PSR" Fixtures.two_leaders Patterns.ceos_psr1 false
     = Raise (ambiguous ["/data/palsar.tar.gz/LED-ALPSRP224031000-H1.1__A";
                         "/data/palsar.tar.gz/LED-ALPSRP224031010-H1.1__A"])
  /\ examine Fixtures.ext0 "TSX" Fixtures.tsx_file Patterns.tsx false
     = Raise (not_found "TSX").
Proof.
  split; [|split].
  - destruct (examine_one_candidate Fixtures.ext0 "CEOS_PSR" Fixtures.palsar2_tar
                Patterns.ceos_psr2 false) as [_ [_ [_ [_ [_ [C _]]]]]].
    destruct (C (or_intror eq_refl)) as [_ [One _]].
    apply One. exists (Member "LED-ALOS2048992750-150420-FBDR1.5RUD" false).
    split; vm_compute; reflexivity.
  - destruct (examine_one_candidate Fixtures.ext0 "CEOS_PSR" Fixtures.two_leaders
                Patterns.ceos_psr1 false) as [_ [_ [_ [_ [_ [C _]]]]]].
    destruct (C (or_intror eq_refl)) as [_ [_ [_ Many]]].
    change (ambiguous ["/data/palsar.tar.gz/LED-ALPSRP224031000-H1.1__A";
                       "/data/palsar.tar.gz/LED-ALPSRP224031010-H1.1__A"])
      with (ambiguous (findfiles Fixtures.ext0 Fixtures.two_leaders Patterns.ceos_psr1 false)).
    apply Many. vm_compute. lia.
  - destruct (examine_one_candidate Fixtures.ext0 "TSX" Fixtures.tsx_file
                Patterns.tsx false) as [_ [_ [_ [_ [_ [_ [P _]]]]]]].
    destruct (P eq_refl) as [_ [None_ _]].
    apply None_. vm_compute. reflexivity.
Defined.

Lemma identify_with_skip (pre rest : list (scene -> result ID)) (sc : scene) :
  all_passed_over pre sc ->
  identify_with (pre ++ rest) sc = identify_with rest sc.
Proof.
  induction pre as [|h pre IH]; intros H; simpl; [reflexivity|].
  destruct (H h (or_introl eq_refl)) as [e [He Hc]].
  rewrite He, Hc. apply IH. intros h' Hin. apply H. now right.
Qed.

Lemma identify_with_raises (handlers : list (scene -> result ID)) (sc : scene) (e : exn) :
  identify_with handlers sc = Raise e ->
  e = format_not_supported \/ caught_by_identify e = false.
Proof.
  induction handlers as [|h rest IH]; simpl.
  - intros H. left. now inversion H.
  - destruct (h sc) as [i|e'] eqn:E; [discriminate|].
    destruct (caught_by_identify e') eqn:C; [exact IH|].
    intros H. inversion H; subst. now right.
Qed.

(** X27.  The loop of [identify] as it is written.  [identify] passes over a
    handler that fails with [IOError] or [KeyError].  After such failures it
    returns the record of the first handler that succeeds, lets through the
    exception of a handler that fails with another class of exception, and
    raises "data format not supported" when no handler is left. *)
Theorem identify_first_success (ext : externals) (sc : scene)
        (pre : list (scene -> result ID))
        (Hpre : all_passed_over pre sc) :
  (forall h post i, subclasses ext = pre ++ h :: post -> h sc = Ok i ->
                    identify ext sc = Ok i)
  /\ (forall h post e, subclasses ext = pre ++ h :: post -> h sc = Raise e ->
                       caught_by_identify e = false -> identify ext sc = Raise e)
  /\ (subclasses ext = pre -> identify ext sc = Raise format_not_supported).
Proof.
  unfold identify. repeat split.
  - intros h post i E Hh. rewrite E, identify_with_skip by exact Hpre.
    simpl. now rewrite Hh.
  - intros h post e E Hh Hc. rewrite E, identify_with_skip by exact Hpre.
    simpl. now rewrite Hh, Hc.
  - intros E. rewrite E. rewrite <- (app_nil_r pre).
    now rewrite identify_with_skip by exact Hpre.
Qed.

Lemma level0_all_passed_over :
  all_passed_over (subclasses Fixtures.ext0) Fixtures.level0_scene.
Proof.
  intros h Hin. simpl in Hin.
  repeat (destruct Hin as [<- | Hin];
          [eexists; split; [vm_compute; reflexivity | reflexivity]|]).
  contradiction.
Qed.

(** Every handler fails on the level-0 file with an [IOError], and
    [identify] ends in "data format not supported". *)
Lemma identify_first_success_witness :
  all_passed_over (subclasses Fixtures.ext0) Fixtures.level0_scene
  /\ identify Fixtures.ext0 Fixtures.level0_scene = Raise format_not_supported.
Proof.
  split; [exact level0_all_passed_over|].
  apply (identify_first_success Fixtures.ext0 Fixtures.level0_scene
           (subclasses Fixtures.ext0) level0_all_passed_over).
  reflexivity.
Defined.

(** C1, where the code departs from it.  On a file whose name only ends
    like an ERS product the construction of every handler fails, yet
    [identify] does not raise "data format not supported": [re.search] finds
    the pattern of [CEOS_ERS] in the path, [re.match] on the base name
    returns [None], and [match.group] raises [AttributeError], which
    [identify] does not catch.  [SAFE] and [TSX] guard the same [re.match]:
    there a name that does not match raises [IOError], which [identify]
    catches. *)
Theorem identify_handler_error_escapes :
  (forall h, In h (subclasses Fixtures.ext0) ->
             is_ok (h Fixtures.prefixed_scene) = false)
  /\ Re.search Patterns.ceos_ers (scene_path Fixtures.prefixed_scene) = true
  /\ Re.matches Patterns.ceos_ers (Str.basename (scene_path Fixtures.prefixed_scene)) = false
  /\ CEOS_ERS Fixtures.ext0 Fixtures.prefixed_scene = Raise none_has_no_group
  /\ caught_by_identify none_has_no_group = false
  /\ identify Fixtures.ext0 Fixtures.prefixed_scene = Raise none_has_no_group
  /\ identify Fixtures.ext0 Fixtures.prefixed_scene <> Raise format_not_supported
  /\ (forall ext sc f,
         examine ext "SAFE" sc Patterns.safe true = Ok f ->
         Re.matches Patterns.safe (Str.basename f) = false ->
         exists e, SAFE ext sc = Raise e /\ caught_by_identify e = true)
  /\ (forall ext sc f,
         examine ext "TSX" sc Patterns.tsx false = Ok f ->
         Re.matches Patterns.tsx (Str.basename f) = false ->
         exists e, TSX ext sc = Raise e /\ caught_by_identify e = true).
Proof.
  split; [|split; [|split; [|split; [|split; [|split; [|split; [|split]]]]]]].
  - intros h Hin. simpl in Hin.
    repeat (destruct Hin as [<- | Hin]; [vm_compute; reflexivity|]).
    contradiction.
  - vm_compute. reflexivity.
  - vm_compute. reflexivity.
  - vm_compute. reflexivity.
  - reflexivity.
  - vm_compute. reflexivity.
  - vm_compute. discriminate.
  - intros ext sc f E M. eexists. unfold SAFE. rewrite E. cbn [bind]. rewrite M.
    split; reflexivity.
  - intros ext sc f E M. eexists. unfold TSX. rewrite E. cbn [bind]. rewrite M.
    split; reflexivity.
Qed.

(** The name checks at the start of [CEOS_ERS.__init__] and of
    [ESA.__init__] on a level-0 product. *)
Lemma level0_front (ext : externals) (cls : string) (pattern : Re.pattern) (sc : scene)
      (f : string) :
  examine ext cls sc pattern false = Ok f ->
  Re.matches pattern (Str.basename f) = true ->
  Re.matches Patterns.pattern_pid (group_product_id (Str.basename f)) = true ->
  Re.search Patterns.level0 (group_product_id (Str.basename f)) = true ->
  esa_family_front ext cls pattern sc = Raise level0_unsupported.
Proof.
  intros Hfile Hname Hpid Hlevel0. unfold esa_family_front. rewrite Hfile. cbn [bind].
  now rewrite Hname, Hpid, Hlevel0.
Qed.

(** C4, as the code has it.  When [CEOS_ERS] or [ESA] finds the file of a
    scene, the name matches its pattern and the product id contains [IM__0],
    the constructor raises [IOError('product level 0 not supported (yet)')].
    [identify] catches it like any [IOError] and goes on with the handlers
    that follow: after the failure of [CEOS_ERS] its result is that of the
    remaining handlers, after that of [ESA] (the two handlers before it
    passed over) it is that of [SAFE] and [TSX].  The result is "data format
    not supported" when all handlers fail with [IOError] or [KeyError], and
    the level-0 error never reaches the caller of [identify]. *)
Theorem level0_is_passed_over (ext : externals) (sc : scene) :
  (forall f,
      examine ext "CEOS_ERS" sc Patterns.ceos_ers false = Ok f ->
      Re.matches Patterns.ceos_ers (Str.basename f) = true ->
      Re.matches Patterns.pattern_pid (group_product_id (Str.basename f)) = true ->
      Re.search Patterns.level0 (group_product_id (Str.basename f)) = true ->
      CEOS_ERS ext sc = Raise level0_unsupported
      /\ identify ext sc = identify_with [CEOS_PSR ext; ESA ext; SAFE ext; TSX ext] sc
      /\ (all_passed_over [CEOS_PSR ext; ESA ext; SAFE ext; TSX ext] sc ->
          identify ext sc = Raise format_not_supported))
  /\ (forall f,
         examine ext "ESA" sc Patterns.esa false = Ok f ->
         Re.matches Patterns.esa (Str.basename f) = true ->
         Re.matches Patterns.pattern_pid (group_product_id (Str.basename f)) = true ->
         Re.search Patterns.level0 (group_product_id (Str.basename f)) = true ->
         ESA ext sc = Raise level0_unsupported
         /\ (all_passed_over [CEOS_ERS ext; CEOS_PSR ext] sc ->
             identify ext sc = identify_with [SAFE ext; TSX ext] sc)
         /\ (all_passed_over [CEOS_ERS ext; CEOS_PSR ext] sc ->
             all_passed_over [SAFE ext; TSX ext] sc ->
             identify ext sc = Raise format_not_supported))
  /\ caught_by_identify level0_unsupported = true
  /\ identify ext sc <> Raise level0_unsupported.
Proof.
  split; [|split; [|split]].
  - intros f Hfile Hname Hpid Hlevel0.
    assert (E : CEOS_ERS ext sc = Raise level0_unsupported).
    { unfold CEOS_ERS. now rewrite (level0_front ext _ _ sc f). }
    assert (I : identify ext sc
                = identify_with [CEOS_PSR ext; ESA ext; SAFE ext; TSX ext] sc).
    { unfold identify, subclasses. cbn [identify_with]. rewrite E. reflexivity. }
    split; [exact E|]. split; [exact I|].
    intros H. rewrite I.
    rewrite <- (app_nil_r [CEOS_PSR ext; ESA ext; SAFE ext; TSX ext]).
    now rewrite identify_with_skip by exact H.
  - intros f Hfile Hname Hpid Hlevel0.
    assert (E : ESA ext sc = Raise level0_unsupported).
    { unfold ESA. now rewrite (level0_front ext _ _ sc f). }
    assert (I : all_passed_over [CEOS_ERS ext; CEOS_PSR ext] sc ->
                identify ext sc = identify_with [SAFE ext; TSX ext] sc).
    { intros H. unfold identify, subclasses.
      change [CEOS_ERS ext; CEOS_PSR ext; ESA ext; SAFE ext; TSX ext]
        with ([CEOS_ERS ext; CEOS_PSR ext] ++ [ESA ext; SAFE ext; TSX ext]).
      rewrite identify_with_skip by exact H.
      cbn [identify_with]. rewrite E. reflexivity. }
    split; [exact E|]. split; [exact I|].
    intros H H'. rewrite (I H). rewrite <- (app_nil_r [SAFE ext; TSX ext]).
    now rewrite identify_with_skip by exact H'.
  - reflexivity.
  - intros H. apply identify_with_raises in H. destruct H as [H|H]; discriminate.
Qed.

Lemma level0_is_passed_over_witness :
  CEOS_ERS Fixtures.ext0 Fixtures.level0_scene = Raise level0_unsupported
  /\ ESA Fixtures.ext0 Fixtures.level0_scene = Raise level0_unsupported
  /\ identify Fixtures.ext0 Fixtures.level0_scene <> Raise level0_unsupported.
Proof.
  pose proof (level0_is_passed_over Fixtures.ext0 Fixtures.level0_scene) as H.
  destruct H as [Hers [Hesa [_ Hnever]]].
  split; [|split; [|exact Hnever]].
  - apply (Hers (scene_path Fixtures.level0_scene)); vm_compute; reflexivity.
  - apply (Hesa (scene_path Fixtures.level0_scene)); vm_compute; reflexivity.
Defined.

(** C4 as the specification states it fails: the level-0 failure of
    [CEOS_ERS] and that of [ESA] are [IOError]s, [identify] catches them,
    tries the other handlers and ends in "data format not supported". *)
Lemma level0_ends_in_format_not_supported :
  CEOS_ERS Fixtures.ext0 Fixtures.level0_scene = Raise level0_unsupported
  /\ ESA Fixtures.ext0 Fixtures.level0_scene = Raise level0_unsupported
  /\ caught_by_identify level0_unsupported = true
  /\ identify Fixtures.ext0 Fixtures.level0_scene = Raise format_not_supported
  /\ identify Fixtures.ext0 Fixtures.level0_scene <> Raise level0_unsupported.
Proof. repeat split; try (vm_compute; reflexivity). vm_compute. discriminate. Qed.

(** ** [identify_many] *)

Lemma identify_many_with_acc (ident : scene -> result ID) (scenes : list scene_or_id) :
  (forall sc e, In (IsScene sc) scenes -> ident sc = Raise e -> is_IOError e = true) ->
  forall idlist,
    identify_many_with ident scenes idlist = Ok (idlist ++ identified_with ident scenes).
Proof.
  induction scenes as [|s rest IH]; intros H idlist; simpl.
  - now rewrite app_nil_r.
  - assert (Hrest : forall sc e, In (IsScene sc) rest -> ident sc = Raise e ->
                                 is_IOError e = true).
    { intros sc e Hin. apply H. now right. }
    destruct s as [i|sc].
    + rewrite IH by exact Hrest. now rewrite <- app_assoc.
    + destruct (ident sc) as [i|e] eqn:E.
      * rewrite IH by exact Hrest. now rewrite <- app_assoc.
      * rewrite (H sc e (or_introl eq_refl) E). now apply IH.
Qed.

(** X28.  The loop of [identify_many] as it is written.  When every input that
    cannot be identified fails with an [IOError], [identify_many] returns
    exactly the [ID] objects of the list and the records of the identified
    scenes, in the order of the inputs; nothing of a failed input is kept. *)
Theorem identify_many_keeps_successes (ext : externals) (scenes : list scene_or_id)
        (Hio : forall sc e, In (IsScene sc) scenes -> identify ext sc = Raise e ->
                            is_IOError e = true) :
  identify_many ext scenes = Ok (identified_with (identify ext) scenes).
Proof.
  unfold identify_many. now rewrite identify_many_with_acc by exact Hio.
Qed.

Lemma identify_many_keeps_successes_witness :
  identify_many Fixtures.ext_s1
    [IsScene Fixtures.level0_scene; IsScene Fixtures.s1_zip; IsID Fixtures.tsx_id]
  = Ok [Fixtures.s1_zip_id; Fixtures.tsx_id].
Proof.
  rewrite (identify_many_keeps_successes Fixtures.ext_s1
             [IsScene Fixtures.level0_scene; IsScene Fixtures.s1_zip;
              IsID Fixtures.tsx_id]).
  - vm_compute. reflexivity.
  - intros sc e Hin. simpl in Hin.
    destruct Hin as [H | [H | [H | []]]]; try discriminate; inversion H; subst sc;
      vm_compute; intros E; inversion E; reflexivity.
Defined.

(** C9, where the code departs from it.  The second of two inputs is a
    file whose name only ends like an ERS product: its identification fails
    with the [AttributeError] of [match.group] on [None] in
    [CEOS_ERS.__init__], which neither [identify] nor [identify_many]
    catches.  The input is not skipped; the whole call raises and returns no
    list, although the first input was identified.  An input that fails with
    the [IOError] of [identify] is skipped as the claim says. *)
Theorem identify_many_aborts :
  identify Fixtures.ext_s1 Fixtures.s1_zip = Ok Fixtures.s1_zip_id
  /\ identify Fixtures.ext_s1 Fixtures.prefixed_scene = Raise none_has_no_group
  /\ is_IOError none_has_no_group = false
  /\ identify_many Fixtures.ext_s1
       [IsScene Fixtures.s1_zip; IsScene Fixtures.prefixed_scene]
     = Raise none_has_no_group
  /\ identify_many Fixtures.ext_s1
       [IsScene Fixtures.s1_zip; IsScene Fixtures.level0_scene]
     = Ok [Fixtures.s1_zip_id].
Proof. repeat split; vm_compute; reflexivity. Qed.

(** ** [ID.outname_base] *)

Lemma length_append (a b : string) :
  String.length (a ++ b) = (String.length a + String.length b)%nat.
Proof. induction a as [|c a IH]; simpl; [reflexivity | now rewrite IH]. Qed.

Lemma length_replicate (n : nat) (c : ascii) : String.length (Str.replicate n c) = n.
Proof. induction n as [|n IH]; simpl; [reflexivity | now rewrite IH]. Qed.

Lemma length_pad4 (s : string) : String.length (pad4 s) = Nat.max 4 (String.length s).
Proof. unfold pad4. rewrite length_append, length_replicate. lia. Qed.

Lemma append_inj_length (a a' b b' : string) :
  String.length a = String.length a' -> (a ++ b = a' ++ b')%string -> a = a' /\ b = b'.
Proof.
  revert a'. induction a as [|c a IH]; intros [|c' a'] L E; simpl in *; try discriminate.
  - now split.
  - inversion E; subst. destruct (IH a') as [-> ->]; [lia | assumption | now split].
Qed.

Lemma outname_base_unfold (i : ID) :
  outname_base i
  = (pad4 (sensor i) ++ "_" ++ pad4 (acquisition_mode i) ++ "_" ++ orbit i ++ "_" ++ start i)%string.
Proof. reflexivity. Qed.

(** C7, as the code has it.  [outname_base] is the sensor and the
    acquisition mode, each padded with underscores to at least four
    characters, the orbit and the start time, joined by underscores.  Records
    that agree on the four fields agree on [outname_base]; the converse
    holds for records whose sensor and acquisition mode have at most four
    characters and whose orbit is one character. *)
Theorem outname_base_fields (i j : ID) :
  outname_base i
  = (pad4 (sensor i) ++ "_" ++ pad4 (acquisition_mode i) ++ "_" ++ orbit i ++ "_" ++ start i)%string
  /\ (4 <= String.length (pad4 (sensor i)))%nat
  /\ (4 <= String.length (pad4 (acquisition_mode i)))%nat
  /\ (pad4 (sensor i) = pad4 (sensor j) /\ pad4 (acquisition_mode i) = pad4 (acquisition_mode j)
      /\ orbit i = orbit j /\ start i = start j ->
      outname_base i = outname_base j)
  /\ ((String.length (sensor i) <= 4)%nat -> (String.length (sensor j) <= 4)%nat ->
      (String.length (acquisition_mode i) <= 4)%nat ->
      (String.length (acquisition_mode j) <= 4)%nat ->
      String.length (orbit i) = 1%nat -> String.length (orbit j) = 1%nat ->
      outname_base i = outname_base j ->
      pad4 (sensor i) = pad4 (sensor j) /\ pad4 (acquisition_mode i) = pad4 (acquisition_mode j)
      /\ orbit i = orbit j /\ start i = start j).
Proof.
  split; [reflexivity|]. split; [rewrite length_pad4; lia|].
  split; [rewrite length_pad4; lia|]. split.
  - intros (Hs & Hm & Ho & Ht). rewrite !outname_base_unfold. congruence.
  - intros Hsi Hsj Hmi Hmj Hoi Hoj E. rewrite !outname_base_unfold in E.
    apply append_inj_length in E; [|rewrite !length_pad4; lia].
    destruct E as [Es E]. simpl in E. inversion E as [E1]. clear E.
    apply append_inj_length in E1; [|rewrite !length_pad4; lia].
    destruct E1 as [Em E]. simpl in E. inversion E as [E1]. clear E.
    apply append_inj_length in E1; [|congruence].
    destruct E1 as [Eo E]. simpl in E. inversion E. now repeat split.
Qed.

Lemma outname_base_fields_witness :
  outname_base Fixtures.s1_id = "S1A__IW___A_20200110T000000"
  /\ (outname_base Fixtures.s1_id = outname_base Fixtures.s1_id ->
      pad4 (sensor Fixtures.s1_id) = pad4 (sensor Fixtures.s1_id)).
Proof.
  split; [reflexivity|]. intros E.
  apply (proj2 (proj2 (proj2 (proj2
           (outname_base_fields Fixtures.s1_id Fixtures.s1_id)))));
    simpl; try lia; try reflexivity.
Defined.

(** C7 as the specification states it fails: two records with the same
    [outname_base] whose padded sensors and padded acquisition modes
    differ. *)
Lemma outname_base_not_injective :
  outname_base Fixtures.long_sensor_id = outname_base Fixtures.long_mode_id
  /\ pad4 (sensor Fixtures.long_sensor_id) <> pad4 (sensor Fixtures.long_mode_id)
  /\ pad4 (acquisition_mode Fixtures.long_sensor_id)
     <> pad4 (acquisition_mode Fixtures.long_mode_id).
Proof. repeat split; vm_compute; discriminate. Qed.

(** ** The facility related records of a PALSAR leader file *)

Lemma slice_to_end (led : Leader.bytes) (p0 p1 : Z) :
  (0 <= p0)%Z -> (p0 <= Leader.len led)%Z -> (Leader.len led <= p1)%Z ->
  Leader.slice led p0 p1 = skipn (Z.to_nat p0) led.
Proof.
  intros H0 H1 H2. unfold Leader.slice, Leader.clamp.
  destruct (p0 <? 0)%Z eqn:E0; [apply Z.ltb_lt in E0; lia|].
  destruct (p1 <? 0)%Z eqn:E1; [apply Z.ltb_lt in E1; unfold Leader.len in *; lia|].
  rewrite (Z.min_l p0) by lia. rewrite (Z.min_r p1) by lia.
  apply firstn_all2. rewrite length_skipn. unfold Leader.len. lia.
Qed.





(** ** [ID.parse_date] *)

Lemma two_digits_table :
  forallb (fun n => Time.two_digit_shape (Time.two_digits (Z.of_nat n))) (seq 0 100) = true.
Proof. vm_compute. reflexivity. Qed.

Lemma decimal_year_table :
  forallb (fun n => Time.four_digit_shape (Time.decimal (1900 + Z.of_nat n))) (seq 0 (90 * 90))
  = true.
Proof. vm_compute. reflexivity. Qed.

Lemma two_digits_shape (v : Z) :
  (0 <= v <= 99)%Z -> Time.two_digit_shape (Time.two_digits v) = true.
Proof.
  intros H. pose proof two_digits_table as T. rewrite forallb_forall in T.
  specialize (T (Z.to_nat v)). rewrite Z2Nat.id in T by apply H.
  apply T. apply in_seq. lia.
Qed.

Lemma decimal_year_shape (y : Z) :
  (1900 <= y <= 9999)%Z -> Time.four_digit_shape (Time.decimal y) = true.
Proof.
  intros H. pose proof decimal_year_table as T. rewrite forallb_forall in T.
  specialize (T (Z.to_nat (y - 1900))). rewrite Z2Nat.id in T by lia.
  replace (1900 + (y - 1900))%Z with y in T by lia.
  apply T. apply in_seq. change (90 * 90)%nat with (Z.to_nat 8100). lia.
Qed.

Lemma two_digit_shape_inv (s : string) :
  Time.two_digit_shape s = true ->
  exists a b, s = String a (String b "") /\ Str.is_digit a = true /\ Str.is_digit b = true.
Proof.
  destruct s as [|a [|b [|c s]]]; simpl; try discriminate.
  intros H. apply andb_prop in H. destruct H. now exists a, b.
Qed.

Lemma four_digit_shape_inv (s : string) :
  Time.four_digit_shape s = true ->
  exists a b c d, s = String a (String b (String c (String d "")))
                  /\ Str.is_digit a = true /\ Str.is_digit b = true
                  /\ Str.is_digit c = true /\ Str.is_digit d = true.
Proof.
  destruct s as [|a [|b [|c [|d [|e s]]]]]; simpl; try discriminate.
  unfold Time.four_digit_shape. simpl. rewrite !andb_true_iff.
  intros [[[A B] C] D]. exists a, b, c, d. now repeat split.
Qed.

Lemma strftime_year_bounds (y y' : Z) :
  (1 <= y <= 9999)%Z -> Time.strftime_year y = Ok y' -> (1900 <= y' <= 9999)%Z.
Proof.
  unfold Time.strftime_year. intros H.
  destruct (1900 <=? y)%Z eqn:E1.
  - intros E. inversion E; subst. apply Z.leb_le in E1. lia.
  - destruct ((69 <=? y) && (y <=? 99))%Z eqn:E2.
    + intros E. inversion E; subst. apply andb_prop in E2. destruct E2 as [A B].
      apply Z.leb_le in A, B. lia.
    + destruct ((0 <=? y) && (y <=? 68))%Z eqn:E3; [|discriminate].
      intros E. inversion E; subst. apply andb_prop in E3. destruct E3 as [A B].
      apply Z.leb_le in A, B. lia.
Qed.

Lemma in_bounds_spec (lo hi v : Z) :
  Time.in_bounds lo hi v = true <-> (lo <= v <= hi)%Z.
Proof. unfold Time.in_bounds. rewrite andb_true_iff, !Z.leb_le. tauto. Qed.

(** What [strftime] prints for a time from [strptime] has the form
    [YYYYMMDDTHHMMSS]. *)
Lemma strftime_canonical (t : Time.struct_time) (s : string) :
  (1 <= Time.tm_year t <= 9999)%Z ->
  Time.strftime t = Ok s -> String.length s = 15%nat /\ Time.canonical s = true.
Proof.
  intros Hy. unfold Time.strftime.
  destruct (Time.strftime_year (Time.tm_year t)) as [y|e] eqn:Ey; [|discriminate].
  apply strftime_year_bounds in Ey; [|exact Hy].
  destruct (Time.in_bounds 1 12 (Time.tm_mon t)) eqn:B1; [|discriminate].
  destruct (Time.in_bounds 1 31 (Time.tm_mday t)) eqn:B2; [|discriminate].
  destruct (Time.in_bounds 0 23 (Time.tm_hour t)) eqn:B3; [|discriminate].
  destruct (Time.in_bounds 0 59 (Time.tm_min t)) eqn:B4; [|discriminate].
  destruct (Time.in_bounds 0 61 (Time.tm_sec t)) eqn:B5; [|discriminate].
  cbn [negb]. apply in_bounds_spec in B1, B2, B3, B4, B5.
  destruct (four_digit_shape_inv _ (decimal_year_shape y Ey))
    as (y1 & y2 & y3 & y4 & -> & Y1 & Y2 & Y3 & Y4).
  destruct (two_digit_shape_inv _ (two_digits_shape (Time.tm_mon t) ltac:(lia)))
    as (m1 & m2 & -> & M1 & M2).
  destruct (two_digit_shape_inv _ (two_digits_shape (Time.tm_mday t) ltac:(lia)))
    as (d1 & d2 & -> & D1 & D2).
  destruct (two_digit_shape_inv _ (two_digits_shape (Time.tm_hour t) ltac:(lia)))
    as (h1 & h2 & -> & H1 & H2).
  destruct (two_digit_shape_inv _ (two_digits_shape (Time.tm_min t) ltac:(lia)))
    as (n1 & n2 & -> & N1 & N2).
  destruct (two_digit_shape_inv _ (two_digits_shape (Time.tm_sec t) ltac:(lia)))
    as (s1 & s2 & -> & S1 & S2).
  intros E. inversion E; subst s. split; [reflexivity|].
  unfold Time.canonical. simpl.
  rewrite Y1, Y2, Y3, Y4, M1, M2, D1, D2, H1, H2, N1, N2, S1, S2. reflexivity.
Qed.

Lemma first_some_In {A B : Type} (f : A -> option B) (l : list A) (b : B) :
  Time.first_some f l = Some b -> exists a, In a l /\ f a = Some b.
Proof.
  induction l as [|a l IH]; simpl; [discriminate|].
  destruct (f a) as [b'|] eqn:E.
  - intros H. inversion H; subst. exists a. split; [now left | exact E].
  - intros H. destruct (IH H) as [a' [Hin Ha']]. exists a'. split; [now right | exact Ha'].
Qed.

Lemma dval_digit (c : ascii) : Str.is_digit c = true -> (0 <= Time.dval c <= 9)%Z.
Proof.
  unfold Str.is_digit, Str.in_range, Time.dval. rewrite andb_true_iff, !Nat.leb_le. lia.
Qed.

Lemma dval_between (lo hi c : ascii) :
  Time.between lo hi c = true ->
  (Z.of_nat (Str.code lo) - 48 <= Time.dval c <= Z.of_nat (Str.code hi) - 48)%Z.
Proof.
  unfold Time.between, Str.in_range, Time.dval. rewrite andb_true_iff, !Nat.leb_le. lia.
Qed.

Lemma dval_exactly (c c' : ascii) :
  Time.exactly c c' = true -> Time.dval c' = Time.dval c.
Proof. unfold Time.exactly. intros H. apply Ascii.eqb_eq in H. now subst. Qed.

Lemma alt2_In (p1 p2 : ascii -> bool) (s : list ascii) (v : Z) (t : list ascii) :
  In (v, t) (Time.alt2 p1 p2 s) ->
  exists c1 c2, p1 c1 = true /\ p2 c2 = true /\ v = (10 * Time.dval c1 + Time.dval c2)%Z.
Proof.
  destruct s as [|c1 [|c2 s]]; simpl; try contradiction.
  destruct (p1 c1) eqn:E1; destruct (p2 c2) eqn:E2; simpl; try contradiction.
  intros [H|[]]. inversion H; subst. now exists c1, c2.
Qed.

Lemma alt1_In (p : ascii -> bool) (s : list ascii) (v : Z) (t : list ascii) :
  In (v, t) (Time.alt1 p s) -> exists c, p c = true /\ v = Time.dval c.
Proof.
  destruct s as [|c s]; simpl; try contradiction.
  destruct (p c) eqn:E; simpl; try contradiction.
  intros [H|[]]. inversion H; subst. now exists c.
Qed.

Ltac candidate_bounds :=
  repeat match goal with
         | H : In _ (_ ++ _) |- _ => apply in_app_or in H; destruct H as [H|H]
         | H : In _ (Time.alt2 _ _ _) |- _ =>
             apply alt2_In in H; destruct H as (? & ? & ? & ? & ->)
         | H : In _ (Time.alt1 _ _) |- _ =>
             apply alt1_In in H; destruct H as (? & ? & ->)
         | H : Time.exactly ?c ?c' = true |- _ =>
             apply dval_exactly in H;
             let a := eval vm_compute in (Time.dval c) in
             change (Time.dval c' = a) in H
         | H : Time.between ?lo ?hi ?c = true |- _ =>
             apply dval_between in H;
             let a := eval vm_compute in (Z.of_nat (Str.code lo) - 48)%Z in
             let b := eval vm_compute in (Z.of_nat (Str.code hi) - 48)%Z in
             change (a <= Time.dval c <= b)%Z in H
         | H : Str.is_digit _ = true |- _ => apply dval_digit in H
         end.

Lemma candidates_ok (d : Time.directive) (s : list ascii) (v : Z) (t : list ascii) :
  In (v, t) (Time.candidates d s) -> Time.field_ok d v.
Proof.
  destruct d; simpl; trivial; intros H; candidate_bounds; lia.
Qed.

Lemma set_field_ok (d : Time.directive) (v : Z) (f : Time.fields) :
  Time.hms_ok f -> Time.field_ok d v -> Time.hms_ok (Time.set_field d v f).
Proof.
  unfold Time.hms_ok. intros (H & M & S) Hv. destruct d; simpl in *; repeat split; lia.
Qed.

Lemma regex_match_ok (items : list Time.item) :
  forall (s : list ascii) (acc f : Time.fields) (rest : list ascii),
    Time.hms_ok acc -> Time.regex_match items s acc = Some (f, rest) -> Time.hms_ok f.
Proof.
  induction items as [|it items IH]; intros s acc f rest Hacc; simpl.
  - intros H. inversion H; subst. exact Hacc.
  - destruct it as [c| |d].
    + destruct s as [|c' t]; [discriminate|].
      destruct (Ascii.eqb (Str.lower c) (Str.lower c')); [|discriminate].
      apply IH. exact Hacc.
    + intros H. apply first_some_In in H. destruct H as (t & _ & H).
      revert H. apply IH. exact Hacc.
    + intros H. apply first_some_In in H. destruct H as ([v t] & Hin & H).
      simpl in H. revert H. apply IH. apply set_field_ok; [exact Hacc|].
      eapply candidates_ok. exact Hin.
Qed.

Lemma initial_ok : Time.hms_ok Time.initial.
Proof. unfold Time.hms_ok. simpl. lia. Qed.

Lemma days_in_month_le (y m : Z) : (Time.days_in_month y m <= 31)%Z.
Proof.
  unfold Time.days_in_month.
  destruct (m =? 2)%Z; [destruct (Time.is_leap y); lia|].
  destruct ((m =? 4) || (m =? 6) || (m =? 9) || (m =? 11))%Z; lia.
Qed.

(** A time that [strptime] returns lies in the ranges of [strftime]. *)
Lemma strptime_in_ranges (x format : string) (t : Time.struct_time) :
  Time.strptime x format = Ok t -> Time.in_ranges t.
Proof.
  unfold Time.strptime.
  destruct (Time.compile (Str.chars format)) as [items|]; [|discriminate].
  destruct (Time.regex_match items (Str.chars x) Time.initial) as [[f rest]|] eqn:M;
    [|discriminate].
  destruct rest; [|discriminate].
  apply regex_match_ok in M; [|exact initial_ok].
  match goal with |- context [Time.valid_date ?y ?m ?d] =>
    destruct (Time.valid_date y m d) eqn:V; [|discriminate] end.
  intros E. inversion E; subst t. clear E.
  unfold Time.valid_date in V. rewrite !andb_true_iff, !Z.leb_le in V.
  destruct V as (((((A & B) & C) & D) & F) & G).
  pose proof (days_in_month_le
                match Time.f_year f with
                | Some y => y
                | None => if ((Time.f_month f =? 2) && (Time.f_day f =? 29))%Z
                          then 1904%Z else 1900%Z
                end (Time.f_month f)).
  unfold Time.in_ranges, Time.hms_ok in *. simpl. lia.
Qed.

Lemma strptime_raises_ValueError (x format : string) (e : exn) :
  Time.strptime x format = Raise e -> is_ValueError e = true.
Proof.
  unfold Time.strptime.
  destruct (Time.compile (Str.chars format)) as [items|];
    [|intros H; inversion H; reflexivity].
  destruct (Time.regex_match items (Str.chars x) Time.initial) as [[f rest]|];
    [|intros H; inversion H; reflexivity].
  destruct rest; [|intros H; inversion H; reflexivity].
  match goal with |- context [Time.valid_date ?y ?m ?d] =>
    destruct (Time.valid_date y m d); [discriminate|] end.
  intros H; inversion H; reflexivity.
Qed.

Lemma strftime_raises_ValueError (t : Time.struct_time) (e : exn) :
  Time.strftime t = Raise e -> is_ValueError e = true.
Proof.
  unfold Time.strftime, Time.strftime_year.
  repeat match goal with
         | |- context [if ?b then _ else _] => destruct b
         end; simpl; intros H; inversion H; reflexivity.
Qed.

Lemma convert_raises_ValueError (x format : string) (e : exn) :
  convert x format = Raise e -> is_ValueError e = true.
Proof.
  unfold convert, bind. destruct (Time.strptime x format) as [t|e'] eqn:E.
  - apply strftime_raises_ValueError.
  - intros H. inversion H; subst. eapply strptime_raises_ValueError. exact E.
Qed.

Lemma convert_canonical (x format s : string) :
  convert x format = Ok s -> String.length s = 15%nat /\ Time.canonical s = true.
Proof.
  unfold convert, bind. destruct (Time.strptime x format) as [t|e] eqn:E; [|discriminate].
  apply strftime_canonical. apply strptime_in_ranges in E. apply E.
Qed.

(** [strftime] accepts a time from [strptime] whose year it accepts. *)
Lemma strftime_accepts (t : Time.struct_time) :
  Time.in_ranges t -> (1900 <= Time.tm_year t \/ Time.tm_year t <= 99)%Z ->
  exists s, Time.strftime t = Ok s.
Proof.
  intros (Y & M & D & H & N & S) Hy. unfold Time.strftime.
  assert (Ey : exists y, Time.strftime_year (Time.tm_year t) = Ok y).
  { unfold Time.strftime_year.
    destruct (1900 <=? Time.tm_year t)%Z eqn:E1; [eauto|].
    destruct ((69 <=? Time.tm_year t) && (Time.tm_year t <=? 99))%Z eqn:E2; [eauto|].
    destruct ((0 <=? Time.tm_year t) && (Time.tm_year t <=? 68))%Z eqn:E3; [eauto|].
    apply Z.leb_gt in E1. rewrite andb_false_iff, !Z.leb_gt in E2, E3. lia. }
  destruct Ey as [y ->].
  rewrite (proj2 (in_bounds_spec 1 12 _) M), (proj2 (in_bounds_spec 1 31 _) D),
    (proj2 (in_bounds_spec 0 23 _) H), (proj2 (in_bounds_spec 0 59 _) N),
    (proj2 (in_bounds_spec 0 61 _) S).
  simpl. eauto.
Qed.

Lemma parse_date_with_canonical (formats : list string) (x s : string) :
  parse_date_with formats x = Ok s -> String.length s = 15%nat /\ Time.canonical s = true.
Proof.
  induction formats as [|fmt rest IH]; simpl; [discriminate|].
  destruct (convert x fmt) as [s'|e] eqn:E.
  - intros H. inversion H; subst. eapply convert_canonical. exact E.
  - rewrite (convert_raises_ValueError _ _ _ E), orb_true_r. exact IH.
Qed.

Lemma parse_date_with_returns (formats : list string) (x fmt s : string) :
  In fmt formats -> convert x fmt = Ok s -> exists s', parse_date_with formats x = Ok s'.
Proof.
  induction formats as [|f rest IH]; simpl; [contradiction|].
  intros Hin Hc. destruct (convert x f) as [s'|e] eqn:E; [eauto|].
  rewrite (convert_raises_ValueError _ _ _ E), orb_true_r.
  destruct Hin as [->|Hin]; [congruence|]. now apply IH.
Qed.

Lemma parse_date_with_fails (formats : list string) (x : string) :
  (forall fmt, In fmt formats -> exists e, convert x fmt = Raise e) ->
  parse_date_with formats x = Raise unknown_time_format.
Proof.
  induction formats as [|f rest IH]; simpl; [reflexivity|].
  intros H. destruct (H f (or_introl eq_refl)) as [e E]. rewrite E.
  rewrite (convert_raises_ValueError _ _ _ E), orb_true_r.
  apply IH. intros fmt Hin. apply H. now right.
Qed.

(** C5, as the code has it.  Whatever [parse_date] returns has exactly
    fifteen characters of the form [YYYYMMDDTHHMMSS].  It returns such a
    string for every [x] that [time.strptime] accepts in one of the five
    formats with a year that [time.strftime] accepts (1900 or later, or
    below 100, which it reads as a two-digit year).  When [x] matches none of
    the formats, [parse_date] raises its [ValueError]. *)
Theorem parse_date_canonical (x : string) :
  (forall s, parse_date x = Ok s -> String.length s = 15%nat /\ Time.canonical s = true)
  /\ (forall format t,
         In format timeformats -> Time.strptime x format = Ok t ->
         (1900 <= Time.tm_year t \/ Time.tm_year t <= 99)%Z ->
         exists s, parse_date x = Ok s
                   /\ String.length s = 15%nat /\ Time.canonical s = true)
  /\ ((forall format, In format timeformats -> exists e, Time.strptime x format = Raise e) ->
      parse_date x = Raise unknown_time_format).
Proof.
  unfold parse_date. split; [|split].
  - intros s. apply parse_date_with_canonical.
  - intros format t Hin Hp Hy.
    destruct (strftime_accepts t (strptime_in_ranges _ _ _ Hp) Hy) as [s Hs].
    assert (Hc : convert x format = Ok s) by (unfold convert; rewrite Hp; exact Hs).
    destruct (parse_date_with_returns _ _ _ _ Hin Hc) as [s' Hs'].
    exists s'. split; [exact Hs'|]. eapply parse_date_with_canonical. exact Hs'.
  - intros H. apply parse_date_with_fails. intros fmt Hin.
    destruct (H fmt Hin) as [e E]. exists e. unfold convert. now rewrite E.
Qed.

Lemma parse_date_canonical_witness :
  exists s, parse_date "2020-01-01T00:00:00.000000" = Ok s
            /\ String.length s = 15%nat /\ Time.canonical s = true.
Proof.
  apply (proj1 (proj2 (parse_date_canonical "2020-01-01T00:00:00.000000"))
           "%Y-%m-%dT%H:%M:%S.%f" (Time.StructTime 2020 1 1 0 0 0)).
  - simpl. tauto.
  - vm_compute. reflexivity.
  - left. simpl. lia.
Defined.

(** C5 as the specification states it fails: a time stamp of the year 1800
    in the first of the formats is accepted by [strptime], but
    [time.strftime] of Python 2.7 rejects the year and [parse_date] raises
    instead of returning fifteen characters. *)
Lemma parse_date_rejects_1800 :
  In "%d-%b-%Y %H:%M:%S.%f" timeformats
  /\ Time.strptime "01-Jan-1800 00:00:00.0" "%d-%b-%Y %H:%M:%S.%f"
     = Ok (Time.StructTime 1800 1 1 0 0 0)
  /\ parse_date "01-Jan-1800 00:00:00.0" = Raise unknown_time_format.
Proof.
  split; [simpl; tauto|]. split; vm_compute; reflexivity.
Qed.

(** ** [Archive.insert] *)











Lemma encode_ascii_ok (s : string) :
  Str.is_ascii s = true -> Archive.encode_ascii s = Ok s.
Proof. intros H. unfold Archive.encode_ascii. now rewrite H. Qed.

Lemma encode_ascii_inv (s t : string) :
  Archive.encode_ascii s = Ok t -> t = s /\ Str.is_ascii s = true.
Proof.
  unfold Archive.encode_ascii. destruct (Str.is_ascii s); [|discriminate].
  intros H. inversion H. now split.
Qed.




(** What a turn of the loop that returns has done. *)
Lemma insert_one_inv (eng : Archive.engine) (verbose : bool) (db db' : Archive.table)
      (out out' : list string) (i : ID) :
  Archive.insert_one eng verbose (db, out) i = Ok (db', out') ->
  exists geom,
    Archive.bbox_wkt eng i = Ok geom
    /\ forallb (Archive.bindable eng) (Archive.row_texts (Archive.row_of i geom)) = true
    /\ ((Archive.has_key (outname_base i) db = true /\ db' = db)
        \/ (Archive.has_key (outname_base i) db = false
            /\ db' = db ++ [Archive.row_of i geom])).
Proof.
  unfold Archive.insert_one, Archive.prepare_insertion, Archive.execute_insert.
  destruct (Archive.bbox_wkt eng i) as [geom|e]; [|discriminate]. cbn [bind].
  destruct (forallb (Archive.bindable eng) (Archive.row_texts (Archive.row_of i geom)))
    eqn:B; [|discriminate]. cbn [negb].
  change (Archive.r_outname_base (Archive.row_of i geom)) with (outname_base i).
  intros H. exists geom. split; [reflexivity|]. split; [exact B|].
  destruct (Archive.has_key (outname_base i) db).
  - left. split; [reflexivity|]. rewrite String.eqb_refl in H.
    destruct (Archive.scene_of_key db (outname_base i)); [|discriminate].
    cbn [bind] in H. now inversion H.
  - right. split; [reflexivity|]. now inversion H.
Qed.

Lemma insert_id_unfold (eng : Archive.engine) (ext : externals) (db : Archive.table)
      (i : ID) (verbose : bool) :
  Archive.insert eng ext db (Archive.InID i) verbose
  = Archive.insert_one eng verbose (db, [Archive.inserting]) i.
Proof.
  unfold Archive.insert, Archive.inserting. cbn [bind app Archive.insert_loop].
  destruct (Archive.insert_one eng verbose (db, ["inserting scenes into the database..."]) i)
    as [[db' out']|e]; reflexivity.
Qed.





(** ** [Archive.select] *)

Lemma compare_refl (s : string) : String.compare s s = Eq.
Proof.
  induction s as [|c s IH]; simpl; [reflexivity|].
  unfold Ascii.compare. now rewrite N.compare_refl.
Qed.

Lemma leb_refl (s : string) : String.leb s s = true.
Proof. unfold String.leb. now rewrite compare_refl. Qed.

Lemma date_condition_In (mk : string -> Archive.condition) (d : option string) (x : string) :
  d = Some x -> x <> "" -> Re.search Archive.date_pattern x = true ->
  Archive.date_condition mk d = [mk x].
Proof.
  intros -> Hne Hs. unfold Archive.date_condition, Archive.truthy.
  destruct x; [contradiction|]. now rewrite Hs.
Qed.




Lemma mapM_map {A B C : Type} (g : A -> B) (f : B -> result C) (l : list A) :
  mapM f (map g l) = mapM (fun x => f (g x)) l.
Proof.
  induction l as [|x l IH]; [reflexivity|]. cbn [map mapM]. now rewrite IH.
Qed.

Lemma fetched_paths (rows : Archive.table) :
  mapM (fun x => Archive.encode_ascii (fst x))
       (map (fun r => (Archive.r_scene r, Archive.r_outname_base r)) rows)
  = mapM Archive.encode_ascii (map Archive.r_scene rows).
Proof. now rewrite !mapM_map. Qed.


Lemma mapM_encode_ok (l : list string) :
  (forall s, In s l -> Str.is_ascii s = true) -> mapM Archive.encode_ascii l = Ok l.
Proof.
  induction l as [|s l IH]; intros H; [reflexivity|]. cbn [mapM].
  rewrite encode_ascii_ok by (apply H; now left).
  rewrite IH; [reflexivity|]. intros t Ht. apply H. now right.
Qed.

Lemma mapM_encode_inv (l ys : list string) :
  mapM Archive.encode_ascii l = Ok ys ->
  ys = l /\ forall s, In s l -> Str.is_ascii s = true.
Proof.
  revert ys. induction l as [|s l IH]; intros ys; cbn [mapM].
  - intros H. inversion H. split; [reflexivity | intros s []].
  - destruct (Archive.encode_ascii s) as [t|e] eqn:E; [|discriminate].
    apply encode_ascii_inv in E. destruct E as [-> A].
    destruct (mapM Archive.encode_ascii l) as [ys'|e]; [|discriminate].
    destruct (IH ys' eq_refl) as [-> All].
    intros H. inversion H. split; [reflexivity|].
    intros t [<-|Ht]; [exact A | now apply All].
Qed.



(** [select] without a process directory, when the statement is well
    quoted, prepared and bound. *)
Lemma select_found (eng : Archive.engine) (db : Archive.table)
      (vectorobject : option Archive.vector_arg) (mindate maxdate : option string)
      (pols : option (list string)) (args : list (string * Archive.argval))
      (conds : list Archive.condition) (tests : list (Archive.row -> bool)) :
  Archive.arg_format vectorobject mindate maxdate pols args = conds ->
  conds <> [] ->
  Archive.well_quoted conds = true ->
  mapM (Archive.row_test eng) conds = Ok tests ->
  forallb (Archive.bindable eng) (Archive.vals conds) = true ->
  Archive.execute_select eng db conds
  = Ok (map (fun r => (Archive.r_scene r, Archive.r_outname_base r))
            (Archive.fetch_order eng (Archive.query_text conds) (Archive.passing tests db))).
Proof.
  intros _ Hsome Hq Ht Hb. unfold Archive.execute_select.
  destruct conds as [|c cs]; [contradiction|].
  rewrite Hq, Ht. cbn [negb bind]. now rewrite Hb.
Qed.




Lemma arg_conditions_none (args : list (string * Archive.argval)) :
  (forall k v, In (k, v) args -> Str.mem k Archive.colnames = false) ->
  Archive.arg_conditions args = [].
Proof.
  intros H. unfold Archive.arg_conditions.
  induction args as [|[k v] args IH]; [reflexivity|].
  cbn [filter fst]. rewrite (H k v (or_introl eq_refl)).
  apply IH. intros k' v' Hin. apply (H k' v'). now right.
Qed.

Lemma date_condition_none (mk : string -> Archive.condition) (d : option string) :
  (forall x, d = Some x -> x = "" \/ Re.search Archive.date_pattern x = false) ->
  Archive.date_condition mk d = [].
Proof.
  intros H. unfold Archive.date_condition, Archive.truthy.
  destruct d as [x|]; [|reflexivity].
  destruct (H x eq_refl) as [->|Hs]; [reflexivity|].
  destruct x; [reflexivity | now rewrite Hs].
Qed.

Lemma pol_conditions_none (pols : option (list string)) :
  (forall ps pol, pols = Some ps -> In pol ps ->
                  Str.mem pol ["HH"; "VV"; "HV"; "VH"] = false) ->
  Archive.pol_conditions pols = [].
Proof.
  intros H. destruct pols as [ps|]; [|reflexivity]. unfold Archive.pol_conditions.
  assert (H' : forall pol, In pol ps -> Str.mem pol ["HH"; "VV"; "HV"; "VH"] = false)
    by (intros pol; now apply H).
  clear H. induction ps as [|p ps IH]; [reflexivity|].
  cbn [flat_map]. rewrite (H' p (or_introl eq_refl)). cbn [app].
  apply IH. intros pol Hin. apply H'. now right.
Qed.

(** C10.  With no vector object, no valid [mindate] or [maxdate], no
    recognised polarization and no keyword that names a column, [select]
    builds no condition; the statement ends after [WHERE] and the call
    raises the error of the database instead of returning rows. *)
Theorem select_without_filter (eng : Archive.engine) (db : Archive.table)
        (vectorobject : option Archive.vector_arg) (mindate maxdate processdir : option string)
        (recursive : bool) (pols : option (list string))
        (args : list (string * Archive.argval))
        (Hvector : vectorobject = None \/ vectorobject = Some Archive.NotAVector)
        (Hmin : forall d, mindate = Some d ->
                          d = "" \/ Re.search Archive.date_pattern d = false)
        (Hmax : forall d, maxdate = Some d ->
                          d = "" \/ Re.search Archive.date_pattern d = false)
        (Hpols : forall ps pol, pols = Some ps -> In pol ps ->
                                Str.mem pol ["HH"; "VV"; "HV"; "VH"] = false)
        (Hargs : forall k v, In (k, v) args -> Str.mem k Archive.colnames = false) :
  Archive.arg_format vectorobject mindate maxdate pols args = []
  /\ Archive.select eng db vectorobject mindate maxdate processdir recursive pols args
     = Raise (OperationalError "incomplete input").
Proof.
  assert (E : Archive.arg_format vectorobject mindate maxdate pols args = []).
  { unfold Archive.arg_format.
    rewrite arg_conditions_none, !date_condition_none, pol_conditions_none by assumption.
    destruct Hvector as [->| ->]; reflexivity. }
  split; [exact E|]. unfold Archive.select. now rewrite E.
Qed.

Lemma select_without_filter_witness :
  Archive.select Fixtures.eng0 Fixtures.three_scenes (Some Archive.NotAVector)
    (Some "2020-01-01") None None false (Some ["XX"]) [("mission", Archive.AStr "S1A")]
  = Raise (OperationalError "incomplete input").
Proof.
  apply (select_without_filter Fixtures.eng0 Fixtures.three_scenes
           (Some Archive.NotAVector) (Some "2020-01-01") None None false (Some ["XX"])
           [("mission", Archive.AStr "S1A")]).
  - now right.
  - intros d E. inversion E; subst. right. vm_compute. reflexivity.
  - intros d E. discriminate.
  - intros ps pol E Hin. inversion E; subst. destruct Hin as [<-|[]]. vm_compute. reflexivity.
  - intros k v [E|[]]. inversion E; subst. vm_compute. reflexivity.
Defined.

(** ** Checks on concrete inputs *)

Example search_finds_ers_name_in_path :
  Re.search Patterns.ceos_ers
    "/data/SAR_IM__0PWDSI19920904_101949_00000018C087_00294_05971_0000.E1" = true.
Proof. vm_compute. reflexivity. Qed.

Example match_rejects_prefixed_name :
  Re.matches Patterns.ceos_ers
    "XSAR_IMP_1PWDSI19920904_101949_00000018C087_00294_05971_0000.E1" = false.
Proof. vm_compute. reflexivity. Qed.

Example search_safe_folder :
  Re.search Patterns.safe
    "S1A_IW_GRDH_1SDV_20200101T000000_20200101T000025_030000_037000_ABCD.SAFE" = true.
Proof. vm_compute. reflexivity. Qed.

Example search_palsar_leaders :
  Re.search Patterns.ceos_psr1 "LED-ALPSRP224031000-H1.1__A" = true
  /\ Re.search Patterns.ceos_psr2 "LED-ALOS2048992750-150420-FBDR1.5RUD" = true.
Proof. split; vm_compute; reflexivity. Qed.

Example identify_terrasar :
  identify Fixtures.ext_tsx Fixtures.tsx_tar = Ok Fixtures.tsx_id.
Proof. vm_compute. reflexivity. Qed.

Example identify_empty_directory :
  identify Fixtures.ext0 Fixtures.empty_dir = Raise format_not_supported.
Proof. vm_compute. reflexivity. Qed.

Example parse_date_sentinel :
  parse_date "2020-01-01T00:00:00.000000" = Ok "20200101T000000".
Proof. vm_compute. reflexivity. Qed.

Example parse_date_ceos :
  parse_date "04-SEP-1992 10:19:49.123" = Ok "19920904T101949".
Proof. vm_compute. reflexivity. Qed.

Example parse_date_palsar :
  parse_date "20150420 03:04:05.678" = Ok "20150420T030405".
Proof. vm_compute. reflexivity. Qed.

Example parse_date_not_a_date :
  parse_date "2020-02-30T00:00:00.0" = Raise unknown_time_format.
Proof. vm_compute. reflexivity. Qed.

Example select_by_sensor :
  Archive.select Fixtures.eng0 Fixtures.three_scenes None None None None false None
    [("sensor", Archive.AStr "S1B")]
  = Ok [Archive.PStr "/data/S1B_20200120.zip"].
Proof. vm_compute. reflexivity. Qed.

(* ------------------------------------------------------------------ *)
(** * Further properties *)

(** ** [ID.__init__] and the outcomes of [identify] *)

Lemma getitem_present {A : Type} (key : string) (v : option A) :
  (exists a, v = Some a /\ getitem key v = Ok a)
  \/ (v = None /\ getitem key v = Raise (KeyError key)).
Proof. destruct v as [a|]; [left; now exists a | right; now split]. Qed.

Ltac missing_key k :=
  cbn [getitem bind];
  split; [split; [intros [i H]; discriminate | intros H; vm_compute in H; discriminate]|];
  split; [intros i H; discriminate|];
  intros e H; inversion H; subst e; exists k;
  split; [reflexivity|]; split; [simpl; tauto|]; split; reflexivity.

(** X1.  [ID.__init__] succeeds exactly when the dictionary has all eleven
    keys of [__LOCAL__], and the attributes of the object are then the
    values of these keys.  Otherwise it raises the [KeyError] of a key of
    [__LOCAL__] that the dictionary lacks, which [identify] catches. *)
Theorem ID_init_needs_all_keys (sc f : string) (m : metadict) :
  ((exists i, ID_init sc f m = Ok i) <-> forallb (has_local m) LOCAL = true)
  /\ (forall i, ID_init sc f m = Ok i ->
                m = Meta (Some (sensor i)) (Some (projection i)) (Some (orbit i))
                         (Some (polarizations i)) (Some (acquisition_mode i))
                         (Some (start i)) (Some (stop i)) (Some (product i))
                         (Some (spacing i)) (Some (samples i)) (Some (lines i))
                /\ scene_of i = sc /\ file i = f)
  /\ (forall e, ID_init sc f m = Raise e ->
                exists key, e = KeyError key /\ In key LOCAL /\ has_local m key = false
                            /\ caught_by_identify e = true).
Proof.
  destruct m as [a1 a2 a3 a4 a5 a6 a7 a8 a9 a10 a11]. unfold ID_init.
  cbn [meta_sensor meta_projection meta_orbit meta_polarizations meta_acquisition_mode
       meta_start meta_stop meta_product meta_spacing meta_samples meta_lines].
  destruct a1 as [v1|]; [|missing_key "sensor"].
  destruct a2 as [v2|]; [|missing_key "projection"].
  destruct a3 as [v3|]; [|missing_key "orbit"].
  destruct a4 as [v4|]; [|missing_key "polarizations"].
  destruct a5 as [v5|]; [|missing_key "acquisition_mode"].
  destruct a6 as [v6|]; [|missing_key "start"].
  destruct a7 as [v7|]; [|missing_key "stop"].
  destruct a8 as [v8|]; [|missing_key "product"].
  destruct a9 as [v9|]; [|missing_key "spacing"].
  destruct a10 as [v10|]; [|missing_key "samples"].
  destruct a11 as [v11|]; [|missing_key "lines"].
  cbn [getitem bind]. split; [split; [reflexivity | eauto]|].
  split; [|discriminate].
  intros i H. inversion H; subst i. now repeat split.
Qed.

Lemma identify_with_sound (handlers : list (scene -> result ID)) (sc : scene) (i : ID) :
  identify_with handlers sc = Ok i -> exists h, In h handlers /\ h sc = Ok i.
Proof.
  induction handlers as [|h rest IH]; simpl; [discriminate|].
  destruct (h sc) as [i'|e] eqn:E.
  - intros H. inversion H; subst. exists h. split; [now left | exact E].
  - destruct (caught_by_identify e); [|discriminate].
    intros H. destruct (IH H) as [h' [Hin Hh']]. exists h'. split; [now right | exact Hh'].
Qed.

Lemma identify_with_raised_by (handlers : list (scene -> result ID)) (sc : scene) (e : exn) :
  identify_with handlers sc = Raise e ->
  e = format_not_supported \/ exists h, In h handlers /\ h sc = Raise e.
Proof.
  induction handlers as [|h rest IH]; simpl.
  - intros H. left. now inversion H.
  - destruct (h sc) as [i'|e'] eqn:E; [discriminate|].
    destruct (caught_by_identify e').
    + intros H. destruct (IH H) as [->|[h' [Hin Hh']]]; [now left|].
      right. exists h'. split; [now right | exact Hh'].
    + intros H. inversion H; subst. right. exists h. split; [now left | exact E].
Qed.

(** X2.  A record that [identify] returns is the record of one of the
    handler classes.  An exception that leaves [identify] is never a
    [KeyError], it is an [IOError] only as "data format not supported", and
    otherwise it is the exception that one of the handlers raised. *)
Theorem identify_outcomes (ext : externals) (sc : scene) :
  (forall i, identify ext sc = Ok i -> exists h, In h (subclasses ext) /\ h sc = Ok i)
  /\ (forall e, identify ext sc = Raise e ->
                is_KeyError e = false
                /\ (is_IOError e = true -> e = format_not_supported)
                /\ (e = format_not_supported
                    \/ exists h, In h (subclasses ext) /\ h sc = Raise e)).
Proof.
  unfold identify. split.
  - intros i. apply identify_with_sound.
  - intros e H. pose proof (identify_with_raises _ _ _ H) as R.
    pose proof (identify_with_raised_by _ _ _ H) as B.
    split; [|split; [|exact B]].
    + destruct R as [->|R]; [reflexivity|].
      unfold caught_by_identify in R. apply orb_false_iff in R. tauto.
    + intros I. destruct R as [->|R]; [reflexivity|].
      unfold caught_by_identify in R. rewrite I in R. discriminate.
Qed.

(** ** [identify_many] *)

Lemma identify_many_with_ids (ident : scene -> result ID) (ids idlist : list ID) :
  identify_many_with ident (map IsID ids) idlist = Ok (idlist ++ ids).
Proof.
  revert idlist. induction ids as [|i ids IH]; intros idlist; simpl.
  - now rewrite app_nil_r.
  - rewrite IH. now rewrite <- app_assoc.
Qed.

Lemma identify_many_with_raises (ident : scene -> result ID) (scenes : list scene_or_id)
      (idlist : list ID) (e : exn) :
  identify_many_with ident scenes idlist = Raise e ->
  is_IOError e = false /\ exists sc, In (IsScene sc) scenes /\ ident sc = Raise e.
Proof.
  revert idlist. induction scenes as [|s rest IH]; intros idlist; simpl; [discriminate|].
  destruct s as [i|sc].
  - intros H. destruct (IH _ H) as [N [sc' [Hin Hs]]].
    split; [exact N|]. exists sc'. split; [now right | exact Hs].
  - destruct (ident sc) as [i|e'] eqn:E.
    + intros H. destruct (IH _ H) as [N [sc' [Hin Hs]]].
      split; [exact N|]. exists sc'. split; [now right | exact Hs].
    + destruct (is_IOError e') eqn:I.
      * intros H. destruct (IH _ H) as [N [sc' [Hin Hs]]].
        split; [exact N|]. exists sc'. split; [now right | exact Hs].
      * intros H. inversion H; subst. split; [exact I|].
        exists sc. split; [now left | exact E].
Qed.

Lemma identify_many_with_sound (ident : scene -> result ID) (scenes : list scene_or_id) :
  forall idlist l,
    identify_many_with ident scenes idlist = Ok l ->
    exists l', l = idlist ++ l'
               /\ (length l' <= length scenes)%nat
               /\ forall i, In i l' ->
                            In (IsID i) scenes
                            \/ exists sc, In (IsScene sc) scenes /\ ident sc = Ok i.
Proof.
  induction scenes as [|s rest IH]; intros idlist l; simpl.
  - intros H. inversion H; subst. exists []. rewrite app_nil_r.
    split; [reflexivity|]. split; [simpl; lia | intros i []].
  - assert (K : forall i0 (src : In (IsID i0) (s :: rest)
                                 \/ exists sc, In (IsScene sc) (s :: rest) /\ ident sc = Ok i0),
                 identify_many_with ident rest (idlist ++ [i0]) = Ok l ->
                 exists l', l = idlist ++ l'
                            /\ (length l' <= S (length rest))%nat
                            /\ forall i, In i l' ->
                                         In (IsID i) (s :: rest)
                                         \/ exists sc, In (IsScene sc) (s :: rest)
                                                       /\ ident sc = Ok i).
    { intros i0 src H. destruct (IH _ _ H) as [l' [-> [L S']]].
      exists (i0 :: l'). rewrite <- app_assoc. split; [reflexivity|].
      split; [simpl; lia|]. intros i [<-|Hin]; [exact src|].
      destruct (S' i Hin) as [A|[sc [A B]]]; [left; now right|].
      right. exists sc. split; [now right | exact B]. }
    destruct s as [i0|sc].
    + apply K. left. now left.
    + destruct (ident sc) as [i0|e] eqn:E.
      * apply K. right. exists sc. split; [now left | exact E].
      * destruct (is_IOError e); [|discriminate].
        intros H. destruct (IH _ _ H) as [l' [-> [L S']]].
        exists l'. split; [reflexivity|]. split; [lia|].
        intros i Hin. destruct (S' i Hin) as [A|[sc' [A B]]]; [left; now right|].
        right. exists sc'. split; [now right | exact B].
Qed.

(** X3.  What [identify_many] returns is never longer than its input, and
    each record in it is an [ID] object of the input or the record that
    [identify] returned for a scene of the input; a list of [ID] objects is
    returned as it is.  When [identify_many] raises, the exception is not an
    [IOError]: it is the exception that [identify] raised for one of the
    scenes. *)
Theorem identify_many_outcomes (ext : externals) (scenes : list scene_or_id) :
  (forall ids, scenes = map IsID ids -> identify_many ext scenes = Ok ids)
  /\ (forall l, identify_many ext scenes = Ok l ->
             (length l <= length scenes)%nat
             /\ forall i, In i l ->
                          In (IsID i) scenes
                          \/ exists sc, In (IsScene sc) scenes /\ identify ext sc = Ok i)
  /\ (forall e, identify_many ext scenes = Raise e ->
                is_IOError e = false
                /\ exists sc, In (IsScene sc) scenes /\ identify ext sc = Raise e).
Proof.
  unfold identify_many. split; [|split].
  - intros ids ->. now rewrite identify_many_with_ids.
  - intros l H. destruct (identify_many_with_sound _ _ _ _ H) as [l' [-> [L S']]].
    simpl. split; assumption.
  - intros e. apply identify_many_with_raises.
Qed.

(** ** [ID.findfiles] and [ID.examine] on a file of its own *)

Lemma fullmatch_Void (s : list ascii) : Re.fullmatch Re.Void s = false.
Proof. induction s as [|c s IH]; simpl; [reflexivity | exact IH]. Qed.

Lemma anchored_search_absolute (p : Re.pattern) (path : string) :
  Re.bol p = true -> Re.deriv "/" (Re.cat (Re.body p) (Re.tail p)) = Re.Void ->
  absolute path -> Re.search p path = false.
Proof.
  intros B D [rest ->]. unfold Re.search. rewrite B. unfold Re.match_here.
  cbn [Str.chars list_ascii_of_string Re.fullmatch]. rewrite D. apply fullmatch_Void.
Qed.

(** X4.  For a scene that is neither a directory nor a zip or tar archive,
    [findfiles] searches the pattern in the whole path.  [examine] then
    returns the path itself or fails as "not found", never as "ambiguous";
    and since the patterns of [CEOS_PSR], [SAFE] and [TSX] start with [^],
    none of these handlers accepts such a file given by its absolute path. *)
Theorem examine_plain_file (ext : externals) (cls : string) (sc : scene)
        (pattern : Re.pattern) (include_folders : bool)
        (Hplain : scene_kind sc = PlainFile) :
  (Re.search pattern (scene_path sc) = true ->
   examine ext cls sc pattern include_folders = Ok (scene_path sc))
  /\ (Re.search pattern (scene_path sc) = false ->
      examine ext cls sc pattern include_folders = Raise (not_found cls))
  /\ (forall files, examine ext cls sc pattern include_folders <> Raise (ambiguous files))
  /\ (absolute (scene_path sc) ->
      CEOS_PSR ext sc = Raise (not_found "CEOS_PSR")
      /\ SAFE ext sc = Raise (not_found "SAFE")
      /\ TSX ext sc = Raise (not_found "TSX")).
Proof.
  assert (F : forall p incl, findfiles ext sc p incl
                             = if Re.search p (scene_path sc) then [scene_path sc] else []).
  { intros p incl. unfold findfiles. now rewrite Hplain. }
  unfold examine. rewrite F.
  split; [intros ->; reflexivity|]. split; [intros ->; reflexivity|]. split.
  - intros files. destruct (Re.search pattern (scene_path sc)); simpl; [discriminate|].
    intros H. apply (not_found_is_not_ambiguous cls files). now inversion H.
  - intros A.
    assert (N : forall p cls', Re.bol p = true ->
                               Re.deriv "/" (Re.cat (Re.body p) (Re.tail p)) = Re.Void ->
                               examine ext cls' sc p false = Raise (not_found cls')
                               /\ examine ext cls' sc p true = Raise (not_found cls')).
    { intros p cls' B D. unfold examine. rewrite !F.
      now rewrite (anchored_search_absolute p _ B D A). }
    split; [|split].
    + unfold CEOS_PSR, Patterns.ceos_psr. cbn [psr_examine].
      rewrite (proj1 (N Patterns.ceos_psr1 "CEOS_PSR" eq_refl ltac:(vm_compute; reflexivity))).
      cbn [is_IOError not_found].
      rewrite (proj1 (N Patterns.ceos_psr2 "CEOS_PSR" eq_refl ltac:(vm_compute; reflexivity))).
      reflexivity.
    + unfold SAFE.
      rewrite (proj2 (N Patterns.safe "SAFE" eq_refl ltac:(vm_compute; reflexivity))).
      reflexivity.
    + unfold TSX.
      rewrite (proj1 (N Patterns.tsx "TSX" eq_refl ltac:(vm_compute; reflexivity))).
      reflexivity.
Qed.

Lemma examine_plain_file_witness :
  scene_kind Fixtures.tsx_file = PlainFile
  /\ absolute (scene_path Fixtures.tsx_file)
  /\ TSX Fixtures.ext_tsx Fixtures.tsx_file = Raise (not_found "TSX").
Proof.
  split; [reflexivity|]. split; [eexists; reflexivity|].
  apply (examine_plain_file Fixtures.ext_tsx "TSX" Fixtures.tsx_file Patterns.tsx false
           eq_refl).
  eexists; reflexivity.
Defined.

(** ** The patterns of [CEOS_PSR] *)

Lemma examine_raises_IOError (ext : externals) (cls : string) (sc : scene)
      (p : Re.pattern) (incl : bool) (e : exn) :
  examine ext cls sc p incl = Raise e ->
  e = not_found cls \/ e = ambiguous (findfiles ext sc p incl).
Proof.
  unfold examine. destruct (findfiles ext sc p incl) as [|f0 [|f1 rest]]; simpl;
    intros H; inversion H; auto.
Qed.

Lemma examine_ok_iff (ext : externals) (cls : string) (sc : scene) (p : Re.pattern)
      (incl : bool) (f : string) :
  examine ext cls sc p incl = Ok f <-> findfiles ext sc p incl = [f].
Proof.
  unfold examine. destruct (findfiles ext sc p incl) as [|f0 [|f1 rest]]; simpl;
    split; intros H; inversion H; reflexivity.
Qed.

(** X5.  [CEOS_PSR.__init__] tries the PALSAR-1 pattern, then the PALSAR-2
    pattern.  The file it keeps is the only candidate of the pattern it
    keeps.  When it fails, the error is the one of the PALSAR-2 pattern:
    the error of the PALSAR-1 pattern, also an ambiguity, is dropped. *)
Theorem psr_examine_outcomes (ext : externals) (sc : scene) :
  (forall f p, psr_examine ext sc Patterns.ceos_psr = Ok (f, p) ->
               (p = Patterns.ceos_psr1
                \/ p = Patterns.ceos_psr2
                   /\ findfiles ext sc Patterns.ceos_psr1 false <> [f])
               /\ findfiles ext sc p false = [f])
  /\ (forall e, psr_examine ext sc Patterns.ceos_psr = Raise e ->
                examine ext "CEOS_PSR" sc Patterns.ceos_psr2 false = Raise e
                /\ (exists e1, examine ext "CEOS_PSR" sc Patterns.ceos_psr1 false = Raise e1)
                /\ caught_by_identify e = true).
Proof.
  unfold Patterns.ceos_psr. cbn [psr_examine].
  pose proof (examine_ok_iff ext "CEOS_PSR" sc Patterns.ceos_psr1 false) as C1.
  pose proof (examine_ok_iff ext "CEOS_PSR" sc Patterns.ceos_psr2 false) as C2.
  destruct (examine ext "CEOS_PSR" sc Patterns.ceos_psr1 false) as [f1|e1] eqn:E1.
  - split; [|discriminate]. intros f p H. inversion H; subst.
    split; [now left|]. now apply C1.
  - assert (I1 : is_IOError e1 = true).
    { destruct (examine_raises_IOError _ _ _ _ _ _ E1) as [->| ->]; reflexivity. }
    rewrite I1.
    destruct (examine ext "CEOS_PSR" sc Patterns.ceos_psr2 false) as [f2|e2] eqn:E2.
    + split; [|discriminate]. intros f p H. inversion H; subst.
      split; [|now apply C2]. right. split; [reflexivity|].
      intros F. apply C1 in F. discriminate.
    + assert (I2 : is_IOError e2 = true).
      { destruct (examine_raises_IOError _ _ _ _ _ _ E2) as [->| ->]; reflexivity. }
      rewrite I2. split; [discriminate|].
      intros e H. inversion H; subst. split; [reflexivity|].
      split; [now exists e1|]. unfold caught_by_identify. now rewrite I2.
Qed.

(** ** [SAFE.__init__] without an annotation file *)

(** X6.  When [SAFE] has found the folder and read the manifest but no
    annotation file matches [pattern_ds], [annotations[0]] raises an
    [IndexError].  [identify] does not catch it: if the handlers before
    [SAFE] were passed over, [identify] raises this [IndexError] and not
    "data format not supported". *)
Theorem safe_without_annotation (ext : externals) (sc : scene) (f : string) (meta : metadict)
        (Hfile : examine ext "SAFE" sc Patterns.safe true = Ok f)
        (Hname : Re.matches Patterns.safe (Str.basename f) = true)
        (Hmeta : safe_scanMetadata ext sc = Ok meta)
        (Hnone : findfiles ext sc Patterns.safe_ds false = []) :
  SAFE ext sc = Raise list_index_out_of_range
  /\ caught_by_identify list_index_out_of_range = false
  /\ (all_passed_over [CEOS_ERS ext; CEOS_PSR ext; ESA ext] sc ->
      identify ext sc = Raise list_index_out_of_range).
Proof.
  assert (E : SAFE ext sc = Raise list_index_out_of_range).
  { unfold SAFE. rewrite Hfile. cbn [bind]. rewrite Hname. cbn [negb].
    rewrite Hmeta. cbn [bind]. now rewrite Hnone. }
  split; [exact E|]. split; [reflexivity|].
  intros P. unfold identify, subclasses.
  change [CEOS_ERS ext; CEOS_PSR ext; ESA ext; SAFE ext; TSX ext]
    with ([CEOS_ERS ext; CEOS_PSR ext; ESA ext] ++ [SAFE ext; TSX ext]).
  rewrite identify_with_skip by exact P. cbn [identify_with]. now rewrite E.
Qed.

Lemma safe_without_annotation_witness :
  identify Fixtures.ext_safe Fixtures.safe_zip_without_annotation
  = Raise list_index_out_of_range.
Proof.
  apply (safe_without_annotation Fixtures.ext_safe Fixtures.safe_zip_without_annotation
           ("data/S1A_IW_GRDH_1SDV_20200110T000000_20200110T000025_030000_037000_ABCD.zip/"
            ++ "S1A_IW_GRDH_1SDV_20200110T000000_20200110T000025_030000_037000_ABCD.SAFE")
           Fixtures.safe_meta).
  - vm_compute. reflexivity.
  - vm_compute. reflexivity.
  - reflexivity.
  - vm_compute. reflexivity.
  - intros h Hin. simpl in Hin.
    repeat (destruct Hin as [<- | Hin];
            [eexists; split; [vm_compute; reflexivity | reflexivity]|]).
    contradiction.
Defined.

(** ** The facility related records: further behaviour of the loop *)

Lemma unpack_wrong_length (b : Leader.bytes) :
  length b <> 4%nat ->
  Leader.unpack_be_i32 b
  = Raise (StructError "unpack requires a string argument of length 4").
Proof.
  destruct b as [|b0 [|b1 [|b2 [|b3 [|b4 b]]]]]; simpl; intros H; try reflexivity.
  contradiction.
Qed.

Lemma length_slice (led : Leader.bytes) (i j : Z) :
  (Z.of_nat (length (Leader.slice led i j))
   <= Z.max 0 (Leader.clamp (Leader.len led) j - Leader.clamp (Leader.len led) i))%Z.
Proof.
  unfold Leader.slice. rewrite length_firstn. lia.
Qed.

(** X7.  A length field of zero stops the loop from ending: the position
    does not move, and however many turns are allowed, the loop has not
    returned. *)
Theorem zero_length_never_ends (fuel : nat) (led : Leader.bytes) (p1 : Z)
        (records : list Leader.bytes)
        (Hinside : (p1 < Leader.len led)%Z)
        (Hzero : Leader.unpack_be_i32 (Leader.slice led (p1 + 8) (p1 + 12)) = Ok 0%Z) :
  Leader.facilityRelatedData fuel led p1 records = None.
Proof.
  revert records. induction fuel as [|fuel IH]; intros records; [reflexivity|].
  cbn [Leader.facilityRelatedData].
  destruct (p1 <? Leader.len led)%Z eqn:E; [|apply Z.ltb_ge in E; lia].
  rewrite Hzero. rewrite Z.add_0_r. apply IH.
Qed.

Lemma zero_length_never_ends_witness :
  Leader.facilityRelatedData 1000 Fixtures.zero_trailer 0 [] = None.
Proof.
  apply (zero_length_never_ends 1000 Fixtures.zero_trailer 0 []).
  - vm_compute. reflexivity.
  - vm_compute. reflexivity.
Defined.

(** X8.  When fewer than twelve bytes are left at the start of a facility
    related record, the length field is short of four bytes and
    [struct.unpack] raises [struct.error], which [identify] does not
    catch. *)
Theorem short_length_field_raises (fuel : nat) (led : Leader.bytes) (p1 : Z)
        (records : list Leader.bytes)
        (Hstart : (0 <= p1 < Leader.len led)%Z)
        (Hshort : (Leader.len led < p1 + 12)%Z) :
  Leader.facilityRelatedData (S fuel) led p1 records
  = Some (Raise (StructError "unpack requires a string argument of length 4"))
  /\ caught_by_identify (StructError "unpack requires a string argument of length 4") = false.
Proof.
  split; [|reflexivity]. cbn [Leader.facilityRelatedData].
  destruct (p1 <? Leader.len led)%Z eqn:E; [|apply Z.ltb_ge in E; lia].
  rewrite unpack_wrong_length; [reflexivity|].
  pose proof (length_slice led (p1 + 8) (p1 + 12)) as L.
  unfold Leader.clamp in L.
  destruct (p1 + 12 <? 0)%Z eqn:A; [apply Z.ltb_lt in A; lia|].
  destruct (p1 + 8 <? 0)%Z eqn:B; [apply Z.ltb_lt in B; lia|].
  lia.
Qed.

Lemma short_length_field_raises_witness :
  Leader.facilityRelatedData 1 Fixtures.short_trailer 8 []
  = Some (Raise (StructError "unpack requires a string argument of length 4")).
Proof.
  apply (short_length_field_raises 0 Fixtures.short_trailer 8 []).
  - vm_compute. split; [discriminate | reflexivity].
  - vm_compute. reflexivity.
Defined.

Lemma slice_then_rest (led : Leader.bytes) (p0 p1 : Z) :
  (0 <= p0 <= p1)%Z ->
  Leader.slice led p0 p1 ++ skipn (Z.to_nat p1) led = skipn (Z.to_nat p0) led.
Proof.
  intros H. destruct (Z.le_gt_cases p0 (Leader.len led)) as [L0|L0].
  - destruct (Z.le_gt_cases (Leader.len led) p1) as [L1|L1].
    + rewrite slice_to_end by lia.
      rewrite (skipn_all2 led (n := Z.to_nat p1)) by (unfold Leader.len in L1; lia).
      apply app_nil_r.
    + unfold Leader.slice, Leader.clamp.
      destruct (p0 <? 0)%Z eqn:E0; [apply Z.ltb_lt in E0; lia|].
      destruct (p1 <? 0)%Z eqn:E1; [apply Z.ltb_lt in E1; lia|].
      rewrite (Z.min_l p0), (Z.min_l p1) by lia.
      replace (Z.to_nat p1) with (Z.to_nat (p1 - p0) + Z.to_nat p0)%nat by lia.
      rewrite <- skipn_skipn. apply firstn_skipn.
  - unfold Leader.slice, Leader.clamp.
    destruct (p0 <? 0)%Z eqn:E0; [apply Z.ltb_lt in E0; lia|].
    destruct (p1 <? 0)%Z eqn:E1; [apply Z.ltb_lt in E1; lia|].
    rewrite (Z.min_r p0), (Z.min_r p1) by lia. rewrite Z.sub_diag. simpl.
    rewrite !skipn_all2 by (unfold Leader.len in L0; lia). reflexivity.
Qed.

Lemma slice_inside (a b c : Leader.bytes) (i j : Z) :
  (0 <= i <= j)%Z -> (j <= Leader.len b)%Z ->
  Leader.slice (a ++ b ++ c) (Leader.len a + i) (Leader.len a + j) = Leader.slice b i j.
Proof.
  intros Hi Hj. unfold Leader.slice, Leader.clamp, Leader.len in *.
  rewrite !length_app.
  destruct (Z.of_nat (length a) + i <? 0)%Z eqn:E1; [apply Z.ltb_lt in E1; lia|].
  destruct (Z.of_nat (length a) + j <? 0)%Z eqn:E2; [apply Z.ltb_lt in E2; lia|].
  destruct (i <? 0)%Z eqn:E3; [apply Z.ltb_lt in E3; lia|].
  destruct (j <? 0)%Z eqn:E4; [apply Z.ltb_lt in E4; lia|].
  rewrite !Z.min_l by lia.
  replace (Z.of_nat (length a) + j - (Z.of_nat (length a) + i))%Z with (j - i)%Z by lia.
  replace (Z.to_nat (Z.of_nat (length a) + i)) with (length a + Z.to_nat i)%nat by lia.
  rewrite skipn_app.
  rewrite (skipn_all2 a) by lia. cbn [app].
  replace (length a + Z.to_nat i - length a)%nat with (Z.to_nat i) by lia.
  rewrite skipn_app, firstn_app.
  replace (Z.to_nat (j - i) - length (skipn (Z.to_nat i) b))%nat with 0%nat
    by (rewrite length_skipn; lia).
  cbn [firstn]. apply app_nil_r.
Qed.

Lemma slice_whole (b : Leader.bytes) : Leader.slice b 0 (Leader.len b) = b.
Proof.
  unfold Leader.slice, Leader.clamp, Leader.len.
  destruct (Z.of_nat (length b) <? 0)%Z eqn:E; [apply Z.ltb_lt in E; lia|].
  change (0 <? 0)%Z with false. cbv iota.
  rewrite (Z.min_l 0) by lia. rewrite Z.min_id.
  rewrite Z.sub_0_r, Nat2Z.id. cbn [skipn Z.to_nat]. apply firstn_all.
Qed.

(** X9.  A trailer that is made of well-formed records is read back as
    these records.  Let the file be some bytes followed by records of which
    each has at least twelve bytes and carries its own length in bytes 8 to
    11.  Started behind the first part, the loop returns after one turn for
    each record and one more, it raises nothing, and it has collected
    exactly the records, in their order. *)
Theorem records_tile_the_trailer (records : list Leader.bytes) :
  Forall Leader.well_formed_record records ->
  forall (head : Leader.bytes) (collected : list Leader.bytes) (fuel : nat),
    (length records < fuel)%nat ->
    Leader.facilityRelatedData fuel (head ++ concat records) (Leader.len head) collected
    = Some (Ok (collected ++ records)).
Proof.
  induction 1 as [|r rs [Hlen Hfield] _ IH]; intros head collected fuel Hfuel.
  - destruct fuel as [|fuel]; [simpl in Hfuel; lia|].
    cbn [Leader.facilityRelatedData concat]. rewrite !app_nil_r.
    now rewrite Z.ltb_irrefl.
  - destruct fuel as [|fuel]; [simpl in Hfuel; lia|].
    cbn [Leader.facilityRelatedData concat].
    assert (L : (Leader.len head <? Leader.len (head ++ r ++ concat rs))%Z = true).
    { apply Z.ltb_lt. unfold Leader.len in *. rewrite !length_app. lia. }
    rewrite L.
    rewrite (slice_inside head r (concat rs) 8 12) by lia. rewrite Hfield.
    replace (Leader.slice (head ++ r ++ concat rs) (Leader.len head)
               (Leader.len head + Leader.len r)) with r.
    2:{ rewrite <- (Z.add_0_r (Leader.len head)) at 1.
        rewrite (slice_inside head r (concat rs) 0 (Leader.len r)) by lia.
        symmetry. apply slice_whole. }
    replace (Leader.len head + Leader.len r)%Z with (Leader.len (head ++ r))
      by (unfold Leader.len; rewrite length_app; lia).
    rewrite app_assoc. rewrite IH by (simpl in Hfuel; lia).
    now rewrite <- app_assoc.
Qed.

Lemma records_tile_the_trailer_witness :
  Leader.facilityRelatedData 3 Fixtures.two_records 0 []
  = Some (Ok [firstn 12 Fixtures.two_records; skipn 12 Fixtures.two_records]).
Proof.
  apply (records_tile_the_trailer
           [firstn 12 Fixtures.two_records; skipn 12 Fixtures.two_records]
           ltac:(repeat constructor; vm_compute; (discriminate || reflexivity))
           [] [] 3%nat).
  simpl. lia.
Defined.

Lemma byte_val_bounds (x : Byte.byte) : (0 <= Leader.byte_val x < 256)%Z.
Proof. destruct x; vm_compute; split; (discriminate || reflexivity). Qed.

Lemma lor_shiftl_add (x lo k : Z) :
  (0 <= k)%Z -> (0 <= lo < 2 ^ k)%Z -> Z.lor (Z.shiftl x k) lo = (x * 2 ^ k + lo)%Z.
Proof.
  intros Hk Hlo. rewrite Z.shiftl_mul_pow2 by exact Hk.
  rewrite <- Z.lxor_lor, <- Z.add_nocarry_lxor; try reflexivity.
  all: apply Z.bits_inj'; intros n Hn; rewrite Z.land_spec, Z.bits_0;
    destruct (Z.lt_ge_cases n k) as [L|L].
  all: try (rewrite Z.mul_pow2_bits_low by exact L; reflexivity).
  all: destruct (Z.eq_dec lo 0) as [->|Hnz]; [rewrite Z.bits_0; apply andb_false_r|].
  all: rewrite (Z.bits_above_log2 lo n); [apply andb_false_r | lia |].
  all: apply Z.lt_le_trans with k; [apply Z.log2_lt_pow2; lia | exact L].
Qed.

(** X10.  [struct.unpack('>i', b)] of four bytes is the big-endian number
    of the bytes read as a signed integer of 32 bits: it lies between
    [-2^31] and [2^31 - 1], and it is negative exactly when the first byte
    is [0x80] or more. *)
Theorem unpack_be_i32_value (b0 b1 b2 b3 : Byte.byte) :
  let u := (Leader.byte_val b0 * 2 ^ 24 + Leader.byte_val b1 * 2 ^ 16
            + Leader.byte_val b2 * 2 ^ 8 + Leader.byte_val b3)%Z in
  exists v, Leader.unpack_be_i32 [b0; b1; b2; b3] = Ok v
            /\ (v = if (Leader.byte_val b0 <? 128)%Z then u else u - 2 ^ 32)%Z
            /\ (- 2 ^ 31 <= v < 2 ^ 31)%Z
            /\ ((v < 0)%Z <-> (128 <= Leader.byte_val b0)%Z).
Proof.
  intros u. pose proof (byte_val_bounds b0) as B0. pose proof (byte_val_bounds b1) as B1.
  pose proof (byte_val_bounds b2) as B2. pose proof (byte_val_bounds b3) as B3.
  cbn [Leader.unpack_be_i32].
  rewrite (lor_shiftl_add (Leader.byte_val b2) (Leader.byte_val b3) 8) by lia.
  rewrite (lor_shiftl_add (Leader.byte_val b1) _ 16) by lia.
  rewrite (lor_shiftl_add (Leader.byte_val b0) _ 24) by lia.
  change (2 ^ 8)%Z with 256%Z in *. change (2 ^ 16)%Z with 65536%Z in *.
  change (2 ^ 24)%Z with 16777216%Z in *. change (2 ^ 31)%Z with 2147483648%Z in *.
  change (2 ^ 32)%Z with 4294967296%Z in *.
  eexists. split; [reflexivity|].
  destruct (Leader.byte_val b0 <? 128)%Z eqn:E0;
    [apply Z.ltb_lt in E0 | apply Z.ltb_ge in E0].
  - destruct (_ <? 2147483648)%Z eqn:E; [|apply Z.ltb_ge in E; lia].
    unfold u. repeat split; lia.
  - destruct (_ <? 2147483648)%Z eqn:E; [apply Z.ltb_lt in E; lia|].
    unfold u. repeat split; lia.
Qed.

(** ** [Archive.insert]: batches, size and lookup *)



(** X12.  One insert of a record changes [size] by one when the output
    base name is new and not at all when it is registered: then the table
    stays as it is, also when the registered row belongs to another
    scene. *)
Theorem insert_size (eng : Archive.engine) (ext : externals) (db db1 : Archive.table)
        (i : ID) (verbose : bool) (out : list string)
        (Hinsert : Archive.insert eng ext db (Archive.InID i) verbose = Ok (db1, out)) :
  (Archive.has_key (outname_base i) db = true -> db1 = db)
  /\ (Archive.has_key (outname_base i) db = false ->
      exists geom, Archive.prepare_insertion eng i = Ok (Archive.row_of i geom)
                   /\ db1 = db ++ [Archive.row_of i geom])
  /\ Archive.size db1
     = (Archive.size db + if Archive.has_key (outname_base i) db then 0 else 1)%Z.
Proof.
  rewrite insert_id_unfold in Hinsert.
  destruct (insert_one_inv eng verbose db db1 _ out i Hinsert)
    as [geom [Hb [_ [[K ->]|[K ->]]]]]; rewrite K.
  - split; [reflexivity|]. split; [discriminate|]. lia.
  - split; [discriminate|]. split.
    + intros _. exists geom. split; [|reflexivity].
      unfold Archive.prepare_insertion. now rewrite Hb.
    + unfold Archive.size. rewrite length_app. simpl. lia.
Qed.

Lemma insert_size_witness :
  Archive.insert Fixtures.eng0 Fixtures.ext0 Fixtures.three_scenes
    (Archive.InID Fixtures.s1_id) false
  = Ok (Fixtures.three_scenes ++ [Fixtures.s1_row], [Archive.inserting])
  /\ Archive.size (Fixtures.three_scenes ++ [Fixtures.s1_row]) = 4%Z.
Proof.
  assert (E : Archive.insert Fixtures.eng0 Fixtures.ext0 Fixtures.three_scenes
                (Archive.InID Fixtures.s1_id) false
              = Ok (Fixtures.three_scenes ++ [Fixtures.s1_row], [Archive.inserting]))
    by (vm_compute; reflexivity).
  split; [exact E|].
  rewrite (proj2 (proj2 (insert_size Fixtures.eng0 Fixtures.ext0 Fixtures.three_scenes _
                           Fixtures.s1_id false _ E))).
  vm_compute. reflexivity.
Defined.

(** ** [Archive.insert] followed by [Archive.select] *)

Lemma search_nonempty (s : string) :
  Re.search Archive.date_pattern s = true -> s <> "".
Proof. intros H ->. vm_compute in H. discriminate. Qed.

Lemma pol_flag_set (i : ID) (pol : string) :
  In pol (polarizations i) -> Str.mem pol ["HH"; "VV"; "HV"; "VH"] = true ->
  forall geom, Archive.flag_of (Str.lower_str pol) (Archive.row_of i geom) = 1%Z.
Proof.
  intros Hin Hm geom.
  assert (M : Str.mem (Str.lower_str pol) (map Str.lower_str (polarizations i)) = true).
  { unfold Str.mem. apply existsb_exists. exists (Str.lower_str pol).
    split; [now apply in_map | apply String.eqb_refl]. }
  unfold Str.mem in Hm. cbn [existsb] in Hm. rewrite !orb_true_iff in Hm.
  destruct Hm as [E|[E|[E|[E|E]]]]; try discriminate; apply String.eqb_eq in E; subst pol;
    revert M; unfold Archive.flag_of, Archive.row_of, Archive.pol_flag;
    cbn [Archive.r_hh Archive.r_vv Archive.r_hv Archive.r_vh];
    change (Str.lower_str "HH") with "hh"; change (Str.lower_str "VV") with "vv";
    change (Str.lower_str "HV") with "hv"; change (Str.lower_str "VH") with "vh";
    cbn [String.eqb Ascii.eqb Bool.eqb]; intros ->; reflexivity.
Qed.

(** X13.  A record that was inserted is found again.  Let the paths of the
    table after the insert be ASCII.  With the start of the record as
    [mindate], its stop as [maxdate] (both bounds are inclusive) and any of
    its polarizations as filter, [select] on that table returns a list that
    holds the path of the scene. *)
Theorem inserted_scene_is_selected (eng : Archive.engine) (ext : externals)
        (db db1 : Archive.table) (i : ID) (verbose : bool) (out : list string) (pol : string)
        (Hnew : Archive.has_key (outname_base i) db = false)
        (Hinsert : Archive.insert eng ext db (Archive.InID i) verbose = Ok (db1, out))
        (Hpaths : forall r, In r db1 -> Str.is_ascii (Archive.r_scene r) = true)
        (Hstart : Re.search Archive.date_pattern (start i) = true)
        (Hstop : Re.search Archive.date_pattern (stop i) = true)
        (Hpol : In pol (polarizations i))
        (Hcode : Str.mem pol ["HH"; "VV"; "HV"; "VH"] = true) :
  exists l,
    Archive.select eng db1 None (Some (start i)) (Some (stop i)) None false (Some [pol]) []
    = Ok l
    /\ In (Archive.PStr (scene_of i)) l.
Proof.
  rewrite insert_id_unfold in Hinsert.
  destruct (insert_one_inv eng verbose db db1 _ out i Hinsert)
    as [geom [Hb [Hbind [[K _]|[_ ->]]]]]; [congruence|].
  set (conds := [Archive.CStartGe (start i); Archive.CStopLe (stop i);
                 Archive.CFlag (Str.lower_str pol)]).
  set (tests := [fun r => String.leb (start i) (Archive.r_start r);
                 fun r => String.leb (Archive.r_stop r) (stop i);
                 fun r => Z.eqb (Archive.flag_of (Str.lower_str pol) r) 1]).
  assert (C : Archive.arg_format None (Some (start i)) (Some (stop i)) (Some [pol]) []
              = conds).
  { unfold Archive.arg_format.
    rewrite (date_condition_In Archive.CStartGe _ (start i) eq_refl
               (search_nonempty _ Hstart) Hstart).
    rewrite (date_condition_In Archive.CStopLe _ (stop i) eq_refl
               (search_nonempty _ Hstop) Hstop).
    unfold Archive.pol_conditions. cbn [flat_map]. rewrite Hcode. reflexivity. }
  assert (B : forallb (Archive.bindable eng) (Archive.vals conds) = true).
  { cbn [Archive.vals conds flat_map app forallb].
    cbn [Archive.row_texts Archive.row_of Archive.r_start Archive.r_stop forallb] in Hbind.
    rewrite !andb_true_iff in Hbind. rewrite !andb_true_iff. tauto. }
  set (db1 := db ++ [Archive.row_of i geom]) in *.
  set (kept := Archive.passing tests db1).
  set (found := Archive.fetch_order eng (Archive.query_text conds) kept).
  exists (map (fun r => Archive.PStr (Archive.r_scene r)) found). split.
  - unfold Archive.select. rewrite C.
    rewrite (select_found eng db1 None (Some (start i)) (Some (stop i)) (Some [pol]) []
               conds tests C ltac:(discriminate) eq_refl eq_refl B).
    cbn [bind Archive.truthy]. fold kept. fold found.
    rewrite fetched_paths, mapM_encode_ok.
    + cbn [bind]. now rewrite map_map.
    + intros s Hs. apply in_map_iff in Hs. destruct Hs as [r [<- Hr]]. apply Hpaths.
      apply (Permutation_in r (Archive.fetch_order_perm eng (Archive.query_text conds) kept))
        in Hr.
      unfold kept, Archive.passing in Hr. apply filter_In in Hr. apply Hr.
  - apply (in_map (fun r => Archive.PStr (Archive.r_scene r)) found (Archive.row_of i geom)).
    apply (Permutation_in _ (Permutation_sym
             (Archive.fetch_order_perm eng (Archive.query_text conds) kept))).
    unfold kept, Archive.passing. apply filter_In.
    split; [apply in_or_app; right; now left|].
    cbn [tests forallb Archive.row_of Archive.r_start Archive.r_stop].
    rewrite !leb_refl. cbn [andb]. rewrite andb_true_r.
    apply Z.eqb_eq. now apply pol_flag_set.
Qed.

Lemma inserted_scene_is_selected_witness :
  exists l,
    Archive.select Fixtures.eng0 (Fixtures.three_scenes ++ [Fixtures.s1_row])
      None (Some "20200110T000000") (Some "20200110T000025") None false (Some ["VH"]) []
    = Ok l
    /\ In (Archive.PStr (scene_of Fixtures.s1_id)) l.
Proof.
  apply (inserted_scene_is_selected Fixtures.eng0 Fixtures.ext0 Fixtures.three_scenes
           (Fixtures.three_scenes ++ [Fixtures.s1_row])
           Fixtures.s1_id false [Archive.inserting] "VH").
  - vm_compute. reflexivity.
  - vm_compute. reflexivity.
  - intros r Hr. simpl in Hr.
    repeat (destruct Hr as [<-|Hr]; [vm_compute; reflexivity|]). contradiction.
  - vm_compute. reflexivity.
  - vm_compute. reflexivity.
  - simpl. tauto.
  - vm_compute. reflexivity.
Defined.

(** ** [Archive.filter_scenelist] and the insertion of a list *)

Lemma filter_none {A : Type} (f : A -> bool) (l : list A) :
  (forall x, In x l -> f x = false) -> filter f l = [].
Proof.
  induction l as [|x l IH]; intros H; simpl; [reflexivity|].
  rewrite (H x (or_introl eq_refl)). apply IH. intros y Hy. apply H. now right.
Qed.

(** A comprehension whose body can only fail with [e] fails with [e] as
    soon as the body fails on one item. *)
Lemma mapM_raises {A B : Type} (f : A -> result B) (l : list A) (e : exn) :
  (forall x e', f x = Raise e' -> e' = e) ->
  (exists x, In x l /\ f x = Raise e) ->
  mapM f l = Raise e.
Proof.
  intros Only. induction l as [|x l IH]; intros [y [Hin Hy]]; [contradiction|].
  cbn [mapM]. destruct (f x) as [b|e'] eqn:E.
  - destruct Hin as [->|Hin]; [congruence|].
    rewrite IH; [reflexivity|]. now exists y.
  - now rewrite (Only x e' E).
Qed.

Lemma filterM_raises {A : Type} (test : A -> result bool) (l : list A) (e : exn) :
  (forall x e', test x = Raise e' -> e' = e) ->
  (exists x, In x l /\ test x = Raise e) ->
  Archive.filterM test l = Raise e.
Proof.
  intros Only. induction l as [|x l IH]; intros [y [Hin Hy]]; [contradiction|].
  cbn [Archive.filterM]. destruct (test x) as [b|e'] eqn:E; cbn [bind].
  - destruct Hin as [->|Hin]; [congruence|].
    rewrite IH; [reflexivity|]. now exists y.
  - now rewrite (Only x e' E).
Qed.

Lemma registered_names (db : Archive.table) :
  (forall r, In r db -> Str.is_ascii (Archive.r_scene r) = true) ->
  mapM (fun r => let* s := Archive.encode_ascii (Archive.r_scene r) in Ok (Str.basename s)) db
  = Ok (map (fun r => Str.basename (Archive.r_scene r)) db).
Proof.
  induction db as [|r db IH]; intros H; [reflexivity|]. cbn [mapM map].
  rewrite encode_ascii_ok by (apply H; now left). cbn [bind].
  rewrite IH; [reflexivity|]. intros r' Hr'. apply H. now right.
Qed.

Lemma filterM_scenes (registered : list string) (scenes : list scene) :
  Archive.filterM (Archive.unregistered registered) (map IsScene scenes)
  = Ok (map IsScene
            (filter (fun x => negb (Str.mem (Str.basename (scene_path x)) registered))
                    scenes)).
Proof.
  induction scenes as [|x scenes IH]; [reflexivity|].
  cbn [map Archive.filterM Archive.unregistered bind filter]. rewrite IH. cbn [bind].
  destruct (negb (Str.mem (Str.basename (scene_path x)) registered)); reflexivity.
Qed.

Lemma mem_registered (db : Archive.table) (x : scene) :
  Str.mem (Str.basename (scene_path x))
          (map (fun r => Str.basename (Archive.r_scene r)) db) = true
  <-> exists r, In r db /\ Str.basename (Archive.r_scene r) = Str.basename (scene_path x).
Proof.
  unfold Str.mem. rewrite existsb_exists. split.
  - intros [s [Hin E]]. apply in_map_iff in Hin. destruct Hin as [r [<- Hr]].
    apply String.eqb_eq in E. exists r. now split.
  - intros [r [Hr E]]. exists (Str.basename (Archive.r_scene r)). split.
    + apply in_map_iff. exists r. now split.
    + rewrite E. apply String.eqb_refl.
Qed.

(** X14.  [filter_scenelist] encodes the path of every registered scene
    first: one path that is not ASCII makes it raise, whatever the list.
    When all registered paths are ASCII, it compares base names only: of a
    list of paths it keeps those, in their order, whose base name is not the
    base name of a registered scene, in whatever directory that scene lies;
    an [ID] object in the list makes it raise [AttributeError], as
    [os.path.basename] is applied to every item.  A list of paths whose base
    names are all registered is therefore inserted without identifying any
    of them, and the table stays as it is. *)
Theorem insert_registered_list (eng : Archive.engine) (ext : externals) (db : Archive.table)
        (verbose : bool) :
  (forall l, (exists r, In r db /\ Str.is_ascii (Archive.r_scene r) = false) ->
             exists msg, Archive.filter_scenelist db l = Raise (UnicodeEncodeError msg))
  /\ ((forall r, In r db -> Str.is_ascii (Archive.r_scene r) = true) ->
      (forall scenes,
          exists kept,
            Archive.filter_scenelist db (map IsScene scenes) = Ok (map IsScene kept)
            /\ forall x, In x kept <->
                         In x scenes /\ forall r, In r db ->
                                                  Str.basename (Archive.r_scene r)
                                                  <> Str.basename (scene_path x))
      /\ (forall l i, In (IsID i) l -> Archive.filter_scenelist db l = Raise Archive.no_rfind)
      /\ (forall scenes,
             (forall x, In x scenes ->
                        exists r, In r db /\ Str.basename (Archive.r_scene r)
                                             = Str.basename (scene_path x)) ->
             Archive.insert eng ext db (Archive.InList (map IsScene scenes)) verbose
             = Ok (db, ["filtering scenes by name..."; "extracting scene metadata...";
                        "inserting scenes into the database..."]))).
Proof.
  split.
  - intros l [r [Hr Hn]]. eexists. unfold Archive.filter_scenelist.
    rewrite (mapM_raises _ db (UnicodeEncodeError "'ascii' codec can't encode character")).
    + reflexivity.
    + intros x e'. unfold Archive.encode_ascii.
      destruct (Str.is_ascii (Archive.r_scene x)); cbn [bind]; [discriminate|].
      intros H. now inversion H.
    + exists r. split; [exact Hr|]. unfold Archive.encode_ascii. now rewrite Hn.
  - intros Hascii.
    assert (F : forall scenes,
               Archive.filter_scenelist db (map IsScene scenes)
               = Ok (map IsScene
                       (filter (fun x => negb (Str.mem (Str.basename (scene_path x))
                                                 (map (fun r => Str.basename (Archive.r_scene r))
                                                      db)))
                               scenes))).
    { intros scenes. unfold Archive.filter_scenelist.
      rewrite (registered_names db Hascii). cbn [bind]. apply filterM_scenes. }
    split; [|split].
    + intros scenes. eexists. split; [apply F|].
      intros x. rewrite filter_In, negb_true_iff. split; intros [Hin H]; (split; [exact Hin|]).
      * intros r Hr E.
        assert (T : Str.mem (Str.basename (scene_path x))
                      (map (fun r => Str.basename (Archive.r_scene r)) db) = true)
          by (apply mem_registered; exists r; now split).
        congruence.
      * destruct (Str.mem _ _) eqn:T; [|reflexivity].
        apply mem_registered in T. destruct T as [r [Hr E]]. exfalso. now apply (H r Hr).
    + intros l i Hin. unfold Archive.filter_scenelist.
      rewrite (registered_names db Hascii). cbn [bind].
      apply filterM_raises.
      * intros x e'. destruct x; cbn [Archive.unregistered]; [|discriminate].
        intros H. now inversion H.
      * exists (IsID i). now split.
    + intros scenes H. unfold Archive.insert. rewrite F.
      rewrite filter_none; [reflexivity|].
      intros x Hin. apply negb_false_iff. apply mem_registered. now apply H.
Qed.

Lemma insert_registered_list_witness :
  Archive.insert Fixtures.eng0 Fixtures.ext0 Fixtures.three_scenes
    (Archive.InList [IsScene (Scene "/other/place/S1A_20200105.zip" ZipArchive [])]) false
  = Ok (Fixtures.three_scenes,
        ["filtering scenes by name..."; "extracting scene metadata...";
         "inserting scenes into the database..."])
  /\ Archive.filter_scenelist Fixtures.three_scenes
       [IsScene (Scene "/other/place/S1A_20200105.zip" ZipArchive []);
        IsID Fixtures.s1_id]
     = Raise Archive.no_rfind.
Proof.
  assert (A : forall r, In r Fixtures.three_scenes ->
                        Str.is_ascii (Archive.r_scene r) = true).
  { intros r Hr. simpl in Hr.
    repeat (destruct Hr as [<-|Hr]; [vm_compute; reflexivity|]). contradiction. }
  destruct (proj2 (insert_registered_list Fixtures.eng0 Fixtures.ext0 Fixtures.three_scenes
                     false) A) as [_ [Hid Hall]].
  split.
  - apply (Hall [Scene "/other/place/S1A_20200105.zip" ZipArchive []]).
    intros x [<-|[]]. exists Fixtures.january_a. split; [now left|].
    vm_compute. reflexivity.
  - apply (Hid _ Fixtures.s1_id). simpl. tauto.
Defined.

(** ** [Archive.select] with a process directory *)

Lemma filter_all {A : Type} (f : A -> bool) (l : list A) :
  (forall x, In x l -> f x = true) -> filter f l = l.
Proof.
  induction l as [|x l IH]; intros H; simpl; [reflexivity|].
  rewrite (H x (or_introl eq_refl)). f_equal. apply IH. intros y Hy. apply H. now right.
Qed.

Lemma length_filter_le {A : Type} (f : A -> bool) (l : list A) :
  (length (filter f l) <= length l)%nat.
Proof. induction l as [|x l IH]; simpl; [lia|]. destruct (f x); simpl; lia. Qed.

(** X15.  The process directory only takes scenes away.  Whenever [select]
    returns a list without a process directory, it returns a list with one
    too; every scene of that list is in the first, and it is not longer.
    The two lists are the same when [finder] finds no product in the
    directory, and the second is empty when it finds one for every name. *)
Theorem select_processdir_removes (eng : Archive.engine) (db : Archive.table)
        (vectorobject : option Archive.vector_arg) (mindate maxdate : option string)
        (dir : string) (recursive : bool) (pols : option (list string))
        (args : list (string * Archive.argval)) (l0 : list Archive.pyvalue)
        (Hnodir : Archive.select eng db vectorobject mindate maxdate None recursive
                    pols args = Ok l0) :
  exists l1,
    Archive.select eng db vectorobject mindate maxdate (Some dir) recursive pols args = Ok l1
    /\ (forall p, In p l1 -> In p l0)
    /\ (length l1 <= length l0)%nat
    /\ ((forall name, Archive.find_processed eng dir name recursive = []) -> l1 = l0)
    /\ (dir <> "" ->
        (forall name, Archive.find_processed eng dir name recursive <> []) -> l1 = []).
Proof.
  revert Hnodir. unfold Archive.select.
  destruct (Archive.execute_select eng db
              (Archive.arg_format vectorobject mindate maxdate pols args))
    as [fetched|e]; [|discriminate].
  cbn [bind Archive.truthy].
  rewrite <- (mapM_map fst Archive.encode_ascii fetched).
  destruct (mapM Archive.encode_ascii (map fst fetched)) as [paths|e] eqn:M; [|discriminate].
  cbn [bind]. intros H. inversion H; subst l0. clear H.
  apply mapM_encode_inv in M. destruct M as [-> All].
  assert (Sub : forall g : string * string -> bool,
             mapM (fun x => Archive.encode_ascii (fst x)) (filter g fetched)
             = Ok (map fst (filter g fetched))).
  { intros g. rewrite <- (mapM_map fst Archive.encode_ascii). apply mapM_encode_ok.
    intros s Hs. apply All. apply in_map_iff in Hs. destruct Hs as [x [<- Hx]].
    apply in_map. apply filter_In in Hx. apply Hx. }
  destruct dir as [|c dir].
  - exists (map Archive.PStr (map fst fetched)).
    rewrite <- (mapM_map fst Archive.encode_ascii fetched).
    rewrite mapM_encode_ok by exact All. cbn [bind].
    split; [reflexivity|]. split; [tauto|]. split; [lia|]. split; [reflexivity|].
    intros C. contradiction.
  - set (g := fun x : string * string =>
                Nat.eqb (length (Archive.find_processed eng (String c dir) (snd x) recursive)) 0).
    exists (map Archive.PStr (map fst (filter g fetched))).
    rewrite (Sub g). cbn [bind]. split; [reflexivity|]. split; [|split; [|split]].
    + intros p Hp. apply in_map_iff in Hp. destruct Hp as [s [<- Hs]].
      apply in_map. apply in_map_iff in Hs. destruct Hs as [x [<- Hx]].
      apply in_map. apply filter_In in Hx. apply Hx.
    + rewrite !length_map. apply length_filter_le.
    + intros N. rewrite filter_all; [reflexivity|].
      intros x _. unfold g. now rewrite N.
    + intros _ N. rewrite filter_none; [reflexivity|].
      intros x _. unfold g. specialize (N (snd x)).
      destruct (Archive.find_processed eng (String c dir) (snd x) recursive);
        [contradiction | reflexivity].
Qed.

(** Of the two scenes of January 2020 the one with a product in [/out] is
    taken away. *)
Lemma select_processdir_removes_witness :
  Archive.select Fixtures.eng_processed Fixtures.three_scenes None
    (Some "20200101T000000") (Some "20200201T000000") (Some "/out") false (Some ["VV"]) []
  = Ok [Archive.PStr "/data/S1B_20200120.zip"]
  /\ exists l1,
       Archive.select Fixtures.eng_processed Fixtures.three_scenes None
         (Some "20200101T000000") (Some "20200201T000000") (Some "/out") false
         (Some ["VV"]) []
       = Ok l1
       /\ (forall p, In p l1 ->
                     In p [Archive.PStr "/data/S1A_20200105.zip";
                           Archive.PStr "/data/S1B_20200120.zip"])
       /\ (length l1 <= 2)%nat.
Proof.
  split; [vm_compute; reflexivity|].
  destruct (select_processdir_removes Fixtures.eng_processed Fixtures.three_scenes None
              (Some "20200101T000000") (Some "20200201T000000") "/out" false
              (Some ["VV"]) []
              [Archive.PStr "/data/S1A_20200105.zip"; Archive.PStr "/data/S1B_20200120.zip"])
    as [l1 [S [Sub [Len _]]]].
  - vm_compute. reflexivity.
  - exists l1. split; [exact S|]. split; [exact Sub | exact Len].
Defined.

(** The converse fails: a row whose path is not ASCII makes [select] raise
    without a process directory, and goes unnoticed with one when the
    directory holds a product of that row. *)
Example processdir_hides_a_path :
  let bad := Archive.Row "S1A" "A" "IW" "20200105T000000" "20200105T000025" "GRD" 25000 16000
               "S1A__IW___A_20200105T000000"
               (String (ascii_of_nat 200) "/S1A_20200105.zip") 0 1 0 1
               Fixtures.unit_square in
  Archive.select Fixtures.eng_processed [bad; Fixtures.january_b] None
    (Some "20200101T000000") None None false None []
  = Raise (UnicodeEncodeError "'ascii' codec can't encode character")
  /\ Archive.select Fixtures.eng_processed [bad; Fixtures.january_b] None
       (Some "20200101T000000") None (Some "/out") false None []
     = Ok [Archive.PStr "/data/S1B_20200120.zip"].
Proof. split; vm_compute; reflexivity. Qed.

(** ** [ID.getHGT] *)

Example getHGT_two_by_two :
  HGT.getHGT (-1) 0 (-1) 0
  = ["S01W001.hgt"; "S01E000.hgt"; "N00W001.hgt"; "N00E000.hgt"].
Proof. vm_compute. reflexivity. Qed.

Example getHGT_alps : HGT.getHGT 46 47 9 10
  = ["N46E009.hgt"; "N46E010.hgt"; "N47E009.hgt"; "N47E010.hgt"].
Proof. vm_compute. reflexivity. Qed.

Lemma latitude_table :
  forallb (fun k => String.eqb (HGT.coordinate 2 "N" "S" (Z.of_nat k - 99))
                      (String (if (Z.of_nat k - 99 <? 0)%Z then "S"%char else "N"%char)
                         (String (HGT.digit (Z.abs (Z.of_nat k - 99) / 10))
                            (String (HGT.digit (Z.abs (Z.of_nat k - 99))) ""))))
          (seq 0 199) = true.
Proof. vm_compute. reflexivity. Qed.

Lemma longitude_table :
  forallb (fun k => String.eqb (HGT.coordinate 3 "E" "W" (Z.of_nat k - 999))
                      (String (if (Z.of_nat k - 999 <? 0)%Z then "W"%char else "E"%char)
                         (String (HGT.digit (Z.abs (Z.of_nat k - 999) / 100))
                            (String (HGT.digit (Z.abs (Z.of_nat k - 999) / 10))
                               (String (HGT.digit (Z.abs (Z.of_nat k - 999))) "")))))
          (seq 0 1999) = true.
Proof. vm_compute. reflexivity. Qed.

Lemma latitude_name (la : Z) :
  (-99 <= la <= 99)%Z ->
  HGT.coordinate 2 "N" "S" la
  = String (if (la <? 0)%Z then "S"%char else "N"%char)
      (String (HGT.digit (Z.abs la / 10)) (String (HGT.digit (Z.abs la)) "")).
Proof.
  intros H. pose proof latitude_table as T. rewrite forallb_forall in T.
  specialize (T (Z.to_nat (la + 99))).
  replace (Z.of_nat (Z.to_nat (la + 99)) - 99)%Z with la in T by lia.
  apply String.eqb_eq. apply T. apply in_seq. lia.
Qed.

Lemma longitude_name (lo : Z) :
  (-999 <= lo <= 999)%Z ->
  HGT.coordinate 3 "E" "W" lo
  = String (if (lo <? 0)%Z then "W"%char else "E"%char)
      (String (HGT.digit (Z.abs lo / 100)) (String (HGT.digit (Z.abs lo / 10))
         (String (HGT.digit (Z.abs lo)) ""))).
Proof.
  intros H. pose proof longitude_table as T. rewrite forallb_forall in T.
  specialize (T (Z.to_nat (lo + 999))).
  replace (Z.of_nat (Z.to_nat (lo + 999)) - 999)%Z with lo in T by lia.
  apply String.eqb_eq. apply T. apply in_seq. lia.
Qed.

Lemma in_range_incl (a b x : Z) : In x (HGT.range_incl a b) <-> (a <= x <= b)%Z.
Proof.
  unfold HGT.range_incl. rewrite in_map_iff. split.
  - intros [k [<- Hk]]. apply in_seq in Hk. lia.
  - intros H. exists (Z.to_nat (x - a)). split; [lia|]. apply in_seq. lia.
Qed.

Lemma flat_map_agree {A B : Type} (f g : A -> list B) (l : list A) :
  (forall a, In a l -> f a = g a) -> flat_map f l = flat_map g l.
Proof.
  induction l as [|a l IH]; intros H; simpl; [reflexivity|].
  rewrite (H a (or_introl eq_refl)), IH; [reflexivity|]. intros b Hb. apply H. now right.
Qed.

Lemma length_flat_map_const {A B : Type} (f : A -> list B) (l : list A) (n : nat) :
  (forall a, In a l -> length (f a) = n) -> length (flat_map f l) = (length l * n)%nat.
Proof.
  induction l as [|a l IH]; intros H; simpl; [reflexivity|].
  rewrite length_app, (H a (or_introl eq_refl)), IH; [reflexivity|].
  intros b Hb. apply H. now right.
Qed.

(** X16.  For corners within two digits of latitude and three digits of
    longitude, [getHGT] names one tile for every pair of an integer latitude
    and an integer longitude between the floors of the corners, both ends
    included, latitudes first.  A name is [N] or [S] with the latitude in
    two digits, [E] or [W] with the longitude in three digits, and [.hgt]:
    eleven characters, a negative coordinate under [S] or [W] with its
    absolute value. *)
Theorem getHGT_tiles (ymin ymax xmin xmax : Z)
        (Hlat : (-99 <= ymin /\ ymax <= 99)%Z)
        (Hlon : (-999 <= xmin /\ xmax <= 999)%Z) :
  HGT.getHGT ymin ymax xmin xmax
  = flat_map (fun la => map (HGT.tile la) (HGT.range_incl xmin xmax))
             (HGT.range_incl ymin ymax)
  /\ length (HGT.getHGT ymin ymax xmin xmax)
     = (Z.to_nat (ymax + 1 - ymin) * Z.to_nat (xmax + 1 - xmin))%nat
  /\ (forall la lo, (ymin <= la <= ymax /\ xmin <= lo <= xmax)%Z ->
                    In (HGT.tile la lo) (HGT.getHGT ymin ymax xmin xmax))
  /\ (forall name, In name (HGT.getHGT ymin ymax xmin xmax) ->
                   String.length name = 11%nat
                   /\ exists la lo, name = HGT.tile la lo
                                    /\ (ymin <= la <= ymax /\ xmin <= lo <= xmax)%Z).
Proof.
  assert (E : HGT.getHGT ymin ymax xmin xmax
              = flat_map (fun la => map (HGT.tile la) (HGT.range_incl xmin xmax))
                         (HGT.range_incl ymin ymax)).
  { unfold HGT.getHGT. rewrite flat_map_concat_map, map_map, <- flat_map_concat_map.
    apply flat_map_agree. intros la Hla. apply in_range_incl in Hla.
    rewrite map_map. apply map_ext_in. intros lo Hlo. apply in_range_incl in Hlo.
    rewrite latitude_name, longitude_name by lia. reflexivity. }
  assert (M : forall name, In name (HGT.getHGT ymin ymax xmin xmax) <->
                           exists la lo, name = HGT.tile la lo
                                         /\ (ymin <= la <= ymax /\ xmin <= lo <= xmax)%Z).
  { intros name. rewrite E, in_flat_map. split.
    - intros [la [Hla Hn]]. apply in_map_iff in Hn. destruct Hn as [lo [<- Hlo]].
      apply in_range_incl in Hla, Hlo. now exists la, lo.
    - intros [la [lo [-> [Hla Hlo]]]]. exists la. split; [now apply in_range_incl|].
      apply in_map. now apply in_range_incl. }
  split; [exact E|]. split; [|split].
  - rewrite E. rewrite (length_flat_map_const _ _ (Z.to_nat (xmax + 1 - xmin))).
    + unfold HGT.range_incl. now rewrite length_map, length_seq.
    + intros la _. unfold HGT.range_incl. now rewrite !length_map, length_seq.
  - intros la lo H. apply M. now exists la, lo.
  - intros name H. apply M in H. split; [|exact H].
    destruct H as [la [lo [-> _]]]. reflexivity.
Qed.

Lemma getHGT_tiles_witness :
  length (HGT.getHGT (-2) 1 (-75) (-73)) = 12%nat
  /\ In "S02W074.hgt" (HGT.getHGT (-2) 1 (-75) (-73)).
Proof.
  destruct (getHGT_tiles (-2) 1 (-75) (-73)) as [_ [L [I _]]]; [lia | lia |].
  split; [exact L|]. apply (I (-2)%Z (-74)%Z). lia.
Defined.

(** ** [ID.findfiles] on a zip archive *)

Lemma lstrip_head (p : ascii -> bool) (l : list ascii) (c : ascii) (t : list ascii) :
  Str.lstrip_chars p l = c :: t -> p c = false.
Proof.
  induction l as [|a l IH]; simpl; [discriminate|].
  destruct (p a) eqn:E; [exact IH|]. intros H. inversion H; subst. exact E.
Qed.

Lemma lstrip_suffix (p : ascii -> bool) (l : list ascii) :
  exists pre, l = pre ++ Str.lstrip_chars p l.
Proof.
  induction l as [|a l [pre IH]]; simpl; [now exists []|].
  destruct (p a); [|now exists []]. exists (a :: pre). simpl. now f_equal.
Qed.

Lemma strip_slash_ends (s : string) :
  ~ absolute (Str.strip_slash s) /\ Str.endswith_slash (Str.strip_slash s) = false.
Proof.
  unfold Str.strip_slash, Str.rstrip_chars.
  remember (Str.lstrip_chars Str.is_slash (Str.chars s)) as l eqn:El.
  remember (Str.lstrip_chars Str.is_slash (rev l)) as r eqn:Er.
  split.
  - intros [rest A].
    destruct (lstrip_suffix Str.is_slash (rev l)) as [pre P]. rewrite <- Er in P.
    assert (L : l = rev r ++ rev pre).
    { rewrite <- rev_app_distr, <- P. now rewrite rev_involutive. }
    destruct (rev r) as [|c t] eqn:R; [discriminate A|].
    unfold Str.of_chars in A. simpl in A. inversion A; subst c.
    rewrite <- app_comm_cons in L. rewrite L in El. symmetry in El.
    apply lstrip_head in El. discriminate El.
  - unfold Str.endswith_slash, Str.of_chars, Str.chars.
    rewrite list_ascii_of_string_of_list_ascii, rev_involutive.
    destruct r as [|c t]; [reflexivity|]. symmetry in Er.
    apply lstrip_head in Er. exact Er.
Qed.

Lemma join_absolute (a b : string) : absolute a -> absolute (Str.join a b).
Proof.
  intros [rest ->]. unfold Str.join.
  destruct (Str.chars b) as [|c t] eqn:B.
  - destruct (_ || _); [now exists rest|]. now exists (rest ++ "/")%string.
  - destruct (Str.is_slash c) eqn:S.
    + destruct b as [|c' b']; [discriminate|]. simpl in B. inversion B; subst.
      apply Ascii.eqb_eq in S. subst. now exists b'.
    + destruct (_ || _); simpl; eexists; reflexivity.
Qed.

(** X17.  For a scene in a zip archive, [findfiles] with
    [include_folders] strips the slashes from both ends of each joined path,
    so that the paths it returns have lost the leading slash of the scene
    path and are not absolute; without [include_folders] the paths of an
    absolute scene path stay absolute.  In both cases no path ends with a
    slash. *)
Theorem zip_paths (ext : externals) (sc : scene) (pattern : Re.pattern)
        (Hzip : scene_kind sc = ZipArchive) :
  (forall f, In f (findfiles ext sc pattern true) ->
             ~ absolute f /\ Str.endswith_slash f = false)
  /\ (forall f, In f (findfiles ext sc pattern false) ->
                Str.endswith_slash f = false /\ (absolute (scene_path sc) -> absolute f)).
Proof.
  unfold findfiles. rewrite Hzip. split.
  - intros f Hin. apply in_map_iff in Hin. destruct Hin as [g [<- _]].
    apply strip_slash_ends.
  - intros f Hin. apply filter_In in Hin. destruct Hin as [Hin E].
    apply negb_true_iff in E. split; [exact E|].
    intros A. apply in_map_iff in Hin. destruct Hin as [x [<- _]].
    now apply join_absolute.
Qed.

Lemma zip_paths_witness :
  findfiles Fixtures.ext_safe Fixtures.safe_zip_without_annotation Patterns.safe true
  = [("data/S1A_IW_GRDH_1SDV_20200110T000000_20200110T000025_030000_037000_ABCD.zip/"
      ++ "S1A_IW_GRDH_1SDV_20200110T000000_20200110T000025_030000_037000_ABCD.SAFE")%string]
  /\ forall f, In f (findfiles Fixtures.ext_safe Fixtures.safe_zip_without_annotation
                       Patterns.safe true) -> ~ absolute f.
Proof.
  split; [vm_compute; reflexivity|].
  intros f Hin.
  apply (proj1 (zip_paths Fixtures.ext_safe Fixtures.safe_zip_without_annotation
                  Patterns.safe eq_refl) f Hin).
Defined.

(** ** [ID.parse_date] applied to its own output *)

Lemma digit_run_blur (s : list ascii) (k : nat) :
  (k <= length s)%nat -> forallb Str.is_digit (firstn k s) = true ->
  Blur.digit_run (Blur.blur s) k = true.
Proof.
  intros L D. unfold Blur.digit_run, Blur.blur. rewrite length_map.
  apply andb_true_intro. split; [now apply Nat.leb_le|].
  rewrite firstn_map, forallb_forall. intros a Ha. apply in_map_iff in Ha.
  destruct Ha as [c [<- Hc]]. rewrite forallb_forall in D.
  unfold Blur.blur_char. now rewrite (D c Hc).
Qed.

Lemma in_runs (ks : list nat) (s : list ascii) (k : nat) :
  In k ks -> (k <= length s)%nat -> forallb Str.is_digit (firstn k s) = true ->
  In k (Blur.runs ks (Blur.blur s)).
Proof.
  intros Hin L D. unfold Blur.runs. apply filter_In. split; [exact Hin|].
  now apply digit_run_blur.
Qed.

Lemma exactly_digit (d c : ascii) :
  Str.is_digit d = true -> Time.exactly d c = true -> Str.is_digit c = true.
Proof. intros D E. apply Ascii.eqb_eq in E. now subst. Qed.

Lemma between_digit (lo hi c : ascii) :
  (48 <= Str.code lo)%nat -> (Str.code hi <= 57)%nat ->
  Time.between lo hi c = true -> Str.is_digit c = true.
Proof.
  unfold Time.between, Str.is_digit, Str.in_range. rewrite !andb_true_iff, !Nat.leb_le. lia.
Qed.

Lemma alt2_shape (p1 p2 : ascii -> bool) (s : list ascii) (v : Z) (t : list ascii) :
  In (v, t) (Time.alt2 p1 p2 s) ->
  exists c1 c2, s = c1 :: c2 :: t /\ p1 c1 = true /\ p2 c2 = true.
Proof.
  destruct s as [|c1 [|c2 s]]; simpl; try contradiction.
  destruct (p1 c1) eqn:E1; destruct (p2 c2) eqn:E2; simpl; try contradiction.
  intros [H|[]]. inversion H; subst. now exists c1, c2.
Qed.

Lemma alt1_shape (p : ascii -> bool) (s : list ascii) (v : Z) (t : list ascii) :
  In (v, t) (Time.alt1 p s) -> exists c, s = c :: t /\ p c = true.
Proof.
  destruct s as [|c s]; simpl; try contradiction.
  destruct (p c) eqn:E; simpl; try contradiction.
  intros [H|[]]. inversion H; subst. now exists c.
Qed.

Lemma alt_blank1_shape (p : ascii -> bool) (s : list ascii) (v : Z) (t : list ascii) :
  In (v, t) (Time.alt_blank1 p s) -> exists c, s = " "%char :: c :: t /\ p c = true.
Proof.
  destruct s as [|b [|c s]]; unfold Time.alt_blank1; try (now intros Hx).
  destruct (Time.exactly " " b) eqn:E1; destruct (p c) eqn:E2; cbn [andb];
    try (now intros Hx).
  intros [H|[]]. inversion H; subst. apply Ascii.eqb_eq in E1. subst. now exists c.
Qed.

Lemma digit_runs_shape (n : nat) :
  forall (acc : Z) (s : list ascii) (v : Z) (t : list ascii),
    In (v, t) (Time.digit_runs n acc s) ->
    exists k, (1 <= k <= n)%nat /\ (k <= length s)%nat /\ t = skipn k s
              /\ forallb Str.is_digit (firstn k s) = true.
Proof.
  induction n as [|n IH]; intros acc s v t; simpl; [contradiction|].
  destruct s as [|c s]; [contradiction|].
  destruct (Str.is_digit c) eqn:D; [|contradiction].
  intros H. apply in_app_or in H. destruct H as [H|[H|[]]].
  - destruct (IH _ _ _ _ H) as [k [K [L [-> F]]]].
    exists (S k). simpl. rewrite D, F. repeat split; lia.
  - inversion H; subst. exists 1%nat. simpl. rewrite D. repeat split; lia.
Qed.

Ltac digits_known :=
  repeat match goal with
         | H : Time.exactly ?d ?c = true |- _ =>
             apply (exactly_digit d c eq_refl) in H
         | H : Time.between ?lo ?hi ?c = true |- _ =>
             apply (between_digit lo hi c) in H;
             [| vm_compute; repeat constructor | vm_compute; repeat constructor]
         end.

(** A match of a directive takes some symbols from the head of the string,
    and their number is among [Blur.may_lengths]. *)
Lemma candidates_lengths (d : Time.directive) (s : list ascii) (v : Z) (t : list ascii) :
  In (v, t) (Time.candidates d s) ->
  exists k, In k (Blur.may_lengths d (Blur.blur s)) /\ t = skipn k s.
Proof.
  assert (two : forall c1 c2 r ks, In 2%nat ks -> Str.is_digit c1 = true ->
                                   Str.is_digit c2 = true ->
                                   In 2%nat (Blur.runs ks (Blur.blur (c1 :: c2 :: r)))).
  { intros c1 c2 r ks Hin D1 D2. apply in_runs; [exact Hin | simpl; lia |].
    simpl. now rewrite D1, D2. }
  assert (one : forall c1 r ks, In 1%nat ks -> Str.is_digit c1 = true ->
                                In 1%nat (Blur.runs ks (Blur.blur (c1 :: r)))).
  { intros c1 r ks Hin D1. apply in_runs; [exact Hin | simpl; lia |].
    simpl. now rewrite D1. }
  destruct d; cbn [Time.candidates Blur.may_lengths]; intros H.
  - (* %d *)
    repeat (apply in_app_or in H; destruct H as [H|H]).
    1-3: apply alt2_shape in H; destruct H as (c1 & c2 & -> & P1 & P2); digits_known;
      exists 2%nat; split; [apply in_or_app; left; apply two; simpl; tauto | reflexivity].
    + apply alt1_shape in H. destruct H as (c1 & -> & P1). digits_known.
      exists 1%nat. split; [apply in_or_app; left; apply one; simpl; tauto | reflexivity].
    + apply alt_blank1_shape in H. destruct H as (c & -> & P). digits_known.
      exists 2%nat. split; [|reflexivity]. apply in_or_app. right.
      cbn [Blur.blur map]. unfold Blur.blur_char at 1 2. rewrite P.
      change (Str.is_digit " ") with false. cbn iota. simpl. tauto.
  - (* %b *)
    unfold Time.alt_month in H. destruct s as [|c1 [|c2 [|c3 r]]]; try contradiction.
    apply in_map_iff in H. destruct H as [i [E _]]. inversion E; subst.
    exists 3%nat. split; [simpl; tauto | reflexivity].
  - (* %Y *)
    destruct s as [|c1 [|c2 [|c3 [|c4 r]]]]; try contradiction.
    destruct (Str.is_digit c1) eqn:D1; [|contradiction].
    destruct (Str.is_digit c2) eqn:D2; [|contradiction].
    destruct (Str.is_digit c3) eqn:D3; [|contradiction].
    destruct (Str.is_digit c4) eqn:D4; [|contradiction].
    destruct H as [H|[]]. inversion H; subst.
    exists 4%nat. split; [|reflexivity]. apply in_runs; [simpl; tauto | simpl; lia |].
    simpl. now rewrite D1, D2, D3, D4.
  - (* %m *)
    repeat (apply in_app_or in H; destruct H as [H|H]).
    1-2: apply alt2_shape in H; destruct H as (c1 & c2 & -> & P1 & P2); digits_known;
      exists 2%nat; split; [apply two; simpl; tauto | reflexivity].
    apply alt1_shape in H. destruct H as (c1 & -> & P1). digits_known.
    exists 1%nat. split; [apply one; simpl; tauto | reflexivity].
  - (* %H *)
    repeat (apply in_app_or in H; destruct H as [H|H]).
    1-2: apply alt2_shape in H; destruct H as (c1 & c2 & -> & P1 & P2); digits_known;
      exists 2%nat; split; [apply two; simpl; tauto | reflexivity].
    apply alt1_shape in H. destruct H as (c1 & -> & P1).
    exists 1%nat. split; [apply one; simpl; tauto | reflexivity].
  - (* %M *)
    apply in_app_or in H. destruct H as [H|H].
    + apply alt2_shape in H. destruct H as (c1 & c2 & -> & P1 & P2). digits_known.
      exists 2%nat. split; [apply two; simpl; tauto | reflexivity].
    + apply alt1_shape in H. destruct H as (c1 & -> & P1).
      exists 1%nat. split; [apply one; simpl; tauto | reflexivity].
  - (* %S *)
    repeat (apply in_app_or in H; destruct H as [H|H]).
    1-2: apply alt2_shape in H; destruct H as (c1 & c2 & -> & P1 & P2); digits_known;
      exists 2%nat; split; [apply two; simpl; tauto | reflexivity].
    apply alt1_shape in H. destruct H as (c1 & -> & P1).
    exists 1%nat. split; [apply one; simpl; tauto | reflexivity].
  - (* %f *)
    apply digit_runs_shape in H. destruct H as [k [K [L [-> F]]]].
    exists k. split; [|reflexivity]. apply in_runs; [|exact L|exact F].
    simpl. lia.
Qed.

Lemma after_spaces_blur (s t : list ascii) :
  In t (Time.after_spaces s) -> In (Blur.blur t) (Blur.after_spaces (Blur.blur s)).
Proof.
  induction s as [|c s IH]; simpl; [contradiction|].
  destruct (Str.is_space c) eqn:S; [|contradiction].
  assert (D : Str.is_digit c = false).
  { destruct (Str.is_digit c) eqn:D; [|reflexivity]. exfalso.
    unfold Str.is_space, Str.is_digit, Str.in_range in *.
    rewrite andb_true_iff, !Nat.leb_le in D.
    rewrite orb_true_iff, andb_true_iff, Nat.eqb_eq, !Nat.leb_le in S. lia. }
  unfold Blur.blur_char. rewrite D, S. intros H. apply in_app_or in H.
  apply in_or_app. destruct H as [H|[<-|[]]]; [left; now apply IH | right; now left].
Qed.

Lemma lower_digit (c : ascii) : Str.is_digit c = true -> Str.lower c = c.
Proof.
  intros D. unfold Str.lower.
  destruct (Str.is_upper c) eqn:U; [|reflexivity]. exfalso.
  unfold Str.is_upper, Str.is_digit, Str.in_range in *.
  rewrite andb_true_iff, !Nat.leb_le in D, U. lia.
Qed.

(** Whatever [Time.regex_match] matches in full, [Blur.may_match] allows. *)
Lemma may_match_sound (items : list Time.item) :
  forall (s : list ascii) (acc f : Time.fields),
    Time.regex_match items s acc = Some (f, []) ->
    Blur.may_match items (Blur.blur s) = true.
Proof.
  induction items as [|it items IH]; intros s acc f; cbn [Time.regex_match Blur.may_match].
  - intros H. inversion H; subst. reflexivity.
  - destruct it as [c| |d].
    + destruct s as [|c' t]; [discriminate|]. cbn [Blur.blur map].
      destruct (Ascii.eqb (Str.lower c) (Str.lower c')) eqn:E; [|discriminate].
      intros H. apply IH in H. fold (Blur.blur t). rewrite H, andb_true_r.
      unfold Blur.blur_char. destruct (Str.is_digit c') eqn:D; [|exact E].
      apply Ascii.eqb_eq in E. rewrite E, lower_digit; assumption.
    + intros H. apply first_some_In in H. destruct H as (t & Hin & H).
      apply existsb_exists. exists (Blur.blur t).
      split; [now apply after_spaces_blur | eapply IH; exact H].
    + intros H. apply first_some_In in H. destruct H as ([v t] & Hin & H).
      apply candidates_lengths in Hin. destruct Hin as [k [Hk ->]].
      apply existsb_exists. exists k. split; [exact Hk|].
      unfold Blur.blur. rewrite skipn_map. eapply IH. exact H.
Qed.

Lemma canonical_blur (s : string) :
  Time.canonical s = true -> Blur.blur (Str.chars s) = Blur.canonical.
Proof.
  unfold Time.canonical.
  destruct (Str.chars s) as [|y1 [|y2 [|y3 [|y4 [|m1 [|m2 [|d1 [|d2 [|t [|h1 [|h2 [|n1
    [|n2 [|s1 [|s2 [|more]]]]]]]]]]]]]]]]; try discriminate.
  cbn [forallb]. rewrite !andb_true_iff.
  intros [(A1 & A2 & A3 & A4 & A5 & A6 & A7 & A8 & A9 & A10 & A11 & A12 & A13 & A14 & _) T].
  apply Ascii.eqb_eq in T. subst t.
  unfold Blur.blur, Blur.canonical. cbn [map]. unfold Blur.blur_char.
  now rewrite A1, A2, A3, A4, A5, A6, A7, A8, A9, A10, A11, A12, A13, A14.
Qed.

Lemma strptime_needs_may_match (x format : string) (items : list Time.item)
      (t : Time.struct_time) :
  Time.compile (Str.chars format) = Some items ->
  Time.strptime x format = Ok t ->
  Blur.may_match items (Blur.blur (Str.chars x)) = true.
Proof.
  intros C. unfold Time.strptime. rewrite C.
  destruct (Time.regex_match items (Str.chars x) Time.initial) as [[f rest]|] eqn:M;
    [|discriminate].
  destruct rest; [|discriminate]. intros _. eapply may_match_sound. exact M.
Qed.

(** X18.  [parse_date] does not accept what it returns: every string of
    the form [YYYYMMDDTHHMMSS] matches none of the five formats, so that
    [parse_date] raises its [ValueError] on it; in particular, applying
    [parse_date] to a result of [parse_date] always raises. *)
Theorem parse_date_rejects_canonical (s : string)
        (Hcanonical : Time.canonical s = true) :
  (forall format, In format timeformats -> exists e, Time.strptime s format = Raise e)
  /\ parse_date s = Raise unknown_time_format.
Proof.
  assert (R : forall format, In format timeformats ->
                             exists e, Time.strptime s format = Raise e).
  { intros format Hin.
    destruct (Time.strptime s format) as [t|e] eqn:E; [|now exists e]. exfalso.
    pose proof (canonical_blur s Hcanonical) as B.
    simpl in Hin.
    repeat (destruct Hin as [<-|Hin];
            [ match type of E with
              | Time.strptime _ ?fmt = _ =>
                  let items := eval vm_compute in (Time.compile (Str.chars fmt)) in
                  match items with
                  | Some ?its =>
                      pose proof (strptime_needs_may_match s fmt its t
                                    ltac:(vm_compute; reflexivity) E) as M
                  end
              end;
              rewrite B in M; vm_compute in M; discriminate M |]).
    contradiction. }
  split; [exact R|]. unfold parse_date. apply parse_date_with_fails.
  intros fmt Hin. destruct (R fmt Hin) as [e E]. exists e. unfold convert. now rewrite E.
Qed.

Lemma parse_date_rejects_canonical_witness :
  parse_date "2020-01-01T00:00:00.000000" = Ok "20200101T000000"
  /\ parse_date "20200101T000000" = Raise unknown_time_format.
Proof.
  split; [vm_compute; reflexivity|].
  apply (parse_date_rejects_canonical "20200101T000000"). vm_compute. reflexivity.
Defined.

(** ** The year in the result of [ID.parse_date] *)

Lemma strftime_prefix (t : Time.struct_time) (s : string) :
  Time.strftime t = Ok s ->
  exists y rest, Time.strftime_year (Time.tm_year t) = Ok y
                 /\ s = (Time.decimal y ++ rest)%string /\ String.length rest = 11%nat.
Proof.
  unfold Time.strftime.
  destruct (Time.strftime_year (Time.tm_year t)) as [y|e]; [|discriminate].
  destruct (Time.in_bounds 1 12 (Time.tm_mon t)) eqn:B1; [|discriminate].
  destruct (Time.in_bounds 1 31 (Time.tm_mday t)) eqn:B2; [|discriminate].
  destruct (Time.in_bounds 0 23 (Time.tm_hour t)) eqn:B3; [|discriminate].
  destruct (Time.in_bounds 0 59 (Time.tm_min t)) eqn:B4; [|discriminate].
  destruct (Time.in_bounds 0 61 (Time.tm_sec t)) eqn:B5; [|discriminate].
  cbn [negb]. apply in_bounds_spec in B1, B2, B3, B4, B5.
  intros H. inversion H. exists y. eexists. split; [reflexivity|]. split; [reflexivity|].
  destruct (two_digit_shape_inv _ (two_digits_shape (Time.tm_mon t) ltac:(lia)))
    as (m1 & m2 & -> & _).
  destruct (two_digit_shape_inv _ (two_digits_shape (Time.tm_mday t) ltac:(lia)))
    as (d1 & d2 & -> & _).
  destruct (two_digit_shape_inv _ (two_digits_shape (Time.tm_hour t) ltac:(lia)))
    as (h1 & h2 & -> & _).
  destruct (two_digit_shape_inv _ (two_digits_shape (Time.tm_min t) ltac:(lia)))
    as (n1 & n2 & -> & _).
  destruct (two_digit_shape_inv _ (two_digits_shape (Time.tm_sec t) ltac:(lia)))
    as (s1 & s2 & -> & _).
  reflexivity.
Qed.

Lemma parse_date_with_from (formats : list string) (x s : string) :
  parse_date_with formats x = Ok s ->
  exists format, In format formats /\ convert x format = Ok s.
Proof.
  induction formats as [|f rest IH]; simpl; [discriminate|].
  destruct (convert x f) as [s'|e] eqn:E.
  - intros H. inversion H; subst. exists f. split; [now left | exact E].
  - destruct (is_TypeError e || is_ValueError e); [|discriminate].
    intros H. destruct (IH H) as [g [Hin Hg]]. exists g. split; [now right | exact Hg].
Qed.

(** X19.  The year of a time stamp that [parse_date] returns is never
    before 1900: the result starts with the four digits of a year between
    1900 and 9999, which is the year of the input when that is 1900 or
    later and the year that [time.strftime] reads into a two-digit year
    otherwise. *)
Theorem parse_date_year (x s : string)
        (Hparse : parse_date x = Ok s) :
  exists format t y rest,
    In format timeformats /\ Time.strptime x format = Ok t
    /\ s = (Time.decimal y ++ rest)%string /\ String.length rest = 11%nat
    /\ (1900 <= y <= 9999)%Z
    /\ ((1900 <= Time.tm_year t)%Z -> y = Time.tm_year t)
    /\ ((Time.tm_year t < 1900)%Z ->
        (Time.tm_year t <= 99)%Z
        /\ y = (Time.tm_year t + if (69 <=? Time.tm_year t)%Z then 1900 else 2000)%Z).
Proof.
  unfold parse_date in Hparse. apply parse_date_with_from in Hparse.
  destruct Hparse as [format [Hin C]]. unfold convert, bind in C.
  destruct (Time.strptime x format) as [t|e] eqn:P; [|discriminate].
  pose proof (strptime_in_ranges _ _ _ P) as (Y & _).
  destruct (strftime_prefix t s C) as (y & rest & Ey & -> & L).
  exists format, t, y, rest. split; [exact Hin|]. split; [exact P|].
  split; [reflexivity|]. split; [exact L|].
  split; [now apply (strftime_year_bounds (Time.tm_year t))|].
  unfold Time.strftime_year in Ey.
  destruct (1900 <=? Time.tm_year t)%Z eqn:E1.
  - apply Z.leb_le in E1. inversion Ey; subst. split; [reflexivity | lia].
  - apply Z.leb_gt in E1.
    destruct ((69 <=? Time.tm_year t) && (Time.tm_year t <=? 99))%Z eqn:E2.
    + apply andb_prop in E2. destruct E2 as [A B]. rewrite A.
      apply Z.leb_le in B. inversion Ey; subst. split; [lia|]. now split.
    + destruct ((0 <=? Time.tm_year t) && (Time.tm_year t <=? 68))%Z eqn:E3; [|discriminate].
      apply andb_prop in E3. destruct E3 as [A B]. apply Z.leb_le in B.
      assert (N : (69 <=? Time.tm_year t)%Z = false) by (apply Z.leb_gt; lia).
      rewrite N. inversion Ey; subst. split; [lia|]. split; [lia | reflexivity].
Qed.

Lemma parse_date_year_witness :
  exists format t y rest,
    In format timeformats /\ Time.strptime "0050-01-01T00:00:00.0" format = Ok t
    /\ "20500101T000000" = (Time.decimal y ++ rest)%string /\ String.length rest = 11%nat
    /\ (1900 <= y <= 9999)%Z
    /\ ((1900 <= Time.tm_year t)%Z -> y = Time.tm_year t)
    /\ ((Time.tm_year t < 1900)%Z ->
        (Time.tm_year t <= 99)%Z
        /\ y = (Time.tm_year t + if (69 <=? Time.tm_year t)%Z then 1900 else 2000)%Z).
Proof.
  apply (parse_date_year "0050-01-01T00:00:00.0" "20500101T000000").
  vm_compute. reflexivity.
Defined.

(** ** [filter_processed] *)

Lemma filter_twice {A : Type} (f : A -> bool) (l : list A) :
  filter f (filter f l) = filter f l.
Proof.
  induction l as [|x l IH]; simpl; [reflexivity|].
  destruct (f x) eqn:E; simpl; [rewrite E; now f_equal | exact IH].
Qed.

(** X20.  [filter_processed] keeps, in their order, exactly the scenes
    that are not processed: those for which the output directory is no
    directory or [finder] finds no product under their output base name.
    When the output directory is not a directory, the list comes back as it
    is.  Filtering a second time changes nothing. *)
Theorem filter_processed_keeps (fs : outdir_view) (scenelist : list ID) (outdir : string)
        (recursive : bool) :
  (forall x, In x (filter_processed fs scenelist outdir recursive) <->
             In x scenelist
             /\ (isdir fs outdir = true ->
                 find_products fs outdir (outname_base x) recursive = []))
  /\ (isdir fs outdir = false -> filter_processed fs scenelist outdir recursive = scenelist)
  /\ filter_processed fs (filter_processed fs scenelist outdir recursive) outdir recursive
     = filter_processed fs scenelist outdir recursive
  /\ (length (filter_processed fs scenelist outdir recursive) <= length scenelist)%nat.
Proof.
  unfold filter_processed. split; [|split; [|split]].
  - intros x. rewrite filter_In, negb_true_iff. unfold is_processed.
    destruct (isdir fs outdir).
    + destruct (find_products fs outdir (outname_base x) recursive) as [|p ps]; simpl.
      * tauto.
      * split; [intros [_ H]; discriminate | intros [_ H]; specialize (H eq_refl); discriminate].
    + split; intros [H _]; (split; [exact H|]); [discriminate | reflexivity].
  - intros N. apply filter_all. intros x _. unfold is_processed. now rewrite N.
  - apply filter_twice.
  - apply length_filter_le.
Qed.

Example filter_processed_drops_processed :
  filter_processed Fixtures.out_view [Fixtures.s1_id; Fixtures.tsx_id] "/out" false
  = [Fixtures.tsx_id]
  /\ filter_processed Fixtures.out_view [Fixtures.s1_id; Fixtures.tsx_id] "/nowhere" false
     = [Fixtures.s1_id; Fixtures.tsx_id].
Proof. split; vm_compute; reflexivity. Qed.

(** ** The width of [ID.outname_base] *)

(** X21.  For a record whose sensor and acquisition mode have at most four
    characters, whose orbit is one character and whose start was returned by
    [parse_date], [outname_base] has exactly 27 characters: the sensor in
    columns 1 to 4, the mode in columns 6 to 9, the orbit in column 11 and
    the time stamp from column 13 on. *)
Theorem outname_base_width (i : ID) (x : string)
        (Hsensor : (String.length (sensor i) <= 4)%nat)
        (Hmode : (String.length (acquisition_mode i) <= 4)%nat)
        (Horbit : String.length (orbit i) = 1%nat)
        (Hstart : parse_date x = Ok (start i)) :
  String.length (outname_base i) = 27%nat
  /\ String.substring 0 4 (outname_base i) = pad4 (sensor i)
  /\ String.substring 5 4 (outname_base i) = pad4 (acquisition_mode i)
  /\ String.substring 10 1 (outname_base i) = orbit i
  /\ String.substring 12 15 (outname_base i) = start i.
Proof.
  pose proof (parse_date_with_canonical _ _ _ Hstart) as [L _].
  pose proof (length_pad4 (sensor i)) as Ls. pose proof (length_pad4 (acquisition_mode i)) as Lm.
  rewrite Nat.max_l in Ls, Lm by lia.
  rewrite outname_base_unfold.
  destruct (pad4 (sensor i)) as [|a1 [|a2 [|a3 [|a4 [|a5 s]]]]]; try discriminate Ls.
  destruct (pad4 (acquisition_mode i)) as [|b1 [|b2 [|b3 [|b4 [|b5 m]]]]];
    try discriminate Lm.
  destruct (orbit i) as [|o [|o2 os]]; try discriminate Horbit.
  destruct (start i) as [|t1 [|t2 [|t3 [|t4 [|t5 [|t6 [|t7 [|t8 [|t9 [|t10 [|t11 [|t12
    [|t13 [|t14 [|t15 [|t16 ts]]]]]]]]]]]]]]]]; try discriminate L.
  repeat split; reflexivity.
Qed.

Lemma outname_base_width_witness :
  String.length (outname_base Fixtures.s1_id) = 27%nat
  /\ String.substring 12 15 (outname_base Fixtures.s1_id) = "20200110T000000".
Proof.
  destruct (outname_base_width Fixtures.s1_id "2020-01-10T00:00:00.000000")
    as [L [_ [_ [_ S]]]].
  - simpl. lia.
  - simpl. lia.
  - reflexivity.
  - vm_compute. reflexivity.
  - split; [exact L | exact S].
Defined.

(** ** The words of a regular expression, and the names of [ESA] and [CEOS_ERS] *)

Lemma fullmatch_Eps (s : list ascii) :
  Re.fullmatch Re.Eps s = match s with [] => true | _ :: _ => false end.
Proof. destruct s as [|c s]; [reflexivity|]. simpl. apply fullmatch_Void. Qed.

Lemma alt_cases (a b : Re.re) :
  (a = Re.Void /\ Re.alt a b = b) \/ (b = Re.Void /\ Re.alt a b = a)
  \/ Re.alt a b = Re.Alt a b.
Proof. destruct a; try (left; split; reflexivity); destruct b; auto. Qed.

Lemma cat_cases (a b : Re.re) :
  (a = Re.Void /\ Re.cat a b = Re.Void) \/ (b = Re.Void /\ Re.cat a b = Re.Void)
  \/ (a = Re.Eps /\ Re.cat a b = b) \/ (b = Re.Eps /\ Re.cat a b = a)
  \/ Re.cat a b = Re.Cat a b.
Proof. destruct a; auto; destruct b; auto 6. Qed.

Lemma fullmatch_alt (s : list ascii) :
  forall a b,
    Re.fullmatch (Re.alt a b) s = Re.fullmatch a s || Re.fullmatch b s
    /\ Re.fullmatch (Re.Alt a b) s = Re.fullmatch a s || Re.fullmatch b s.
Proof.
  induction s as [|c s IH]; intros a b.
  - split; [|reflexivity].
    destruct (alt_cases a b) as [[-> ->]|[[-> ->]| ->]]; simpl;
      [reflexivity | now rewrite orb_false_r | reflexivity].
  - assert (A : Re.fullmatch (Re.Alt a b) (c :: s)
                = Re.fullmatch a (c :: s) || Re.fullmatch b (c :: s)).
    { simpl. apply IH. }
    split; [|exact A].
    destruct (alt_cases a b) as [[-> ->]|[[-> ->]| ->]].
    + cbn [Re.fullmatch Re.deriv]. now rewrite fullmatch_Void.
    + cbn [Re.fullmatch Re.deriv]. now rewrite fullmatch_Void, orb_false_r.
    + exact A.
Qed.

Lemma cat_from_Cat (s : list ascii) :
  (forall a b, Re.fullmatch (Re.Cat a b) s = true <-> splits a b s) ->
  forall a b, Re.fullmatch (Re.cat a b) s = true <-> splits a b s.
Proof.
  intros H a b.
  destruct (cat_cases a b) as [[-> ->]|[[-> ->]|[[-> ->]|[[-> ->]| ->]]]].
  - rewrite fullmatch_Void. split; [discriminate|].
    intros (s1 & s2 & _ & F & _). now rewrite fullmatch_Void in F.
  - rewrite fullmatch_Void. split; [discriminate|].
    intros (s1 & s2 & _ & _ & F). now rewrite fullmatch_Void in F.
  - split.
    + intros F. exists [], s. now repeat split.
    + intros (s1 & s2 & -> & F1 & F2). rewrite fullmatch_Eps in F1.
      destruct s1; [exact F2 | discriminate].
  - split.
    + intros F. exists s, []. rewrite app_nil_r. now repeat split.
    + intros (s1 & s2 & -> & F1 & F2). rewrite fullmatch_Eps in F2.
      destruct s2; [now rewrite app_nil_r | discriminate].
  - apply H.
Qed.

Lemma nullable_fullmatch (a : Re.re) : Re.fullmatch a [] = Re.nullable a.
Proof. reflexivity. Qed.

Lemma fullmatch_Cat (s : list ascii) :
  forall a b, Re.fullmatch (Re.Cat a b) s = true <-> splits a b s.
Proof.
  induction s as [|c s IH]; intros a b.
  - cbn [Re.fullmatch Re.nullable]. rewrite andb_true_iff. split.
    + intros [A B]. exists [], []. now repeat split.
    + intros (s1 & s2 & E & F1 & F2). symmetry in E. apply app_eq_nil in E.
      destruct E as [-> ->]. now split.
  - cbn [Re.fullmatch Re.deriv].
    rewrite (proj1 (fullmatch_alt s _ _)), orb_true_iff.
    rewrite (cat_from_Cat s IH). split.
    + intros [(s1 & s2 & -> & F1 & F2)|F].
      * exists (c :: s1), s2. now repeat split.
      * destruct (Re.nullable a) eqn:N; [|now rewrite fullmatch_Void in F].
        exists [], (c :: s). now repeat split.
    + intros (s1 & s2 & E & F1 & F2). destruct s1 as [|c1 s1].
      * right. simpl in E. subst s2. rewrite nullable_fullmatch in F1. now rewrite F1.
      * left. simpl in E. inversion E; subst. exists s1, s2. now repeat split.
Qed.

Lemma esa_extension_is_ers_extension (s : list ascii) :
  Re.fullmatch (Re.alts [Re.lit ".zip"; Re.lit ".tar.gz"; Re.Eps]) s = true ->
  Re.fullmatch (Re.alts [Re.lit ".zip"; Re.lit ".tar.gz"; Re.lit ".PS"; Re.Eps]) s = true.
Proof.
  cbn [Re.alts]. rewrite !(proj2 (fullmatch_alt s _ _)), !orb_true_iff.
  intros [H|[H|H]]; auto.
Qed.

Lemma esa_here_is_ers_here (s : list ascii) :
  Re.match_here Patterns.esa s = true -> Re.match_here Patterns.ceos_ers s = true.
Proof.
  unfold Re.match_here, Patterns.esa, Patterns.ceos_ers.
  cbn [Re.body Re.tail Re.eol Re.seq Re.cat Re.opt].
  rewrite !fullmatch_Cat.
  intros (s1 & s2 & -> & F1 & F2). exists s1, s2. split; [reflexivity|]. split; [|exact F2].
  revert F1. rewrite !fullmatch_Cat.
  intros (p & q & -> & P & Q). exists p, q. split; [reflexivity|]. split; [exact P|].
  revert Q. rewrite !fullmatch_Cat.
  intros (r & e & -> & R & E). exists r, e. split; [reflexivity|]. split; [exact R|].
  now apply esa_extension_is_ers_extension.
Qed.

Lemma esa_somewhere_is_ers_somewhere (s : list ascii) :
  Re.match_somewhere Patterns.esa s = true -> Re.match_somewhere Patterns.ceos_ers s = true.
Proof.
  induction s as [|c s IH]; cbn [Re.match_somewhere]; rewrite !orb_true_iff.
  - intros [H|H]; [left; now apply esa_here_is_ers_here | discriminate].
  - intros [H|H]; [left; now apply esa_here_is_ers_here | right; now apply IH].
Qed.

(** X22.  Every name that [ESA.pattern] accepts is accepted by
    [CEOS_ERS.pattern], under [re.search] and under [re.match] alike: the
    two patterns differ only in the extension group, and the extensions of
    [ESA] are among those of [CEOS_ERS].  The converse fails: a name with
    the extension [.PS] is accepted by [CEOS_ERS.pattern] only. *)
Theorem esa_names_are_ers_names :
  (forall name : string,
      (Re.search Patterns.esa name = true -> Re.search Patterns.ceos_ers name = true)
      /\ (Re.matches Patterns.esa name = true -> Re.matches Patterns.ceos_ers name = true))
  /\ (exists name : string,
         Re.matches Patterns.ceos_ers name = true
         /\ Re.search Patterns.esa name = false).
Proof.
  split.
  - intros name. split.
    + unfold Re.search. cbn [Re.bol Patterns.esa Patterns.ceos_ers].
      apply esa_somewhere_is_ers_somewhere.
    + unfold Re.matches. apply esa_here_is_ers_here.
  - exists "SAR_IMP_1PWDSI19920904_101949_00000018C087_00294_05971_0000.E1.PS"%string.
    split; vm_compute; reflexivity.
Qed.

(** X23.  A scene that is a plain file and passes the name checks at the
    start of [ESA.__init__] passes the same checks at the start of
    [CEOS_ERS.__init__], with the same file and the same image mode.  As
    [CEOS_ERS] comes before [ESA] among the handlers, such a scene reaches
    [gdalinfo] in [CEOS_ERS.__init__] before [ESA] is tried. *)
Theorem esa_file_passes_ers_front (ext : externals) (sc : scene) (r : string * string) :
  scene_kind sc = PlainFile ->
  esa_family_front ext "ESA" Patterns.esa sc = Ok r ->
  esa_family_front ext "CEOS_ERS" Patterns.ceos_ers sc = Ok r.
Proof.
  intros K. unfold esa_family_front, examine, findfiles. rewrite K.
  destruct (Re.search Patterns.esa (scene_path sc)) eqn:S; [|discriminate].
  assert (S' : Re.search Patterns.ceos_ers (scene_path sc) = true).
  { revert S. unfold Re.search. cbn [Re.bol Patterns.esa Patterns.ceos_ers].
    apply esa_somewhere_is_ers_somewhere. }
  rewrite S'. cbn [examine_files Py.bind].
  destruct (Re.matches Patterns.esa (Str.basename (scene_path sc))) eqn:M;
    [|discriminate].
  assert (M' : Re.matches Patterns.ceos_ers (Str.basename (scene_path sc)) = true).
  { revert M. unfold Re.matches. apply esa_here_is_ers_here. }
  rewrite M'. cbn [negb]. intros H; exact H.
Qed.

Lemma esa_file_passes_ers_front_witness :
  let sc := Scene "/data/ASA_IMS_1PNESA20040703_205338_000000182028_00172_12250_0001.N1"
                  PlainFile [] in
  let r := ("/data/ASA_IMS_1PNESA20040703_205338_000000182028_00172_12250_0001.N1"%string,
            "IMS"%string) in
  esa_family_front Fixtures.ext0 "CEOS_ERS" Patterns.ceos_ers sc = Ok r.
Proof.
  apply (esa_file_passes_ers_front Fixtures.ext0).
  - reflexivity.
  - vm_compute. reflexivity.
Defined.

(** ** The loop over the facility related records ends or goes on for ever *)

Lemma loop_next (fuel : nat) (led : Leader.bytes) (p q : Z) (records : list Leader.bytes) :
  Leader.next led p = Some q ->
  Leader.facilityRelatedData (S fuel) led p records
  = Leader.facilityRelatedData fuel led q (records ++ [Leader.slice led p q]).
Proof.
  unfold Leader.next. cbn [Leader.facilityRelatedData].
  destruct (p <? Leader.len led)%Z; [|discriminate].
  destruct (Leader.unpack_be_i32 _) as [n|e]; [|discriminate].
  intros H. now inversion H.
Qed.

Lemma loop_stops (fuel : nat) (led : Leader.bytes) (p : Z) (records : list Leader.bytes) :
  Leader.next led p = None ->
  exists r, r <> Raise Hang
            /\ forall fuel, Leader.facilityRelatedData (S fuel) led p records = Some r.
Proof.
  unfold Leader.next. cbn [Leader.facilityRelatedData].
  destruct (p <? Leader.len led)%Z.
  - destruct (Leader.unpack_be_i32 (Leader.slice led (p + 8) (p + 12))) as [n|e] eqn:U;
      [discriminate|].
    intros _. exists (Raise e). split; [|reflexivity].
    destruct (Leader.slice led (p + 8) (p + 12)) as [|b0 [|b1 [|b2 [|b3 [|b4 b]]]]];
      simpl in U; inversion U; discriminate.
  - intros _. exists (Ok records). split; [discriminate | reflexivity].
Qed.

Lemma loop_none_iff (fuel : nat) (led : Leader.bytes) :
  forall p records,
    Leader.facilityRelatedData fuel led p records = None
    <-> Leader.after fuel led p <> None.
Proof.
  induction fuel as [|fuel IH]; intros p records.
  - cbn. split; [discriminate | reflexivity].
  - cbn [Leader.after]. destruct (Leader.next led p) as [q|] eqn:N.
    + rewrite (loop_next fuel led p q records N). apply IH.
    + destruct (loop_stops fuel led p records N) as [r [_ S]]. rewrite S.
      split; [discriminate | intros H; now contradiction H].
Qed.

Lemma loop_some (fuel : nat) (led : Leader.bytes) :
  forall p records r,
    Leader.facilityRelatedData fuel led p records = Some r ->
    r <> Raise Hang
    /\ forall fuel', (fuel <= fuel')%nat ->
                     Leader.facilityRelatedData fuel' led p records = Some r.
Proof.
  induction fuel as [|fuel IH]; intros p records r; [discriminate|].
  destruct (Leader.next led p) as [q|] eqn:N.
  - rewrite (loop_next fuel led p q records N). intros H.
    destruct (IH _ _ _ H) as [NH M]. split; [exact NH|].
    intros [|fuel'] L; [lia|]. rewrite (loop_next fuel' led p q records N).
    apply M. lia.
  - destruct (loop_stops fuel led p records N) as [r' [NH S]]. rewrite S.
    intros H. inversion H; subst r'. split; [exact NH|].
    intros [|fuel'] L; [lia | apply S].
Qed.

Lemma after_add (a b : nat) (led : Leader.bytes) :
  forall p, Leader.after (a + b) led p
            = match Leader.after a led p with
              | Some q => Leader.after b led q
              | None => None
              end.
Proof.
  induction a as [|a IH]; intros p; [reflexivity|]. cbn [Nat.add Leader.after].
  destruct (Leader.next led p); [apply IH | reflexivity].
Qed.

Lemma after_prefix (a b : nat) (led : Leader.bytes) (p : Z) :
  (a <= b)%nat -> Leader.after b led p <> None -> Leader.after a led p <> None.
Proof.
  intros L. replace b with (a + (b - a))%nat by lia. rewrite after_add.
  destruct (Leader.after a led p); [discriminate | tauto].
Qed.

(** A turn that goes on starts at a position from which four bytes of the
    length field can be read. *)
Lemma next_in_range (led : Leader.bytes) (p q : Z) :
  Leader.next led p = Some q -> (- Leader.len led - 12 <= p < Leader.len led)%Z.
Proof.
  unfold Leader.next. destruct (p <? Leader.len led)%Z eqn:E; [|discriminate].
  apply Z.ltb_lt in E.
  destruct (Leader.unpack_be_i32 (Leader.slice led (p + 8) (p + 12))) as [n|e] eqn:U;
    [|discriminate].
  intros _. split; [|exact E].
  destruct (Z.lt_ge_cases p (- Leader.len led - 12)) as [Low|]; [|assumption].
  exfalso. rewrite unpack_wrong_length in U; [discriminate|].
  pose proof (length_slice led (p + 8) (p + 12)) as L. unfold Leader.clamp in L.
  destruct (p + 12 <? 0)%Z eqn:A; [|apply Z.ltb_ge in A; unfold Leader.len in *; lia].
  destruct (p + 8 <? 0)%Z eqn:B; [|apply Z.ltb_ge in B; lia].
  unfold Leader.len in *. lia.
Qed.

Lemma in_interval (lo x : Z) (size : nat) :
  (lo <= x < lo + Z.of_nat size)%Z ->
  In x (map (fun k => (lo + Z.of_nat k)%Z) (seq 0 size)).
Proof.
  intros H. apply in_map_iff. exists (Z.to_nat (x - lo)). split; [lia|].
  apply in_seq. lia.
Qed.

(** Among the values of [f] at [0], ..., [n - 1] two are the same, or all
    differ. *)
Lemma repeats_or_not (f : nat -> Z) (n : nat) :
  (exists i j, (i < j < n)%nat /\ f i = f j) \/ NoDup (map f (seq 0 n)).
Proof.
  induction n as [|n [(i & j & L & E)|ND]].
  - right. constructor.
  - left. exists i, j. split; [lia | exact E].
  - rewrite seq_S, map_app. cbn [map Nat.add].
    destruct (in_dec Z.eq_dec (f n) (map f (seq 0 n))) as [Hin|Hout].
    + left. apply in_map_iff in Hin. destruct Hin as [i [E Hi]]. apply in_seq in Hi.
      exists i, n. split; [lia | exact E].
    + right. apply NoDup_app; [exact ND | constructor; [tauto | constructor] |].
      intros x Hx [<-|[]]. contradiction.
Qed.

(** X24.  The number of turns that [scanMetadata] is given for the loop is
    enough.  When the loop returns or raises after some number of turns,
    [Leader.trailer] has that outcome; and [Leader.trailer] reports that the
    loop does not return exactly when the loop has not ended after any
    number of turns.  A loop that has not ended after twice the length of
    the file and fourteen turns has been at one position twice, and goes on
    from there as before. *)
Theorem trailer_is_the_loop (led : Leader.bytes) (p1 : Z) :
  (forall fuel r, Leader.facilityRelatedData fuel led p1 [] = Some r ->
                  Leader.trailer led p1 = r)
  /\ (Leader.trailer led p1 = Raise Hang
      <-> forall fuel, Leader.facilityRelatedData fuel led p1 [] = None).
Proof.
  assert (Forever : Leader.facilityRelatedData (Leader.loop_fuel led) led p1 [] = None ->
                    forall fuel, Leader.facilityRelatedData fuel led p1 [] = None).
  { intros H fuel. apply loop_none_iff. apply loop_none_iff in H.
    set (size := Z.to_nat (2 * Leader.len led + 12)).
    set (f := fun i => match Leader.after i led p1 with Some q => q | None => 0%Z end).
    assert (Defined_ : forall i, (i <= S size)%nat -> Leader.after i led p1 <> None).
    { intros i Hi. apply (after_prefix i (Leader.loop_fuel led)); [|exact H].
      unfold Leader.loop_fuel, size, Leader.len in *. lia. }
    assert (Range : forall i, (i <= size)%nat ->
                              (- Leader.len led - 12 <= f i < Leader.len led)%Z).
    { intros i Hi. unfold f.
      pose proof (Defined_ (S i) ltac:(lia)) as D.
      replace (S i) with (i + 1)%nat in D by lia. rewrite after_add in D.
      destruct (Leader.after i led p1) as [q|]; [|tauto].
      cbn [Leader.after] in D. destruct (Leader.next led q) as [q'|] eqn:N; [|tauto].
      apply (next_in_range led q q' N). }
    destruct (repeats_or_not f (S size)) as [(i & j & L & E)|ND].
    - (* the position after [i] turns comes back after [j] turns *)
      assert (Di : Leader.after i led p1 = Some (f i)).
      { unfold f. pose proof (Defined_ i ltac:(lia)) as D.
        destruct (Leader.after i led p1); [reflexivity | tauto]. }
      assert (Dj : Leader.after j led p1 = Some (f i)).
      { rewrite E. unfold f. pose proof (Defined_ j ltac:(lia)) as D.
        destruct (Leader.after j led p1); [reflexivity | tauto]. }
      assert (Cycle : Leader.after (j - i) led (f i) = Some (f i)).
      { replace j with (i + (j - i))%nat in Dj by lia.
        rewrite after_add, Di in Dj. exact Dj. }
      assert (Round : forall k, Leader.after (k * (j - i)) led (f i) = Some (f i)).
      { induction k as [|k IH]; [reflexivity|].
        cbn [Nat.mul]. now rewrite after_add, Cycle. }
      apply (after_prefix fuel (i + fuel * (j - i))); [nia|].
      rewrite after_add, Di, Round. discriminate.
    - exfalso.
      assert (Len : (length (map f (seq 0 (S size))) <= size)%nat).
      { apply (Nat.le_trans _
                 (length (map (fun k => (- Leader.len led - 12 + Z.of_nat k)%Z)
                              (seq 0 size))));
          [|rewrite length_map, length_seq; lia].
        apply NoDup_incl_length; [exact ND|].
        intros x Hx. apply in_map_iff in Hx. destruct Hx as [i [<- Hi]].
        apply in_seq in Hi. apply in_interval.
        pose proof (Range i ltac:(lia)) as R. unfold size, Leader.len in *. lia. }
      rewrite length_map, length_seq in Len. lia. }
  split.
  - intros fuel r S. unfold Leader.trailer.
    destruct (Leader.facilityRelatedData (Leader.loop_fuel led) led p1 []) as [r'|] eqn:L.
    + destruct (Nat.le_ge_cases fuel (Leader.loop_fuel led)) as [G|G].
      * rewrite (proj2 (loop_some _ _ _ _ _ S) _ G) in L. now inversion L.
      * rewrite (proj2 (loop_some _ _ _ _ _ L) _ G) in S. now inversion S.
    + rewrite (Forever eq_refl fuel) in S. discriminate.
  - unfold Leader.trailer. split.
    + destruct (Leader.facilityRelatedData (Leader.loop_fuel led) led p1 []) as [r|] eqn:L.
      * intros ->. destruct (loop_some _ _ _ _ _ L) as [NH _]. now contradiction NH.
      * intros _. now apply Forever.
    + intros H. now rewrite H.
Qed.

(** With a length field of zero the loop does not return; with the trailer
    of the leader file of the examples, which is cut short, it does. *)
Example trailer_outcomes :
  Leader.trailer Fixtures.zero_trailer 0 = Raise Hang
  /\ Leader.trailer Fixtures.palsar_leader 14676 = Ok [Fixtures.cut_record].
Proof. split; vm_compute; reflexivity. Qed.

(** ** What [CEOS_PSR.scanMetadata] returns and where it cannot return *)





(** A product in polar stereographic projection is not identified: the
    [TypeError] leaves [scanMetadata], the constructor and [identify]. *)
Example polar_product_is_not_identified :
  psr_projection Fixtures.ext_ups Fixtures.ups_projection_data = Raise tuple_index
  /\ CEOS_PSR Fixtures.ext_ups Fixtures.ups_tar = Raise tuple_index
  /\ identify Fixtures.ext_ups Fixtures.ups_tar = Raise tuple_index.
Proof. repeat split; vm_compute; reflexivity. Qed.



